(** * Relay middleware: session registry, token caches and the chat turn

    A shallow embedding of [RelayMiddleware] (relay-middleware.js): the
    per-user token store, the service-token cache, the connection registry,
    the janitor and the orchestration of one chat turn, followed by the
    properties of these operations.

    Conventions of the embedding.
    - A JavaScript string is a [string] whose characters are code units
      below 256.
    - A JavaScript number is an integer of [Z] or [NaN]; fractions and
      infinities are not represented.
    - [Date.now()] is an argument [now] of each operation: one operation
      runs at one clock reading.
    - A call of a method runs from its start to its end with no other call
      of the middleware in between: where the source awaits, the model goes
      on, and the properties of a call are those of a call that nothing
      interleaves with. The one interleaving that is represented is the
      janitor firing on its timer while a turn awaits the answer of the
      agent ([sendMessageDuring]).
    - [console.log] and the other logging calls have no counterpart.
    - The platform functions ([JSON.parse], [Buffer]) and the collaborators
      (identity provider, agent client, chat client) are the fields of an
      environment record; what they were asked is recorded in the world. *)

From Stdlib Require Import ZArith Ascii String List Lia Bool.
From stdpp Require Import gmap strings list fin_maps.

Local Open Scope Z_scope.

(** ** JavaScript strings *)

Module JsString.

(** The double quote character, for the JSON text the middleware sends. *)
Definition dquote : string := String (ascii_of_nat 34) EmptyString.

Definition quoted (s : string) : string := dquote +:+ s +:+ dquote.

(** A line feed. *)
Definition lf : string := String (ascii_of_nat 10) EmptyString.

(** [s.split(sep)] for a one-character separator. *)
Fixpoint split (sep : ascii) (s : string) : list string :=
  match s with
  | EmptyString => [EmptyString]
  | String c s' =>
      if Ascii.eqb c sep then EmptyString :: split sep s'
      else match split sep s' with
           | [] => [String c EmptyString]
           | p :: ps => String c p :: ps
           end
  end.

(** White space and line terminators among the code units below 256:
    TAB, LF, VT, FF, CR, SP and NBSP. *)
Definition isWhiteSpace (c : ascii) : bool :=
  let n := nat_of_ascii c in
  ((9 <=? n)%nat && (n <=? 13)%nat) || (n =? 32)%nat || (n =? 160)%nat.

Fixpoint trimStart (s : string) : string :=
  match s with
  | EmptyString => EmptyString
  | String c s' => if isWhiteSpace c then trimStart s' else s
  end.

Fixpoint trimEnd (s : string) : string :=
  match s with
  | EmptyString => EmptyString
  | String c s' =>
      match trimEnd s' with
      | EmptyString => if isWhiteSpace c then EmptyString else String c EmptyString
      | t => String c t
      end
  end.

(** [s.trim()] *)
Definition trim (s : string) : string := trimEnd (trimStart s).

(** [Some rest] when [s] is [p] followed by [rest]. *)
Fixpoint stripPrefix (p s : string) : option string :=
  match p, s with
  | EmptyString, _ => Some s
  | String a p', String b s' => if Ascii.eqb a b then stripPrefix p' s' else None
  | String _ _, EmptyString => None
  end.

(** [s.replace(pat, rep)] for a string pattern: the first occurrence only. *)
Fixpoint replace (pat rep s : string) : string :=
  match stripPrefix pat s with
  | Some rest => rep +:+ rest
  | None =>
      match s with
      | EmptyString => EmptyString
      | String c s' => String c (replace pat rep s')
      end
  end.

(** A string in a condition: the empty string is falsy. *)
Definition truthy (s : string) : bool :=
  match s with EmptyString => false | String _ _ => true end.

(** An optional string ([undefined] or [null] when absent) in a condition. *)
Definition truthyOpt (s : option string) : bool :=
  match s with Some t => truthy t | None => false end.

End JsString.

(** ** JavaScript values read from JSON *)

Module Js.

(** Values that [JSON.parse] produces. *)
#[local] Unset Elimination Schemes.
Inductive Json : Type :=
| JNull
| JBool (b : bool)
| JNum (z : Z)
| JStr (s : string)
| JArr (items : list Json)
| JObj (fields : list (string * Json)).
#[local] Set Elimination Schemes.

(** A value or [undefined]. *)
Definition Value : Type := option Json.

Definition undefined : Value := None.

(** A number: an integer or [NaN]. *)
Inductive Num : Type :=
| NaN
| Fin (z : Z).

(** What the code can throw or receive as a rejection. *)
Inductive Error : Type :=
| TypeError (msg : string)
| SyntaxError (msg : string)
| RangeError (msg : string)
| Rejected (msg : string).

(** Synchronous evaluation that may throw. *)
Definition Eval (A : Type) : Type := Error + A.

Definition evalBind {A B} (m : Eval A) (k : A -> Eval B) : Eval B :=
  match m with
  | inl e => inl e
  | inr a => k a
  end.

(** A value in a condition. *)
Definition truthy (v : Value) : bool :=
  match v with
  | None => false
  | Some JNull => false
  | Some (JBool b) => b
  | Some (JNum z) => negb (z =? 0)
  | Some (JStr s) => JsString.truthy s
  | Some (JArr _) => true
  | Some (JObj _) => true
  end.

Fixpoint assoc (k : string) (fields : list (string * Json)) : Value :=
  match fields with
  | [] => None
  | (k', v) :: rest => if String.eqb k k' then Some v else assoc k rest
  end.

(** [v.k] for the property names the middleware reads ([exp], [buttons],
    [type], [value], [text]): none of them is a built-in property of a
    string, number, boolean or array, so only objects can have them;
    reading a property of [null] or [undefined] throws. *)
Definition getProp (v : Value) (k : string) : Eval Value :=
  match v with
  | None => inl (TypeError "Cannot read properties of undefined")
  | Some JNull => inl (TypeError "Cannot read properties of null")
  | Some (JObj fields) => inr (assoc k fields)
  | Some _ => inr undefined
  end.

(** [v?.k] *)
Definition getPropOpt (v : Value) (k : string) : Eval Value :=
  match v with
  | None | Some JNull => inr undefined
  | _ => getProp v k
  end.

(** [v === 'lit'] *)
Definition strictEqStr (v : Value) (lit : string) : bool :=
  match v with
  | Some (JStr s) => String.eqb s lit
  | _ => false
  end.

(** [items.find(pred)] where the callback may throw. *)
Fixpoint find (pred : Json -> Eval bool) (items : list Json) : Eval Value :=
  match items with
  | [] => inr undefined
  | b :: rest =>
      match pred b with
      | inl e => inl e
      | inr true => inr (Some b)
      | inr false => find pred rest
      end
  end.

(** [v?.find(pred)]: [undefined] on [null] and [undefined], the search on
    an array, and a TypeError on every other value, none of which has a
    callable [find]. *)
Definition findOpt (v : Value) (pred : Json -> Eval bool) : Eval Value :=
  match v with
  | None | Some JNull => inr undefined
  | Some (JArr items) => find pred items
  | Some _ => inl (TypeError "find is not a function")
  end.

Definition numMul (a b : Num) : Num :=
  match a, b with
  | Fin x, Fin y => Fin (x * y)
  | _, _ => NaN
  end.

(** [now > n] for an integer clock reading. *)
Definition gtNum (now : Z) (n : Num) : bool :=
  match n with
  | Fin z => z <? now
  | NaN => false
  end.

(** A nullable number in a condition: [null], [NaN] and [0] are falsy. *)
Definition truthyNum (n : option Num) : bool :=
  match n with
  | Some (Fin z) => negb (z =? 0)
  | Some NaN => false
  | None => false
  end.

(** The time values of a valid [Date]: the integers at most 8.64e15
    milliseconds from the epoch. *)
Definition validTime (n : Num) : bool :=
  match n with
  | Fin z => (-8640000000000000 <=? z) && (z <=? 8640000000000000)
  | NaN => false
  end.

(** [new Date(n).toISOString()]: a RangeError when [n] is not the time
    value of a valid date. The middleware puts the text in log lines only,
    so the text itself is left out. *)
Definition toISOString (n : Num) : Eval unit :=
  if validTime n then inr tt else inl (RangeError "Invalid time value").

End Js.

(** ** Data of the middleware *)

(** A response fragment (activity) of the agent:
    [{type, text?, name?, attachments?[{contentType, content}]}].
    The card in [content] is untyped JSON. *)
Record Attachment : Type := mkAttachment {
  contentType : string;
  content : Js.Value
}.

Record Activity : Type := mkActivity {
  activity_type : string;
  activity_text : option string;
  activity_name : option string;
  attachments : option (list Attachment)
}.

(** [new CopilotStudioClient(connectionConfig, token)] *)
Record Client : Type := mkClient {
  clientToken : string
}.

(** What [startConversationAsync] resolves to; [conversation] is
    [conversationActivity.conversation?.id]. *)
Record ConversationActivity : Type := mkConversationActivity {
  conversation : option string
}.

(** An entry of [activeConnections]. *)
Record Connection : Type := mkConnection {
  client : Client;
  conversationId : option string;
  conversationActivity : ConversationActivity;
  lastActivity : Z;
  connection_userId : string
}.

(** The structured entry of [userTokens]. *)
Record TokenData : Type := mkTokenData {
  token : string;
  storedAt : Z;
  lastUsed : Z;
  expiresAt : option Js.Num
}.

(** An entry of [userTokens]: the legacy bare string or the structured record. *)
Inductive TokenEntry : Type :=
| Legacy (s : string)
| Structured (d : TokenData).

(** [serviceTokenCache] *)
Record ServiceTokenCache : Type := mkServiceTokenCache {
  cache_token : option string;
  cache_expiresAt : Z
}.

(** A key of [activeConnections]: a user id, or [undefined] ([None]) when a
    call leaves the argument out. *)
Abbreviation UserKey := (option string).

(** Writes to [activeConnections], in the order they were made. *)
Inductive RegistryOp : Type :=
| RegSet (k : UserKey) (c : Connection)
| RegDelete (k : UserKey).

(** Requests to the chat client. *)
Inductive SlackCall : Type :=
| ChatPostMessage (channel text : string)
| ChatUpdate (channel ts text : string).

(** A question sent upstream: the client, the text and the conversation id. *)
Record Question : Type := mkQuestion {
  question_client : Client;
  question_text : string;
  question_conversationId : option string
}.

(** The state of one [RelayMiddleware] object and the record of what it asked
    of its collaborators (each list has the most recent request first). *)
Record World : Type := mkWorld {
  activeConnections : gmap UserKey Connection;
  userTokens : gmap string TokenEntry;
  serviceTokenCache : ServiceTokenCache;
  slackClient : bool;
  registryOps : list RegistryOp;
  providerRequests : list string;
  startedConversations : list Client;
  questions : list Question;
  slackCalls : list SlackCall
}.

(** ** The environment *)

(** [acquireTokenByClientCredential] rejects, resolves to [null], or resolves
    to [{accessToken, expiresOn}] with [expiresOn] a date (its [getTime()])
    or [null]. *)
Inductive ProviderOutcome : Type :=
| ProviderRejects (e : Js.Error)
| ProviderNull
| ProviderResolves (accessToken : string) (expiresOn : option Z).

Inductive StartOutcome : Type :=
| StartRejects (e : Js.Error)
| StartResolves (a : ConversationActivity).

Inductive AskOutcome : Type :=
| AskRejects (e : Js.Error)
| AskResolves (replies : list Activity).

(** [chat.postMessage] resolves to [{ts, channel}]. *)
Record PostResult : Type := mkPostResult {
  post_ts : string;
  post_channel : string
}.

(** The platform, the configuration and the collaborators. A collaborator
    answers as a function of the number of requests made to it before and of
    the request itself. *)
Record Env : Type := mkEnv {
  (** [JSON.parse(Buffer.from(segment, 'base64').toString())]; [None] when
      it throws. *)
  parsePayload : string -> option Js.Json;
  (** [Number(v)] of a value that is not a number. *)
  toNumberOther : Js.Json -> Js.Num;
  (** [String(v)] of a value that is not a string. *)
  toStringOther : Js.Json -> string;
  (** [config.oauth.scope] *)
  oauth_scope : string;
  (** [config.app.connectionTimeoutMs] *)
  connectionTimeoutMs : Z;
  acquireTokenByClientCredential : nat -> string -> ProviderOutcome;
  startConversationAsync : nat -> Client -> StartOutcome;
  askQuestionAsync : nat -> Client -> string -> option string -> AskOutcome;
  chat_postMessage : nat -> string -> string -> Js.Error + PostResult;
  chat_update : nat -> string -> string -> string -> Js.Error + unit
}.

(** ** The monad of the middleware's methods *)

(** A call returns, throws (an async call: rejects), or is cut short by the
    fuel that bounds the recursion of the consent sub-protocol. *)
Inductive Outcome (A : Type) : Type :=
| Returned (a : A)
| Thrown (e : Js.Error)
| Unfinished.

Arguments Returned {A} a.
Arguments Thrown {A} e.
Arguments Unfinished {A}.

Definition M (A : Type) : Type := World -> Outcome A * World.

Definition ret {A} (a : A) : M A := fun w => (Returned a, w).

Definition bind {A B} (m : M A) (k : A -> M B) : M B :=
  fun w =>
    match m w with
    | (Returned a, w') => k a w'
    | (Thrown e, w') => (Thrown e, w')
    | (Unfinished, w') => (Unfinished, w')
    end.

Definition throw {A} (e : Js.Error) : M A := fun w => (Thrown e, w).

(** [try { m } catch (error) { handler(error) }] *)
Definition tryCatch {A} (m : M A) (handler : Js.Error -> M A) : M A :=
  fun w =>
    match m w with
    | (Thrown e, w') => handler e w'
    | r => r
    end.

Definition gets {A} (f : World -> A) : M A := fun w => (Returned (f w), w).

Definition modify (f : World -> World) : M unit := fun w => (Returned tt, f w).

(** A call whose promise nobody awaits: its effects happen, its result and
    its rejection are dropped. *)
Definition detached {A} (m : M A) : M unit :=
  fun w =>
    match m w with
    | (Returned _, w') => (Returned tt, w')
    | (Thrown _, w') => (Returned tt, w')
    | (Unfinished, w') => (Unfinished, w')
    end.

(** [items.forEach(body)] *)
Fixpoint forEach {A} (body : A -> M unit) (items : list A) : M unit :=
  match items with
  | [] => ret tt
  | a :: rest => bind (body a) (fun _ => forEach body rest)
  end.

Notation "x <- m ;; k" := (bind m (fun x => k))
  (at level 100, m at next level, right associativity).
Notation "m ;;; k" := (bind m (fun _ => k))
  (at level 100, right associativity).

(** Field updates of the world. *)
Definition setConnections (f : gmap UserKey Connection -> gmap UserKey Connection)
    (w : World) : World :=
  mkWorld (f (activeConnections w)) (userTokens w) (serviceTokenCache w)
    (slackClient w) (registryOps w) (providerRequests w)
    (startedConversations w) (questions w) (slackCalls w).

Definition setTokens (f : gmap string TokenEntry -> gmap string TokenEntry)
    (w : World) : World :=
  mkWorld (activeConnections w) (f (userTokens w)) (serviceTokenCache w)
    (slackClient w) (registryOps w) (providerRequests w)
    (startedConversations w) (questions w) (slackCalls w).

Definition setServiceTokenCache (c : ServiceTokenCache) (w : World) : World :=
  mkWorld (activeConnections w) (userTokens w) c
    (slackClient w) (registryOps w) (providerRequests w)
    (startedConversations w) (questions w) (slackCalls w).

Definition logRegistryOp (op : RegistryOp) (w : World) : World :=
  mkWorld (activeConnections w) (userTokens w) (serviceTokenCache w)
    (slackClient w) (op :: registryOps w) (providerRequests w)
    (startedConversations w) (questions w) (slackCalls w).

Definition logProviderRequest (scope : string) (w : World) : World :=
  mkWorld (activeConnections w) (userTokens w) (serviceTokenCache w)
    (slackClient w) (registryOps w) (scope :: providerRequests w)
    (startedConversations w) (questions w) (slackCalls w).

Definition logStartedConversation (c : Client) (w : World) : World :=
  mkWorld (activeConnections w) (userTokens w) (serviceTokenCache w)
    (slackClient w) (registryOps w) (providerRequests w)
    (c :: startedConversations w) (questions w) (slackCalls w).

Definition logQuestion (q : Question) (w : World) : World :=
  mkWorld (activeConnections w) (userTokens w) (serviceTokenCache w)
    (slackClient w) (registryOps w) (providerRequests w)
    (startedConversations w) (q :: questions w) (slackCalls w).

Definition logSlackCall (c : SlackCall) (w : World) : World :=
  mkWorld (activeConnections w) (userTokens w) (serviceTokenCache w)
    (slackClient w) (registryOps w) (providerRequests w)
    (startedConversations w) (questions w) (c :: slackCalls w).

(** [this.activeConnections.set(k, c)] and [this.activeConnections.delete(k)];
    [delete] returns whether an entry was there. *)
Definition connectionsSet (k : UserKey) (c : Connection) : M unit :=
  modify (fun w => logRegistryOp (RegSet k c) (setConnections (insert k c) w)).

Definition connectionsDelete (k : UserKey) : M bool :=
  fun w =>
    (Returned (bool_decide (is_Some (activeConnections w !! k))),
     logRegistryOp (RegDelete k) (setConnections (delete k) w)).

(** The constructor: empty maps, an empty cache, no chat client unless one
    is passed. *)
Definition constructor (hasSlackClient : bool) : World :=
  mkWorld ∅ ∅ (mkServiceTokenCache None 0) hasSlackClient [] [] [] [] [].

(** ** The methods of [RelayMiddleware] *)

Section Middleware.

Variable env : Env.

(** [Number(v)] *)
Definition toNumber (v : Js.Json) : Js.Num :=
  match v with
  | Js.JNum z => Js.Fin z
  | _ => toNumberOther env v
  end.

(** [`${v}`] *)
Definition toString (v : Js.Json) : string :=
  match v with
  | Js.JStr s => s
  | _ => toStringOther env v
  end.

(** [JSON.parse(...)]: a SyntaxError when the text is not JSON. *)
Definition JSON_parse_base64 (segment : string) : Js.Eval Js.Json :=
  match parsePayload env segment with
  | Some v => inr v
  | None => inl (Js.SyntaxError "Unexpected token in JSON")
  end.

(** The lines that [storeUserToken] and the legacy branch of [getUserToken]
    share:
    [parts = token.split('.'); if (parts.length === 3) { payload =
    JSON.parse(Buffer.from(parts[1], 'base64').toString()); ... payload.exp }].
    [inr None] when the token has not three segments, [inr (Some v)] with
    [v] the value of [payload.exp] otherwise, [inl e] when the decoding
    throws. *)
Definition jwtExp (accessToken : string) : Js.Eval (option Js.Value) :=
  match JsString.split "."%char accessToken with
  | [_; segment; _] =>
      Js.evalBind (JSON_parse_base64 segment) (fun payload =>
      Js.evalBind (Js.getProp (Some payload) "exp") (fun exp =>
      inr (Some exp)))
  | _ => inr None
  end.

(** [payload.exp * 1000] *)
Definition expMillis (exp : Js.Json) : Js.Num :=
  Js.numMul (toNumber exp) (Js.Fin 1000).

(** [storeUserToken(slackUserId, accessToken)]. The log line that formats
    the expiration as a date comes after the assignment of [expiresAt] and
    inside the [try] block, so an expiration that is not a valid date is
    stored all the same. *)
Definition storeUserToken (slackUserId accessToken : string) (now : Z) : M unit :=
  let expiresAt :=
    match jwtExp accessToken with
    | inr (Some (Some exp)) =>
        if Js.truthy (Some exp) then Some (expMillis exp) else None
    | inr (Some None) => None
    | inr None => None
    | inl jwtError => None
    end in
  let tokenData := mkTokenData accessToken now now expiresAt in
  modify (setTokens (insert slackUserId (Structured tokenData))).

(** [this.userTokens.delete(slackUserId)] *)
Definition tokensDelete (slackUserId : string) : M bool :=
  fun w =>
    (Returned (bool_decide (is_Some (userTokens w !! slackUserId))),
     setTokens (delete slackUserId) w).

(** A log line that holds [new Date(n).toISOString()]. *)
Definition logDate (n : Js.Num) : M unit :=
  match Js.toISOString n with
  | inr _ => ret tt
  | inl error => throw error
  end.

(** [getUserToken(slackUserId)]: the token, or [None] for [undefined].
    The log lines that format the expiration as a date are part of the
    control flow, because formatting throws for a time value that is not a
    valid date: in the legacy branch they stand inside the [try] block,
    whose catch clause goes on to return the token; in the structured
    branch nothing catches them. *)
Definition getUserToken (slackUserId : string) (now : Z) : M (option string) :=
  tokenData <- gets (fun w => userTokens w !! slackUserId) ;;
  match tokenData with
  | None => ret None
  | Some (Legacy s) =>
      if negb (JsString.truthy s) then ret None
      else
        tryCatch
          (match jwtExp s with
           | inl error => throw error
           | inr (Some (Some exp)) =>
               if Js.truthy (Some exp) then
                 let expiresAt := expMillis exp in
                 if Js.gtNum now expiresAt then
                   logDate expiresAt ;;;
                   tokensDelete slackUserId ;;;
                   ret None
                 else
                   logDate expiresAt ;;;
                   ret (Some s)
               else ret (Some s)
           | inr _ => ret (Some s)
           end)
          (fun error => ret (Some s))
  | Some (Structured d) =>
      if Js.truthyNum (expiresAt d) &&
         match expiresAt d with Some n => Js.gtNum now n | None => false end
      then
        match expiresAt d with Some n => logDate n | None => ret tt end ;;;
        tokensDelete slackUserId ;;;
        ret None
      else
        modify (setTokens (insert slackUserId
          (Structured (mkTokenData (token d) (storedAt d) now (expiresAt d))))) ;;;
        (if Js.truthyNum (expiresAt d)
         then match expiresAt d with Some n => logDate n | None => ret tt end
         else ret tt) ;;;
        ret (Some (token d))
  end.

(** [clearUserConnection(userId)] *)
Definition clearUserConnection (userId : string) : M bool :=
  connectionsDelete (Some userId).

(** [revokeUserToken(slackUserId)] *)
Definition revokeUserToken (slackUserId : string) : M bool :=
  tokensDelete slackUserId.

(** [getServiceToken()] *)
Definition getServiceToken (now : Z) : M string :=
  tryCatch
    (cache <- gets serviceTokenCache ;;
     if JsString.truthyOpt (cache_token cache) && (now <? cache_expiresAt cache - 300000)
     then ret (default EmptyString (cache_token cache))
     else
       n <- gets (fun w => length (providerRequests w)) ;;
       modify (logProviderRequest (oauth_scope env)) ;;;
       match acquireTokenByClientCredential env n (oauth_scope env) with
       | ProviderRejects e => throw e
       | ProviderNull => throw (Js.TypeError "Cannot read properties of null")
       | ProviderResolves accessToken expiresOn =>
           modify (setServiceTokenCache
             (mkServiceTokenCache (Some accessToken)
                match expiresOn with
                | Some t => t
                | None => now + 3600000
                end)) ;;;
           ret accessToken
       end)
    (fun error =>
       modify (setServiceTokenCache (mkServiceTokenCache None 0)) ;;;
       throw error).

(** [createAgentsConnection(client)] *)
Definition createAgentsConnection (c : Client)
  : M (Client * option string * ConversationActivity) :=
  tryCatch
    (n <- gets (fun w => length (startedConversations w)) ;;
     modify (logStartedConversation c) ;;;
     match startConversationAsync env n c with
     | StartRejects e => throw e
     | StartResolves a => ret (c, conversation a, a)
     end)
    (fun error => throw error).

(** [createUserConnection(userId, userToken = null)] *)
Definition createUserConnection (userId : string) (userToken : option string)
    (now : Z) : M Connection :=
  tryCatch
    (tok <- (if JsString.truthyOpt userToken
             then ret (default EmptyString userToken)
             else getServiceToken now) ;;
     let c := mkClient tok in
     connectionInfo <- createAgentsConnection c ;;
     let '(cl, convId, act) := connectionInfo in
     let connection := mkConnection cl convId act now userId in
     connectionsSet (Some userId) connection ;;;
     ret connection)
    (fun error => throw error).

(** [postThinkingMessage(userId)]: [None] for [null]. *)
Definition postThinkingMessage (userId : string) : M (option PostResult) :=
  hasClient <- gets slackClient ;;
  if negb hasClient then ret None
  else
    let channelId := JsString.replace "slack_" "" userId in
    n <- gets (fun w => length (slackCalls w)) ;;
    modify (logSlackCall (ChatPostMessage channelId ":thinking_face: Thinking...")) ;;;
    match chat_postMessage env n channelId ":thinking_face: Thinking..." with
    | inr result => ret (Some (mkPostResult (post_ts result) (post_channel result)))
    | inl error => ret None
    end.

(** [updateThinkingMessage(channelId, messageTs, responseText)] *)
Definition updateThinkingMessage (channelId messageTs responseText : string) : M unit :=
  hasClient <- gets slackClient ;;
  if negb hasClient then ret tt
  else
    n <- gets (fun w => length (slackCalls w)) ;;
    modify (logSlackCall (ChatUpdate channelId messageTs responseText)) ;;;
    match chat_update env n channelId messageTs responseText with
    | inr _ => ret tt
    | inl error =>
        n' <- gets (fun w => length (slackCalls w)) ;;
        modify (logSlackCall (ChatPostMessage channelId responseText)) ;;;
        match chat_postMessage env n' channelId responseText with
        | inr _ => ret tt
        | inl fallbackError => ret tt
        end
    end.

Definition oauthCardType : string := "application/vnd.microsoft.card.oauth".

Definition consentCardName : string := "connectors/consentCard".

Definition msgSignInNotFound : string :=
  "I need you to sign in, but I could not find the sign-in link. Please try again.".

Definition msgSignInLinkMissing : string :=
  "I need you to sign in, but the link is missing. Please contact support.".

Definition msgSignInError : string :=
  "Sorry, I encountered an error while trying to get you signed in. Please try again.".

Definition defaultSignInPrompt : string := "Please sign in to continue.".

(** [`${promptText}\n\nClick here to sign in: <${signInUrl}|Sign In>`] *)
Definition signInMessage (promptText signInUrl : string) : string :=
  promptText +:+ JsString.lf +:+ JsString.lf +:+ "Click here to sign in: <"
    +:+ signInUrl +:+ "|Sign In>".

(** [b => b.type === 'signin'] *)
Definition isSignInButton (b : Js.Json) : Js.Eval bool :=
  Js.evalBind (Js.getProp (Some b) "type") (fun t =>
  inr (Js.strictEqStr t "signin")).

(** The [try] block of [handleUserSignInCard]. *)
Definition signInCardText (userSignInCard : Activity) : Js.Eval string :=
  let attachment :=
    match attachments userSignInCard with
    | Some (a :: _) => Some a
    | _ => None
    end in
  match attachment with
  | None => inr msgSignInNotFound
  | Some att =>
      if negb (String.eqb (contentType att) oauthCardType) then inr msgSignInNotFound
      else
        let cardContent := content att in
        Js.evalBind (Js.getPropOpt cardContent "buttons") (fun buttons =>
        Js.evalBind (Js.findOpt buttons isSignInButton) (fun signInButton =>
        if negb (Js.truthy signInButton) then inr msgSignInLinkMissing
        else
          Js.evalBind (Js.getProp signInButton "value") (fun value =>
          if negb (Js.truthy value) then inr msgSignInLinkMissing
          else
            let signInUrl := value in
            Js.evalBind (Js.getProp cardContent "text") (fun text =>
            let promptText :=
              if Js.truthy text then text else Some (Js.JStr defaultSignInPrompt) in
            inr (signInMessage
                   (from_option toString EmptyString promptText)
                   (from_option toString EmptyString signInUrl))))))
  end.

(** [handleUserSignInCard(userSignInCard)]: the catch clause turns every
    error into a fixed message. The method is async and touches no state. *)
Definition handleUserSignInCard (userSignInCard : Activity) : string :=
  match signInCardText userSignInCard with
  | inr responseText => responseText
  | inl error => msgSignInError
  end.

(** [JSON.stringify(consentPayload)] *)
Definition consentPayloadText : string :=
  "{" +:+ JsString.quoted "type" +:+ ":" +:+ JsString.quoted "message" +:+ ","
  +:+ JsString.quoted "channelData" +:+ ":{"
  +:+ JsString.quoted "postBack" +:+ ":true,"
  +:+ JsString.quoted "enableDiagnostics" +:+ ":true},"
  +:+ JsString.quoted "value" +:+ ":{"
  +:+ JsString.quoted "action" +:+ ":" +:+ JsString.quoted "Allow" +:+ ","
  +:+ JsString.quoted "id" +:+ ":" +:+ JsString.quoted "submit" +:+ ","
  +:+ JsString.quoted "shouldAwaitUserInput" +:+ ":true}}".

(** [await connection.client.askQuestionAsync(text, connection.conversationId)] *)
Definition askQuestion (connection : Connection) (text : string) : M (list Activity) :=
  n <- gets (fun w => length (questions w)) ;;
  modify (logQuestion (mkQuestion (client connection) text (conversationId connection))) ;;;
  match askQuestionAsync env n (client connection) text (conversationId connection) with
  | AskRejects e => throw e
  | AskResolves replies => ret replies
  end.

Definition isConsentCard (activity : Activity) : bool :=
  match activity_name activity with
  | Some n => String.eqb n consentCardName
  | None => false
  end.

(** [handleConsentCardResponse(activity, userId)]. The recursive call
    [this.handleConsentCardResponse(activity)] passes no user id and is not
    awaited. [fuel] bounds the depth of the recursion. *)
Fixpoint handleConsentCardResponse (fuel : nat) (activity : Activity)
    (userId : UserKey) : M unit :=
  match fuel with
  | O => fun w => (Unfinished, w)
  | S fuel' =>
      connection <- gets (fun w => activeConnections w !! userId) ;;
      match connection with
      | None => ret tt
      | Some c =>
          responses <- askQuestion c consentPayloadText ;;
          forEach
            (fun activity' =>
               if isConsentCard activity'
               then detached (handleConsentCardResponse fuel' activity' None)
               else ret tt)
            responses
      end
  end.

(** What the loop over the replies of a turn collects. *)
Record Classified : Type := mkClassified {
  responseText : string;
  consentCard : option Activity;
  userSignInCard : option Activity
}.

(** [activity.attachments?.some(att => att.contentType === oauthCardType)] *)
Definition isSignInCard (activity : Activity) : bool :=
  match attachments activity with
  | Some atts => existsb (fun att => String.eqb (contentType att) oauthCardType) atts
  | None => false
  end.

(** The body of [replies.forEach((activity, index) => ...)]. *)
Definition classifyActivity (acc : Classified) (activity : Activity) : Classified :=
  let isMessage := String.eqb (activity_type activity) "message" in
  let hasText := JsString.truthyOpt (activity_text activity) in
  if isMessage && hasText then
    mkClassified
      (responseText acc +:+ default EmptyString (activity_text activity) +:+ " ")
      (consentCard acc) (userSignInCard acc)
  else if isConsentCard activity then
    mkClassified (responseText acc) (Some activity) (userSignInCard acc)
  else if isMessage && negb hasText then
    if isSignInCard activity
    then mkClassified (responseText acc) (consentCard acc) (Some activity)
    else acc
  else acc.

Definition classify (replies : list Activity) : Classified :=
  fold_left classifyActivity replies (mkClassified EmptyString None None).

Definition msgConsentSent : string :=
  "I've sent the consent approval. Please wait a moment for the process to complete.".

Definition msgNoResponse : string := "No response from Copilot Studio".

Definition msgTurnError : string :=
  "Sorry, I encountered an error processing your message. Please try again.".

(** The part of [sendMessage] from the loop over [replies] to the value of
    [finalResponse]. *)
Definition resolveReply (fuel : nat) (userId : string) (replies : list Activity)
  : M string :=
  let cl := classify replies in
  finalResponse <-
    (if JsString.truthy (JsString.trim (responseText cl))
     then ret (JsString.trim (responseText cl))
     else
       match consentCard cl with
       | Some card =>
           handleConsentCardResponse fuel card (Some userId) ;;;
           ret msgConsentSent
       | None => ret msgNoResponse
       end) ;;
  match userSignInCard cl with
  | Some card =>
      ret (finalResponse +:+ " " +:+ handleUserSignInCard card)
  | None => ret finalResponse
  end.

(** [thinkingMessage?.ts && thinkingMessage?.channel] *)
Definition hasThinkingMessage (thinkingMessage : option PostResult) : bool :=
  match thinkingMessage with
  | Some r => JsString.truthy (post_ts r) && JsString.truthy (post_channel r)
  | None => false
  end.

Definition updateIfThinking (thinkingMessage : option PostResult) (text : string)
  : M unit :=
  match thinkingMessage with
  | Some r =>
      if hasThinkingMessage thinkingMessage
      then updateThinkingMessage (post_channel r) (post_ts r) text
      else ret tt
  | None => ret tt
  end.

(** [connection.lastActivity = Date.now()]. The source assigns through the
    reference that the turn got before its awaits; in a turn that nothing
    interleaves with, that object is the entry of the registry under
    [userId], found there or stored by [createUserConnection], so the
    assignment is the update of that entry. Where the entry is gone, as
    after an eviction by the janitor during the turn ([sendMessageDuring]),
    the update does nothing: the assignment to an object that the registry
    no longer holds leaves the registry alone. *)
Definition touchConnection (userId : string) (now : Z) : M unit :=
  modify (setConnections (alter
    (fun c => mkConnection (client c) (conversationId c) (conversationActivity c)
                now (connection_userId c))
    (Some userId))).

(** [sendMessage(userId, messageText, userToken = null)]: the [text] of the
    object it returns. In the source the thinking message is posted inside
    the [try] block; [postThinkingMessage] catches its own errors, so
    posting it first and keeping the result for the catch clause is the
    same. *)
Definition sendMessage (fuel : nat) (userId messageText : string)
    (userToken : option string) (now : Z) : M string :=
  thinkingMessage <- postThinkingMessage userId ;;
  tryCatch
    (found <- gets (fun w => activeConnections w !! Some userId) ;;
     connection <-
       match found with
       | Some c => ret c
       | None => createUserConnection userId userToken now
       end ;;
     replies <- askQuestion connection messageText ;;
     finalResponse <- resolveReply fuel userId replies ;;
     updateIfThinking thinkingMessage finalResponse ;;;
     touchConnection userId now ;;;
     ret EmptyString)
    (fun error =>
       updateIfThinking thinkingMessage msgTurnError ;;;
       throw error).

(** [newConversation(userId)] *)
Definition newConversation (userId : string) (now : Z) : M Connection :=
  connectionsDelete (Some userId) ;;;
  newConnection <- createUserConnection userId None now ;;
  ret newConnection.

(** The three phases of [cleanup()]. *)
Definition cleanupConnections (now : Z) (w : World) : World :=
  let maxAge := connectionTimeoutMs env in
  map_fold
    (fun k connection acc =>
       let timeSinceLastActivity := now - lastActivity connection in
       if maxAge <? timeSinceLastActivity
       then logRegistryOp (RegDelete k) (setConnections (delete k) acc)
       else acc)
    w (activeConnections w).

Definition tokenMaxAge : Z := 24 * 60 * 60 * 1000.

Definition cleanupTokens (now : Z) (w : World) : World :=
  map_fold
    (fun k tokenData acc =>
       let shouldCleanup :=
         match tokenData with
         | Legacy _ =>
             match activeConnections acc !! Some k with
             | None => true
             | Some connection => tokenMaxAge <? now - lastActivity connection
             end
         | Structured d =>
             negb (lastUsed d =? 0) && (tokenMaxAge <? now - lastUsed d)
         end in
       if shouldCleanup then setTokens (delete k) acc else acc)
    w (userTokens w).

Definition cleanupServiceToken (now : Z) (w : World) : World :=
  let cache := serviceTokenCache w in
  if JsString.truthyOpt (cache_token cache) && (cache_expiresAt cache <? now)
  then setServiceTokenCache (mkServiceTokenCache None 0) w
  else w.

(** [cleanup()] *)
Definition cleanup (now : Z) : M unit :=
  modify (fun w => cleanupServiceToken now (cleanupTokens now (cleanupConnections now w))).

(** The janitor firing at the clock readings [ticks], in this order: the
    chat bot runs [cleanup] on a timer ([setInterval] in its [start]). *)
Definition janitorTicks (ticks : list Z) : M unit := forEach cleanup ticks.

(** [await connection.client.askQuestionAsync(...)] in a run where the
    janitor fires at [ticks] while the answer of the agent is awaited:
    [cleanup] is synchronous, so each tick runs to its end between the send
    of the question and the arrival of the answer. *)
Definition askQuestionDuring (ticks : list Z) (connection : Connection)
    (text : string) : M (list Activity) :=
  n <- gets (fun w => length (questions w)) ;;
  modify (logQuestion (mkQuestion (client connection) text (conversationId connection))) ;;;
  janitorTicks ticks ;;;
  match askQuestionAsync env n (client connection) text (conversationId connection) with
  | AskRejects e => throw e
  | AskResolves replies => ret replies
  end.

(** [sendMessage] in such a run. The turn holds the reference to its
    connection over the await. [cleanup] removes entries of the registry
    and never replaces one, so when the turn goes on, the entry under
    [userId] is that same object or is gone, and the assignment to
    [connection.lastActivity] is the update of the entry where there still
    is one. *)
Definition sendMessageDuring (ticks : list Z) (fuel : nat)
    (userId messageText : string) (userToken : option string) (now : Z) : M string :=
  thinkingMessage <- postThinkingMessage userId ;;
  tryCatch
    (found <- gets (fun w => activeConnections w !! Some userId) ;;
     connection <-
       match found with
       | Some c => ret c
       | None => createUserConnection userId userToken now
       end ;;
     replies <- askQuestionDuring ticks connection messageText ;;
     finalResponse <- resolveReply fuel userId replies ;;
     updateIfThinking thinkingMessage finalResponse ;;;
     touchConnection userId now ;;;
     ret EmptyString)
    (fun error =>
       updateIfThinking thinkingMessage msgTurnError ;;;
       throw error).

(** [getStats()]: the count and, per session, the key, [lastActivity] and
    [!!conn.conversationId]. *)
Definition getStats (w : World) : nat * list (UserKey * Z * bool) :=
  (size (activeConnections w),
   map (fun '(k, conn) => (k, lastActivity conn, JsString.truthyOpt (conversationId conn)))
       (map_to_list (activeConnections w))).

End Middleware.

(** ** Notions used to state the properties *)

(** The texts of the message fragments with non-empty text, in order. *)
Definition messageTexts (replies : list Activity) : list string :=
  omap (fun a =>
          if String.eqb (activity_type a) "message" && JsString.truthyOpt (activity_text a)
          then activity_text a else None)
       replies.

(** The space-separated concatenation of the message texts. *)
Definition joinedText (replies : list Activity) : string :=
  String.concat " " (messageTexts replies).

Definition isTextMessage (a : Activity) : bool :=
  String.eqb (activity_type a) "message" && JsString.truthyOpt (activity_text a).

(** The consent-request fragment that the turn keeps: the last fragment
    with the consent name tag that is not a text message. *)
Definition capturedConsentCard (replies : list Activity) : option Activity :=
  last (List.filter (fun a => negb (isTextMessage a) && isConsentCard a) replies).

(** The sign-in fragment that the turn keeps: the last message without
    text and without the consent name tag, one of whose attachments is an
    oauth card. *)
Definition capturedSignInCard (replies : list Activity) : option Activity :=
  last (List.filter
          (fun a => String.eqb (activity_type a) "message"
                    && negb (JsString.truthyOpt (activity_text a))
                    && negb (isConsentCard a)
                    && isSignInCard a)
          replies).

(** The text appended for a captured sign-in card. *)
Definition signInSuffix (env : Env) (replies : list Activity) : string :=
  match capturedSignInCard replies with
  | Some card => " " +:+ handleUserSignInCard env card
  | None => EmptyString
  end.

(** An oauth card whose fields have their documented types. *)
Record CardAction : Type := mkCardAction {
  action_type : string;
  action_value : option string
}.

Record OAuthCard : Type := mkOAuthCard {
  card_text : option string;
  card_buttons : list CardAction
}.

Definition actionJson (b : CardAction) : Js.Json :=
  Js.JObj (("type", Js.JStr (action_type b)) ::
           match action_value b with
           | Some v => [("value", Js.JStr v)]
           | None => []
           end).

Definition cardJson (c : OAuthCard) : Js.Json :=
  Js.JObj (match card_text c with
           | Some t => [("text", Js.JStr t)]
           | None => []
           end ++ [("buttons", Js.JArr (map actionJson (card_buttons c)))]).

(** The first button of the card whose type is [signin]. *)
Definition firstSignInAction (c : OAuthCard) : option CardAction :=
  List.find (fun b => String.eqb (action_type b) "signin") (card_buttons c).

(** Some button of the card has type [signin] and a non-empty value. *)
Definition hasSignInActionWithValue (c : OAuthCard) : bool :=
  existsb (fun b => String.eqb (action_type b) "signin"
                    && JsString.truthyOpt (action_value b))
          (card_buttons c).

(** The prompt of the card: its text, or the default when it has none. *)
Definition cardPrompt (c : OAuthCard) : string :=
  if JsString.truthyOpt (card_text c) then default EmptyString (card_text c)
  else defaultSignInPrompt.

(** A JSON value that a condition takes for false: [null], [false], [0]
    and the empty string. *)
Definition falsyJson (j : Js.Json) : bool :=
  match j with
  | Js.JNull => true
  | Js.JBool b => negb b
  | Js.JNum z => z =? 0
  | Js.JStr s => match s with EmptyString => true | String _ _ => false end
  | Js.JArr _ => false
  | Js.JObj _ => false
  end.

(** A button that the search for the sign-in button passes over: any value
    but [null] that is not an object whose [type] is the string [signin].
    On [null] the search throws. *)
Definition passedOver (b : Js.Json) : bool :=
  match b with
  | Js.JNull => false
  | Js.JObj fields =>
      match Js.assoc "type" fields with
      | Some (Js.JStr t) => negb (String.eqb t "signin")
      | _ => true
      end
  | _ => true
  end.

(** The prompt of a card with the fields [fields]: its [text] when the card
    has one that is not falsy, else the default. *)
Definition promptOf (env : Env) (fields : list (string * Js.Json)) : string :=
  match Js.assoc "text" fields with
  | Some t => if falsyJson t then defaultSignInPrompt else toString env t
  | None => defaultSignInPrompt
  end.

(** In a list of registry writes, oldest first: a delete of [k] comes
    before the first set of [k]. *)
Fixpoint deletesBeforeSet (k : UserKey) (ops : list RegistryOp) : bool :=
  match ops with
  | [] => false
  | RegDelete k' :: rest =>
      if bool_decide (k' = k) then true else deletesBeforeSet k rest
  | RegSet k' _ :: rest =>
      if bool_decide (k' = k) then false else deletesBeforeSet k rest
  end.

(** The registry writes that a call added, oldest first. *)
Definition newRegistryOps (before after : World) : list RegistryOp :=
  rev (take (length (registryOps after) - length (registryOps before))%nat
            (registryOps after)).

(** The registry holds nothing under the key [undefined]. *)
Definition noUndefinedKey (w : World) : Prop :=
  activeConnections w !! (None : UserKey) = None.

(** Each text followed by a space, as the loop builds [responseText]. *)
Fixpoint spaced (texts : list string) : string :=
  match texts with
  | [] => EmptyString
  | t :: rest => t +:+ " " +:+ spaced rest
  end.

(** [w'] differs from [w] at most by questions sent upstream and requests
    made to the chat client since: the registry, the token store, the
    service-token cache and the other records are the same. *)
Definition onlyAsks (w w' : World) : Prop :=
  activeConnections w' = activeConnections w
  /\ userTokens w' = userTokens w
  /\ serviceTokenCache w' = serviceTokenCache w
  /\ slackClient w' = slackClient w
  /\ registryOps w' = registryOps w
  /\ providerRequests w' = providerRequests w
  /\ startedConversations w' = startedConversations w
  /\ (exists qs, questions w' = qs ++ questions w)
  /\ (exists cs, slackCalls w' = cs ++ slackCalls w).

(** How a turn gets its connection: the session found in the registry, or a
    new one. *)
Definition resolveConnection (env : Env) (userId : string)
    (userToken : option string) (now : Z) : M Connection :=
  found <- gets (fun w => activeConnections w !! Some userId) ;;
  match found with
  | Some c => ret c
  | None => createUserConnection env userId userToken now
  end.

(** The error [e] is what a collaborator rejected with, or the TypeError of
    reading the token of a [null] provider answer. *)
Definition errorOrigin (env : Env) (e : Js.Error) : Prop :=
  (exists n scope, acquireTokenByClientCredential env n scope = ProviderRejects e)
  \/ (exists n scope, acquireTokenByClientCredential env n scope = ProviderNull
                    /\ e = Js.TypeError "Cannot read properties of null")
  \/ (exists n c, startConversationAsync env n c = StartRejects e)
  \/ (exists n c text cid, askQuestionAsync env n c text cid = AskRejects e).

(** What a call may have done to the service-token cache between [w] and
    [w']: nothing, without a provider request; or, after one provider
    request, cleared it or stored the answer of the provider. *)
Definition cacheEffect (env : Env) (now : Z) (w w' : World) : Prop :=
  (providerRequests w' = providerRequests w
   /\ serviceTokenCache w' = serviceTokenCache w)
  \/ (providerRequests w' = oauth_scope env :: providerRequests w
      /\ (serviceTokenCache w' = mkServiceTokenCache None 0
          \/ exists t e,
               acquireTokenByClientCredential env (length (providerRequests w))
                 (oauth_scope env) = ProviderResolves t e
               /\ serviceTokenCache w' =
                    mkServiceTokenCache (Some t)
                      match e with Some x => x | None => now + 3600000 end)).

(** What a turn for [u] may have committed between [w] and [w']: nothing
    in the token store; in the service-token cache what [cacheEffect]
    allows; in the registry nothing, or one [set] of a new session for [u]
    where there was none. *)
Definition turnCommit (env : Env) (u : string) (now : Z) (w w' : World) : Prop :=
  userTokens w' = userTokens w
  /\ cacheEffect env now w w'
  /\ ((activeConnections w' = activeConnections w
       /\ registryOps w' = registryOps w)
      \/ (activeConnections w !! Some u = None
          /\ exists c,
               activeConnections w' = <[Some u := c]> (activeConnections w)
               /\ registryOps w' = RegSet (Some u) c :: registryOps w)).

(** The catch clause of [sendMessage]. *)
Definition turnFailed (env : Env) (thinkingMessage : option PostResult)
    (error : Js.Error) : M string :=
  updateIfThinking env thinkingMessage msgTurnError ;;; throw error.

(** The credential of a turn that has to create its session,
    [userToken || await this.getServiceToken()]. *)
Definition turnCredential (env : Env) (tok : option string) (now : Z) : M string :=
  if JsString.truthyOpt tok then ret (default EmptyString tok)
  else getServiceToken env now.

(** [w] with [cs] for its record of requests to the chat client. *)
Definition withSlackCalls (cs : list SlackCall) (w : World) : World :=
  mkWorld (activeConnections w) (userTokens w) (serviceTokenCache w)
    (slackClient w) (registryOps w) (providerRequests w)
    (startedConversations w) (questions w) cs.

(** [this.relay.slackClient = this.app.client], done by the chat bot when it
    starts. *)
Definition setSlackClient (w : World) : World :=
  mkWorld (activeConnections w) (userTokens w) (serviceTokenCache w)
    true (registryOps w) (providerRequests w)
    (startedConversations w) (questions w) (slackCalls w).

(** The worlds that a middleware object goes through when its callers pass
    user ids that are strings, as the chat bot and the OAuth callback do. *)
Inductive reachable (env : Env) : World -> Prop :=
| reach_constructor (hasSlackClient : bool) :
    reachable env (constructor hasSlackClient)
| reach_setSlackClient w :
    reachable env w -> reachable env (setSlackClient w)
| reach_storeUserToken w u accessToken now :
    reachable env w -> reachable env (snd (storeUserToken env u accessToken now w))
| reach_getUserToken w u now :
    reachable env w -> reachable env (snd (getUserToken env u now w))
| reach_revokeUserToken w u :
    reachable env w -> reachable env (snd (revokeUserToken u w))
| reach_clearUserConnection w u :
    reachable env w -> reachable env (snd (clearUserConnection u w))
| reach_sendMessage w fuel u text tok now :
    reachable env w -> reachable env (snd (sendMessage env fuel u text tok now w))
| reach_newConversation w u now :
    reachable env w -> reachable env (snd (newConversation env u now w))
| reach_cleanup w now :
    reachable env w -> reachable env (snd (cleanup env now w)).

(** ** Sample environment and worlds *)

Module Fixtures.

Definition parse (segment : string) : option Js.Json :=
  if String.eqb segment "eyJleHAiOjB9"
  then Some (Js.JObj [("exp", Js.JNum 0)])
  else if String.eqb segment "eyJleHAiOjE3NjA2NDg0OTd9"
  then Some (Js.JObj [("exp", Js.JNum 1760648497)])
  else if String.eqb segment "eyJzdWIiOiJ1MSJ9"
  then Some (Js.JObj [("sub", Js.JStr "u1")])
  else None.

(** A token whose payload is [{exp: 0}]. *)
Definition tokenExpEpoch : string := "eyJhbGciOiJub25lIn0.eyJleHAiOjB9.c2ln".

(** A token whose payload is [{exp: 1760648497}] (2025-10-16T21:01:37Z). *)
Definition tokenExp2025 : string := "eyJhbGciOiJub25lIn0.eyJleHAiOjE3NjA2NDg0OTd9.c2ln".

Definition consentActivity : Activity :=
  mkActivity "event" None (Some consentCardName) None.

Definition hello : Activity := mkActivity "message" (Some "Hello") None None.

Definition blank : Activity := mkActivity "message" (Some " ") None None.

(** The agent answers every consent approval with another consent request. *)
Definition ask (n : nat) (c : Client) (text : string) (cid : option string)
  : AskOutcome :=
  if String.eqb text consentPayloadText then AskResolves [consentActivity]
  else if String.eqb text "hello" then AskResolves [hello]
  else if String.eqb text "blank" then AskResolves [blank]
  else if String.eqb text "consent" then AskResolves [consentActivity]
  else AskRejects (Js.Rejected "upstream unavailable").

Definition env : Env :=
  mkEnv parse (fun _ => Js.NaN) (fun _ => "[object Object]")
    "https://api.powerplatform.com/.default" 7200000
    (fun n _ => ProviderResolves "service-token"
                  (if Nat.even n then Some 1761003600000 else None))
    (fun _ _ => StartResolves (mkConversationActivity (Some "conv-1")))
    ask
    (fun _ channel _ => inr (mkPostResult "1700000000.000100" channel))
    (fun _ _ _ _ => inr tt).

Definition user : string := "slack_U1".

Definition session : Connection :=
  mkConnection (mkClient "user-token") (Some "conv-0")
    (mkConversationActivity (Some "conv-0")) 1761000000000 user.

(** A world with one session for [user]. *)
Definition withSession : World :=
  setConnections (insert (Some user) session) (constructor true).

(** A world whose service-token cache holds a token. *)
Definition withServiceToken : World :=
  setServiceTokenCache (mkServiceTokenCache (Some "cached-token") 1761003600000)
    (constructor true).

(** A sign-in fragment whose first sign-in button has no value and whose
    second has one. *)
Definition twoButtonCard : OAuthCard :=
  mkOAuthCard (Some "Sign in")
    [mkCardAction "signin" None; mkCardAction "signin" (Some "https://login.example/a")].

Definition signInActivity (c : OAuthCard) : Activity :=
  mkActivity "message" None None
    (Some [mkAttachment oauthCardType (Some (cardJson c))]).

End Fixtures.

(** * The SAML handler, the chat bot and the OAuth endpoints

    The callers of the middleware: [SamlAuthHandler] (saml-handler.js), the
    message handler of [SlackBot] (slack-bot.js) and the OAuth routes of
    [SlackRelayBotApp] (app.js), for an application that has been
    initialised, so that [this.relayMiddleware] is set. *)

(** [error.message] *)
Definition errorMessage (e : Js.Error) : string :=
  match e with
  | Js.TypeError msg => msg
  | Js.SyntaxError msg => msg
  | Js.RangeError msg => msg
  | Js.Rejected msg => msg
  end.

Module Saml.

(** [config.saml], as far as the handler branches on it. *)
Record Config : Type := mkConfig {
  enabled : bool;
  trustSamlAssertions : bool;
  requireExplicitOAuth : bool
}.

(** A Slack user profile; the handler reads nothing in it but logs its
    email. *)
Record UserProfile : Type := mkUserProfile {
  email : option string
}.

(** What [validateSamlAssertion] resolves to. *)
Record Validation : Type := mkValidation {
  isValid : bool;
  validation_reason : option string
}.

(** What [canSkipOAuthForUser] resolves to. *)
Record AuthResult : Type := mkAuthResult {
  canSkipOAuth : bool;
  reason : string;
  action : string;
  userInfo : option UserProfile;
  error : option string
}.

(** [getSlackUserProfile(slackUserId)] *)
Definition getSlackUserProfile (slackUserId : string) : Js.Eval (option UserProfile) :=
  inr None.

(** [validateSamlAssertion(slackUserId, userProfile)] *)
Definition validateSamlAssertion (slackUserId : string) (userProfile : UserProfile)
  : Js.Eval Validation :=
  inr (mkValidation false (Some "SAML assertion validation not yet implemented")).

(** [generateSamlAuthToken(slackUserId, samlData)]: [None] for [null]. *)
Definition generateSamlAuthToken (slackUserId : string) (samlData : option UserProfile)
  : option string :=
  None.

(** [canSkipOAuthForUser(slackUserId, slackUserInfo = null)] *)
Definition canSkipOAuthForUser (config : Config) (slackUserId : string) : AuthResult :=
  if negb (enabled config) then
    mkAuthResult false "SAML SSO not enabled" "oauth_required" None None
  else if requireExplicitOAuth config then
    mkAuthResult false "Explicit OAuth required by configuration" "oauth_required"
      None None
  else
    match
      Js.evalBind (getSlackUserProfile slackUserId) (fun userProfile =>
      match userProfile with
      | Some profile =>
          Js.evalBind (validateSamlAssertion slackUserId profile) (fun samlValidation =>
          if isValid samlValidation then
            if trustSamlAssertions config then
              inr (mkAuthResult true
                     "Valid SAML assertion and configured to trust SAML"
                     "saml_authenticated" (Some profile) None)
            else
              inr (mkAuthResult false
                     "Valid SAML but configuration requires OAuth verification"
                     "oauth_required_despite_saml" None None)
          else
            inr (mkAuthResult false
                   (if JsString.truthyOpt (validation_reason samlValidation)
                    then default EmptyString (validation_reason samlValidation)
                    else "SAML assertion validation failed")
                   "oauth_required_saml_invalid" None None))
      | None =>
          inr (mkAuthResult false "Unable to retrieve Slack user profile"
                 "oauth_required_no_profile" None None)
      end)
    with
    | inr result => result
    | inl err =>
        mkAuthResult false "Error during SAML authentication check"
          "oauth_required_error" None (Some (errorMessage err))
    end.

End Saml.

(** ** Data of the chat bot and of the OAuth routes *)

(** A message event of Slack, as far as the handler reads it. *)
Record SlackMessage : Type := mkSlackMessage {
  message_subtype : option string;
  message_thread_ts : option string;
  message_bot_id : option string;
  message_user : string;
  message_text : string;
  message_channel : string
}.

(** What the bot says in the conversation of the event: a plain text, or
    the block message with the authentication button, of which only the
    url of the button varies. *)
Inductive BotReply : Type :=
| SayText (text : string)
| SayAuthenticationLink (authUrl : string).

(** The form that [exchangeCodeForToken] posts to the token endpoint. *)
Record TokenRequest : Type := mkTokenRequest {
  request_endpoint : string;
  request_client_id : string;
  request_client_secret : string;
  request_code : string;
  request_grant_type : string;
  request_redirect_uri : string;
  request_scope : string;
  request_code_verifier : string
}.

(** The answer of the token endpoint: [fetch] rejects, the response is not
    ok and has a text, the response is ok and its JSON has the
    [access_token] of a successful OAuth response, or the response is ok
    and [response.json()] rejects. *)
Inductive FetchOutcome : Type :=
| FetchRejects (e : Js.Error)
| FetchNotOk (text : string)
| FetchOk (access_token : string)
| FetchOkInvalidJson (e : Js.Error).

(** The authorization url before [toString()]: the endpoint and the search
    parameters in the order they were set. *)
Record AuthUrl : Type := mkAuthUrl {
  url_endpoint : string;
  url_params : list (string * string)
}.

(** What a route answers with. *)
Inductive HttpResponse : Type :=
| Redirect (location : AuthUrl)
| BadRequestMissingCodeOrState
| AuthenticationSuccessfulPage
| AuthenticationFailedPage (message : string).

(** The configuration, the platform and the collaborators of the bot and of
    the routes. Collaborators answer as a function of the number of earlier
    requests and of the request. *)
Record AppEnv : Type := mkAppEnv {
  relayEnv : Env;
  (** [config.copilotStudio.requireAuth] *)
  requireAuth : bool;
  samlConfig : Saml.Config;
  (** [config.server.baseUrl] and [config.server.port] *)
  server_baseUrl : string;
  server_port : Js.Num;
  (** [config.copilotStudio.appClientId], [.clientSecret], [.tenantId] and
      [config.oauth.authority] *)
  appClientId : string;
  clientSecret : string;
  tenantId : string;
  authority : string;
  (** [String(n)] of an integer *)
  numberText : Z -> string;
  (** [crypto.randomBytes(32).toString('base64url')], by the number of
      earlier draws *)
  randomVerifier : nat -> string;
  (** [crypto.createHash('sha256').update(s).digest('base64url')] *)
  sha256Base64Url : string -> string;
  fetchToken : nat -> TokenRequest -> FetchOutcome;
  say : nat -> BotReply -> Js.Error + unit;
  conversations_typing : nat -> string -> Js.Error + unit;
  (** The text of the authentication-successful notice, a constant of the
      source with a character outside the strings modelled here. *)
  authSuccessText : string
}.

(** The state of the application: the middleware, whether there is a chat
    bot, the PKCE code verifiers by Slack user id, and the record of what
    the bot and the routes asked of their collaborators (most recent
    first). *)
Record AppWorld : Type := mkAppWorld {
  relay : World;
  slackBot : bool;
  codeVerifiers : gmap string string;
  pkceDraws : nat;
  tokenRequests : list TokenRequest;
  said : list BotReply;
  typingCalls : list string
}.

(** The monad of the handlers and routes. *)
Definition A (X : Type) : Type := AppWorld -> Outcome X * AppWorld.

Definition retA {X} (x : X) : A X := fun a => (Returned x, a).

Definition bindA {X Y} (m : A X) (k : X -> A Y) : A Y :=
  fun a =>
    match m a with
    | (Returned x, a') => k x a'
    | (Thrown e, a') => (Thrown e, a')
    | (Unfinished, a') => (Unfinished, a')
    end.

Definition throwA {X} (e : Js.Error) : A X := fun a => (Thrown e, a).

Definition tryCatchA {X} (m : A X) (handler : Js.Error -> A X) : A X :=
  fun a =>
    match m a with
    | (Thrown e, a') => handler e a'
    | r => r
    end.

Definition setRelay (w : World) (a : AppWorld) : AppWorld :=
  mkAppWorld w (slackBot a) (codeVerifiers a) (pkceDraws a) (tokenRequests a)
    (said a) (typingCalls a).

(** A method of the middleware, called from the application. *)
Definition liftRelay {X} (m : M X) : A X :=
  fun a =>
    match m (relay a) with
    | (r, w) => (r, setRelay w a)
    end.

Notation "x <~ m ;; k" := (bindA m (fun x => k))
  (at level 100, m at next level, right associativity).
Notation "m ~;; k" := (bindA m (fun _ => k))
  (at level 100, right associativity).

Definition setCodeVerifiers (f : gmap string string -> gmap string string)
    (a : AppWorld) : AppWorld :=
  mkAppWorld (relay a) (slackBot a) (f (codeVerifiers a)) (pkceDraws a)
    (tokenRequests a) (said a) (typingCalls a).

Definition countPkceDraw (a : AppWorld) : AppWorld :=
  mkAppWorld (relay a) (slackBot a) (codeVerifiers a) (S (pkceDraws a))
    (tokenRequests a) (said a) (typingCalls a).

Definition logTokenRequest (r : TokenRequest) (a : AppWorld) : AppWorld :=
  mkAppWorld (relay a) (slackBot a) (codeVerifiers a) (pkceDraws a)
    (r :: tokenRequests a) (said a) (typingCalls a).

Definition logSaid (r : BotReply) (a : AppWorld) : AppWorld :=
  mkAppWorld (relay a) (slackBot a) (codeVerifiers a) (pkceDraws a)
    (tokenRequests a) (r :: said a) (typingCalls a).

Definition logTyping (channel : string) (a : AppWorld) : AppWorld :=
  mkAppWorld (relay a) (slackBot a) (codeVerifiers a) (pkceDraws a)
    (tokenRequests a) (said a) (channel :: typingCalls a).

(** The application after [initialize()]: a new middleware, a chat bot when
    the Slack tokens are configured, no code verifier. *)
Definition initialized (hasSlackBot : bool) : AppWorld :=
  mkAppWorld (constructor false) hasSlackBot ∅ 0 [] [] [].

Section Application.

Variable env : AppEnv.

(** [await say(reply)] *)
Definition sayA (reply : BotReply) : A unit :=
  fun a =>
    match say env (length (said a)) reply with
    | inr _ => (Returned tt, logSaid reply a)
    | inl e => (Thrown e, logSaid reply a)
    end.

(** [showTypingIndicator(channel)] *)
Definition showTypingIndicator (channel : string) : A unit :=
  fun a =>
    match conversations_typing env (length (typingCalls a)) channel with
    | inr _ => (Returned tt, logTyping channel a)
    | inl error => (Returned tt, logTyping channel a)
    end.

(** [this.config.server?.baseUrl ||
     `http://localhost:${this.config.server?.port || 8005}`] *)
Definition authBaseUrl : string :=
  if JsString.truthy (server_baseUrl env) then server_baseUrl env
  else "http://localhost:" +:+
       numberText env
         match server_port env with
         | Js.Fin p => if p =? 0 then 8005 else p
         | Js.NaN => 8005
         end.

(** [sendAuthenticationLink(slackUserId, say)] *)
Definition sendAuthenticationLink (slackUserId : string) : A unit :=
  let authUrl := authBaseUrl +:+ "/auth/login/" +:+ slackUserId in
  sayA (SayAuthenticationLink authUrl).

(** [notifyAuthSuccess(slackUserId)]: a post through the chat client of the
    bot, whose failure is caught. *)
Definition notifyAuthSuccess (slackUserId : string) : A unit :=
  liftRelay
    (n <- gets (fun w => length (slackCalls w)) ;;
     let channel := JsString.replace "slack_" "" slackUserId in
     modify (logSlackCall (ChatPostMessage channel (authSuccessText env))) ;;;
     match chat_postMessage (relayEnv env) n channel (authSuccessText env) with
     | inr _ => ret tt
     | inl error => ret tt
     end).

(** The test at the head of the message handler: bot messages, edits and
    messages in threads are skipped. *)
Definition isSkipped (message : SlackMessage) : bool :=
  match message_subtype message with
  | Some s => String.eqb s "bot_message" || String.eqb s "message_changed"
  | None => false
  end
  || JsString.truthyOpt (message_thread_ts message)
  || JsString.truthyOpt (message_bot_id message).

(** The SAML branch of the message handler,
    [if (!storedToken && this.samlHandler.enabled) { try { ... } catch { ... } }].
    Its try block refers to [userInfo], a constant of the block of an
    earlier [try], before anything is called; the reference fails and the
    catch clause only logs. The stored token stays as it was. *)
Definition samlBranch (storedToken : option string) : A (option string) :=
  if negb (JsString.truthyOpt storedToken) && Saml.enabled (samlConfig env) then
    tryCatchA
      (throwA (Js.Rejected "userInfo is not defined"))
      (fun samlError => retA storedToken)
  else retA storedToken.

(** [if (response && response.text) { await say(response.text) }] *)
Definition sayIfText (text : string) : A unit :=
  if JsString.truthy text then sayA (SayText text) else retA tt.

(** The handler registered with [this.app.message]. The call of
    [client.users.info] at its head is wrapped in a [try] of its own and
    its result is used in log lines only. *)
Definition onMessage (fuel : nat) (message : SlackMessage) (now : Z) : A unit :=
  tryCatchA
    (if isSkipped message then retA tt
     else
       let userId := "slack_" +:+ message_user message in
       if requireAuth env then
         storedToken <~ liftRelay (getUserToken (relayEnv env) userId now) ;;
         storedToken <~ samlBranch storedToken ;;
         if negb (JsString.truthyOpt storedToken) then
           sendAuthenticationLink (message_user message)
         else
           showTypingIndicator (message_channel message) ~;;
           response <~ liftRelay
             (sendMessage (relayEnv env) fuel userId (message_text message)
                storedToken now) ;;
           sayIfText response
       else
         showTypingIndicator (message_channel message) ~;;
         response <~ liftRelay
           (sendMessage (relayEnv env) fuel userId (message_text message) None now) ;;
         sayIfText response)
    (fun error =>
       tryCatchA (sayA (SayText msgTurnError)) (fun sayError => retA tt)).

(** [generatePKCE()] *)
Definition generatePKCE : A (string * string) :=
  fun a =>
    let codeVerifier := randomVerifier env (pkceDraws a) in
    let codeChallenge := sha256Base64Url env codeVerifier in
    (Returned (codeVerifier, codeChallenge), countPkceDraw a).

(** [generateEntraIDAuthUrl(slackUserId)] *)
Definition generateEntraIDAuthUrl (slackUserId : string) : A AuthUrl :=
  let redirectUri := server_baseUrl env +:+ "/auth/callback" in
  pkce <~ generatePKCE ;;
  let '(codeVerifier, codeChallenge) := pkce in
  (fun a => (Returned tt, setCodeVerifiers (insert slackUserId codeVerifier) a)) ~;;
  retA (mkAuthUrl
          (authority env +:+ "/" +:+ tenantId env +:+ "/oauth2/v2.0/authorize")
          [("client_id", appClientId env);
           ("response_type", "code");
           ("redirect_uri", redirectUri);
           ("scope", oauth_scope (relayEnv env));
           ("state", slackUserId);
           ("code_challenge", codeChallenge);
           ("code_challenge_method", "S256")]).

(** The route [GET /auth/login/:slackUserId] *)
Definition authLogin (slackUserId : string) : A HttpResponse :=
  authUrl <~ generateEntraIDAuthUrl slackUserId ;;
  retA (Redirect authUrl).

Definition msgVerifierNotFound : string :=
  "Code verifier not found for user - possible replay attack or expired session".

(** The endpoint and the form of the request that [exchangeCodeForToken]
    makes for [code] with [codeVerifier]. *)
Definition tokenRequestBody (code codeVerifier : string) : TokenRequest :=
  let tokenEndpoint :=
    authority env +:+ "/" +:+ tenantId env +:+ "/oauth2/v2.0/token" in
  let redirectUri := server_baseUrl env +:+ "/auth/callback" in
  mkTokenRequest tokenEndpoint (appClientId env) (clientSecret env) code
    "authorization_code" redirectUri (oauth_scope (relayEnv env)) codeVerifier.

(** [exchangeCodeForToken(code, slackUserId)]: the [access_token] of the
    token response it returns. An [Error] thrown by the method is a
    rejection with its message. *)
Definition exchangeCodeForToken (code slackUserId : string) : A string :=
  fun a =>
    match codeVerifiers a !! slackUserId with
    | Some codeVerifier =>
        if negb (JsString.truthy codeVerifier)
        then (Thrown (Js.Rejected msgVerifierNotFound), a)
        else
          let a1 := setCodeVerifiers (delete slackUserId) a in
          let body := tokenRequestBody code codeVerifier in
          let a2 := logTokenRequest body a1 in
          match fetchToken env (length (tokenRequests a1)) body with
          | FetchRejects e => (Thrown e, a2)
          | FetchNotOk text =>
              (Thrown (Js.Rejected ("Token exchange failed: " +:+ text)), a2)
          | FetchOk access_token => (Returned access_token, a2)
          | FetchOkInvalidJson e => (Thrown e, a2)
          end
    | None => (Thrown (Js.Rejected msgVerifierNotFound), a)
    end.

(** The route [GET /auth/callback], with the [code] and [state] of the
    query. *)
Definition authCallback (code state : option string) (now : Z) : A HttpResponse :=
  if negb (JsString.truthyOpt code) || negb (JsString.truthyOpt state)
  then retA BadRequestMissingCodeOrState
  else
    tryCatchA
      (let slackUserId := default EmptyString state in
       access_token <~ exchangeCodeForToken (default EmptyString code) slackUserId ;;
       liftRelay (storeUserToken (relayEnv env) ("slack_" +:+ slackUserId)
                    access_token now) ~;;
       hasBot <~ (fun a => (Returned (slackBot a), a)) ;;
       (if hasBot then notifyAuthSuccess slackUserId else retA tt) ~;;
       retA AuthenticationSuccessfulPage)
      (fun error => retA (AuthenticationFailedPage (errorMessage error))).

End Application.

(** ** More sample environments *)

Module Samples.

(** An identity provider that rejects its first request and answers the
    later ones. *)
Definition flakyProviderEnv : Env :=
  mkEnv Fixtures.parse (fun _ => Js.NaN) (fun _ => "[object Object]")
    "https://api.powerplatform.com/.default" 7200000
    (fun n _ => match n with
                | O => ProviderRejects (Js.Rejected "AADSTS50196")
                | S _ => ProviderResolves "service-token" None
                end)
    (fun _ _ => StartResolves (mkConversationActivity (Some "conv-1")))
    Fixtures.ask
    (fun _ channel _ => inr (mkPostResult "1700000000.000100" channel))
    (fun _ _ _ _ => inr tt).

(** The token endpoint accepts the code ["good-code"] and answers with a
    token without expiration. *)
Definition fetch (n : nat) (r : TokenRequest) : FetchOutcome :=
  if String.eqb (request_code r) "good-code" then FetchOk "opaque-user-token"
  else FetchNotOk "invalid_grant".

Definition appEnv : AppEnv :=
  mkAppEnv Fixtures.env true (Saml.mkConfig false false true)
    "https://bot.example" (Js.Fin 8005)
    "client-id" "client-secret" "tenant-id" "https://login.microsoftonline.com"
    (fun _ => "8005")
    (fun n => match n with O => "verifier-0" | S _ => "verifier-1" end)
    (fun s => "challenge-of-" +:+ s)
    fetch
    (fun _ _ => inr tt)
    (fun _ _ => inr tt)
    "Authentication Successful!".

(** A sign-in fragment as the agent sends it: an oauth card with a
    connection name and two buttons that carry a title. *)
Definition signInFragment : Activity :=
  mkActivity "message" None None
    (Some [mkAttachment oauthCardType
             (Some (Js.JObj
                [("text", Js.JStr "Sign in to continue");
                 ("connectionName", Js.JStr "graph");
                 ("buttons",
                  Js.JArr
                    [Js.JObj [("type", Js.JStr "openUrl");
                              ("title", Js.JStr "Help");
                              ("value", Js.JStr "https://help.example")];
                     Js.JObj [("type", Js.JStr "signin");
                              ("title", Js.JStr "Sign In");
                              ("value", Js.JStr "https://login.example/a")]])]))]).

Definition dm (text : string) : SlackMessage :=
  mkSlackMessage None None None "U1" text "D1".

End Samples.

(** ** Properties of the janitor *)

(** The eviction loop, started from any world [w0] and run over any map
    [m] of sessions, removes from the registry of [w0] the keys of [m]
    whose session is idle and changes nothing else in the registry. *)
Lemma cleanupConnections_fold_lookup (env : Env) (now : Z) (w0 : World)
    (m : gmap UserKey Connection) (k : UserKey) :
  activeConnections
    (map_fold
       (fun k connection acc =>
          if connectionTimeoutMs env <? now - lastActivity connection
          then logRegistryOp (RegDelete k) (setConnections (delete k) acc)
          else acc)
       w0 m) !! k =
  match m !! k with
  | Some c =>
      if connectionTimeoutMs env <? now - lastActivity c then None
      else activeConnections w0 !! k
  | None => activeConnections w0 !! k
  end.
Proof.
  revert k.
  apply (map_fold_weak_ind (fun acc m => forall k,
    activeConnections acc !! k =
    match m !! k with
    | Some c =>
        if connectionTimeoutMs env <? now - lastActivity c then None
        else activeConnections w0 !! k
    | None => activeConnections w0 !! k
    end)).
  - intros k. by rewrite lookup_empty.
  - intros i x m' r Hfresh IH k.
    destruct (decide (i = k)) as [->|Hne].
    + rewrite lookup_insert_eq.
      destruct (connectionTimeoutMs env <? now - lastActivity x) eqn:Hidle; simpl.
      * apply lookup_delete_eq.
      * rewrite IH, Hfresh. reflexivity.
    + rewrite lookup_insert_ne by done.
      destruct (connectionTimeoutMs env <? now - lastActivity x); simpl.
      * rewrite lookup_delete_ne by done. apply IH.
      * apply IH.
Qed.

Lemma cleanupConnections_lookup (env : Env) (now : Z) (w : World) (k : UserKey) :
  activeConnections (cleanupConnections env now w) !! k =
  match activeConnections w !! k with
  | Some c => if connectionTimeoutMs env <? now - lastActivity c then None else Some c
  | None => None
  end.
Proof.
  unfold cleanupConnections. cbv zeta.
  rewrite cleanupConnections_fold_lookup.
  destruct (activeConnections w !! k) eqn:E; reflexivity.
Qed.

(** The token phase and the service-token phase leave the registry alone. *)
Lemma cleanupTokens_connections (now : Z) (w : World) :
  activeConnections (cleanupTokens now w) = activeConnections w.
Proof.
  unfold cleanupTokens.
  apply (map_fold_weak_ind (fun acc _ => activeConnections acc = activeConnections w)).
  - reflexivity.
  - intros i x m r _ IH.
    destruct x as [s|d]; simpl.
    + destruct (activeConnections r !! Some i) as [c|].
      * destruct (tokenMaxAge <? now - lastActivity c); [exact IH | exact IH].
      * exact IH.
    + destruct (negb (lastUsed d =? 0) && (tokenMaxAge <? now - lastUsed d));
        exact IH.
Qed.

Lemma cleanupServiceToken_connections (now : Z) (w : World) :
  activeConnections (cleanupServiceToken now w) = activeConnections w.
Proof.
  unfold cleanupServiceToken. cbv zeta.
  destruct (JsString.truthyOpt (cache_token (serviceTokenCache w))
            && (cache_expiresAt (serviceTokenCache w) <? now)); reflexivity.
Qed.

(** C7. The connection-eviction phase of [cleanup], and so [cleanup] as a
    whole, removes exactly the sessions with
    [now - lastActivity > connectionTimeoutMs]: the registry afterwards is the
    registry before, restricted to the sessions that are not idle, each with
    its entry as it was. *)
Theorem cleanup_removes_exactly_idle_sessions (env : Env) (now : Z) (w : World) :
  activeConnections (cleanupConnections env now w) =
    filter (fun kc => ~ (connectionTimeoutMs env < now - lastActivity kc.2))
           (activeConnections w)
  /\ fst (cleanup env now w) = Returned tt
  /\ activeConnections (snd (cleanup env now w)) =
       filter (fun kc => ~ (connectionTimeoutMs env < now - lastActivity kc.2))
              (activeConnections w).
Proof.
  assert (Hphase : activeConnections (cleanupConnections env now w) =
    filter (fun kc => ~ (connectionTimeoutMs env < now - lastActivity kc.2))
           (activeConnections w)).
  { apply map_eq. intros k.
    rewrite cleanupConnections_lookup, map_lookup_filter.
    destruct (activeConnections w !! k) as [c|]; simpl; [|reflexivity].
    destruct (Z.ltb_spec (connectionTimeoutMs env) (now - lastActivity c)).
    - rewrite option_guard_False; [reflexivity | tauto].
    - rewrite option_guard_True; [reflexivity | lia]. }
  split; [exact Hphase|]. split; [reflexivity|].
  unfold cleanup, modify. simpl.
  rewrite cleanupServiceToken_connections, cleanupTokens_connections.
  exact Hphase.
Qed.

(** ** Properties of the token store *)

Lemma jwtExp_decoded_nonempty (env : Env) (s : string) (v : Js.Value) :
  jwtExp env s = inr (Some v) -> JsString.truthy s = true.
Proof.
  destruct s as [|c s]; [|reflexivity].
  unfold jwtExp. simpl. discriminate.
Qed.

Lemma expMillis_num (env : Env) (e : Z) :
  expMillis env (Js.JNum e) = Js.Fin (e * 1000).
Proof. reflexivity. Qed.

(** Once the record of a user is gone, [getUserToken] returns [undefined]
    and changes nothing. *)
Lemma getUserToken_absent (env : Env) (u : string) (now : Z) (w : World) :
  userTokens w !! u = None ->
  getUserToken env u now w = (Returned None, w).
Proof.
  intros H. unfold getUserToken, bind, gets. rewrite H. reflexivity.
Qed.

(** The log line of a date, by the validity of the time value. *)
Lemma logDate_spec (n : Js.Num) (w : World) :
  logDate n w
  = (if Js.validTime n then Returned tt
     else Thrown (Js.RangeError "Invalid time value"), w).
Proof.
  unfold logDate, Js.toISOString. destruct (Js.validTime n); reflexivity.
Qed.

(** A legacy token with a decodable numeric [exp] other than 0. Up to its
    expiration the read returns the token and changes nothing. After its
    expiration the read deletes the record and returns [undefined] when the
    expiration is a valid date; when it is not, formatting it throws inside
    the [try] block and the read returns the token and keeps the record. *)
Lemma getUserToken_legacy_expiry (env : Env) (u s : string) (e now : Z) (w : World) :
  jwtExp env s = inr (Some (Some (Js.JNum e))) ->
  e <> 0 ->
  userTokens w !! u = Some (Legacy s) ->
  (e * 1000 < now ->
     getUserToken env u now w
     = if Js.validTime (Js.Fin (e * 1000))
       then (Returned None, setTokens (delete u) w)
       else (Returned (Some s), w))
  /\ (now <= e * 1000 -> getUserToken env u now w = (Returned (Some s), w)).
Proof.
  intros Hjwt He Hw.
  pose proof (jwtExp_decoded_nonempty _ _ _ Hjwt) as Hs.
  assert ( Htr : Js.truthy (Some (Js.JNum e)) = true).
  { simpl. apply negb_true_iff, Z.eqb_neq, He. }
  split; intros Hnow; unfold getUserToken, bind at 1, gets;
    rewrite Hw, Hs; cbn [negb]; cbv beta iota; rewrite Hjwt, Htr, expMillis_num;
    unfold Js.gtNum; cbv zeta.
  - assert (E : (e * 1000 <? now) = true) by (apply Z.ltb_lt; lia).
    rewrite E. unfold tryCatch, bind. rewrite logDate_spec.
    destruct (Js.validTime (Js.Fin (e * 1000))); reflexivity.
  - assert (E : (e * 1000 <? now) = false) by (apply Z.ltb_ge; lia).
    rewrite E. unfold tryCatch, bind. rewrite logDate_spec.
    destruct (Js.validTime (Js.Fin (e * 1000))); reflexivity.
Qed.

(** What [storeUserToken] stores for a token with a decodable numeric [exp]
    other than 0. *)
Lemma storeUserToken_numeric_exp (env : Env) (u s : string) (e t0 : Z) (w : World) :
  jwtExp env s = inr (Some (Some (Js.JNum e))) ->
  e <> 0 ->
  storeUserToken env u s t0 w =
    (Returned tt,
     setTokens (insert u (Structured (mkTokenData s t0 t0 (Some (Js.Fin (e * 1000)))))) w).
Proof.
  intros Hjwt He. unfold storeUserToken. rewrite Hjwt.
  assert (Htr : Js.truthy (Some (Js.JNum e)) = true).
  { simpl. apply negb_true_iff, Z.eqb_neq, He. }
  rewrite Htr, expMillis_num. reflexivity.
Qed.

(** A structured record whose [expiresAt] is a number other than 0. When
    that number is a valid date, the read after it deletes the record and
    returns [undefined], and the read up to it stamps [lastUsed] and
    returns the token. When it is not a valid date the read throws the
    RangeError of the log line: after the expiration before anything is
    changed, up to the expiration after [lastUsed] has been stamped. *)
Lemma getUserToken_structured_expiry (env : Env) (u : string) (d : TokenData)
    (x now : Z) (w : World) :
  userTokens w !! u = Some (Structured d) ->
  expiresAt d = Some (Js.Fin x) ->
  x <> 0 ->
  (x < now ->
   getUserToken env u now w
   = if Js.validTime (Js.Fin x)
     then (Returned None, setTokens (delete u) w)
     else (Thrown (Js.RangeError "Invalid time value"), w))
  /\ (now <= x ->
      getUserToken env u now w =
        (if Js.validTime (Js.Fin x)
         then Returned (Some (token d))
         else Thrown (Js.RangeError "Invalid time value"),
         setTokens (insert u (Structured (mkTokenData (token d) (storedAt d) now (expiresAt d)))) w)).
Proof.
  intros Hw Hx Hne.
  assert (Htr : negb (x =? 0) = true) by (apply negb_true_iff, Z.eqb_neq, Hne).
  split; intros Hnow; unfold getUserToken, bind at 1, gets; rewrite Hw; cbv iota;
    rewrite Hx; unfold Js.truthyNum, Js.gtNum; rewrite Htr; cbn [andb].
  - assert (E : (x <? now) = true) by (apply Z.ltb_lt; lia).
    rewrite E. cbv beta iota. unfold bind. rewrite logDate_spec.
    destruct (Js.validTime (Js.Fin x)); reflexivity.
  - assert (E : (x <? now) = false) by (apply Z.ltb_ge; lia).
    rewrite E. cbv beta iota. unfold bind, modify. rewrite logDate_spec.
    destruct (Js.validTime (Js.Fin x)); reflexivity.
Qed.

(** Store, then read: a token with a decodable numeric [exp] other than 0
    whose expiration is a valid date is returned up to its expiration;
    after it the read returns [undefined] and removes the record, so that
    the next read returns [undefined] too. *)
Lemma store_then_get_expiry (env : Env) (u s : string) (e t0 now : Z) (w : World) :
  jwtExp env s = inr (Some (Some (Js.JNum e))) ->
  e <> 0 ->
  Js.validTime (Js.Fin (e * 1000)) = true ->
  let w1 := snd (storeUserToken env u s t0 w) in
  (now <= e * 1000 -> fst (getUserToken env u now w1) = Returned (Some s))
  /\ (e * 1000 < now ->
      fst (getUserToken env u now w1) = Returned None
      /\ userTokens (snd (getUserToken env u now w1)) !! u = None
      /\ forall now', fst (getUserToken env u now' (snd (getUserToken env u now w1)))
                      = Returned None).
Proof.
  intros Hjwt He Hvalid w1. subst w1.
  rewrite (storeUserToken_numeric_exp _ _ _ _ _ _ Hjwt He). simpl snd.
  set (d := mkTokenData s t0 t0 (Some (Js.Fin (e * 1000)))).
  set (w1 := setTokens (insert u (Structured d)) w).
  assert (Hw1 : userTokens w1 !! u = Some (Structured d)) by apply lookup_insert_eq.
  assert (Hx : e * 1000 <> 0) by lia.
  destruct (getUserToken_structured_expiry env u d (e * 1000) now w1 Hw1 eq_refl Hx)
    as [Hexp Hval].
  rewrite Hvalid in Hexp, Hval.
  split; intros Hnow.
  - rewrite (Hval Hnow). reflexivity.
  - rewrite (Hexp Hnow). simpl.
    assert (Hgone : userTokens (setTokens (delete u) w1) !! u = None)
      by apply lookup_delete_eq.
    split; [reflexivity|]. split; [exact Hgone|].
    intros now'. rewrite (getUserToken_absent _ _ _ _ Hgone). reflexivity.
Qed.

(** C1, at the input where the code departs from it. A token whose
    payload decodes to [{exp: 0}] expired on 1970-01-01; read on
    2025-10-20 ([now = 1761000000000]) it is returned and its record is
    kept, in the legacy shape and in the structured shape that
    [storeUserToken] builds: [if (payload.exp)] takes the number 0 for a
    missing claim. *)
Theorem getUserToken_returns_token_expired_at_epoch :
  jwtExp Fixtures.env Fixtures.tokenExpEpoch = inr (Some (Some (Js.JNum 0)))
  /\ 0 * 1000 < 1761000000000
  /\ (let w := setTokens (insert Fixtures.user (Legacy Fixtures.tokenExpEpoch))
                 (constructor true) in
      fst (getUserToken Fixtures.env Fixtures.user 1761000000000 w)
        = Returned (Some Fixtures.tokenExpEpoch)
      /\ userTokens (snd (getUserToken Fixtures.env Fixtures.user 1761000000000 w))
           !! Fixtures.user = Some (Legacy Fixtures.tokenExpEpoch))
  /\ (let w := snd (storeUserToken Fixtures.env Fixtures.user Fixtures.tokenExpEpoch
                      1760990000000 (constructor true)) in
      fst (getUserToken Fixtures.env Fixtures.user 1761000000000 w)
        = Returned (Some Fixtures.tokenExpEpoch)
      /\ is_Some (userTokens (snd (getUserToken Fixtures.env Fixtures.user 1761000000000 w))
                    !! Fixtures.user)).
Proof.
  split; [reflexivity|]. split; [lia|]. split.
  - split; vm_compute; reflexivity.
  - split; [vm_compute; reflexivity|]. vm_compute. eexists. reflexivity.
Qed.

(** ** Properties of the service-token cache *)

Lemma getServiceToken_hit (env : Env) (now : Z) (w : World) (tok : string) :
  cache_token (serviceTokenCache w) = Some tok ->
  JsString.truthy tok = true ->
  now < cache_expiresAt (serviceTokenCache w) - 300000 ->
  getServiceToken env now w = (Returned tok, w).
Proof.
  intros Htok Htr Hnow.
  assert (E : (now <? cache_expiresAt (serviceTokenCache w) - 300000) = true)
    by (apply Z.ltb_lt; lia).
  unfold getServiceToken, tryCatch, bind, gets. cbv beta iota.
  rewrite Htok, E. unfold JsString.truthyOpt. rewrite Htr. reflexivity.
Qed.

(** A call that does not find a usable token asks the identity provider
    once; the cache afterwards holds the answer, or is cleared when there
    is none. *)
Lemma getServiceToken_miss (env : Env) (now : Z) (w : World) :
  JsString.truthyOpt (cache_token (serviceTokenCache w))
    && (now <? cache_expiresAt (serviceTokenCache w) - 300000) = false ->
  getServiceToken env now w =
    let w1 := logProviderRequest (oauth_scope env) w in
    match acquireTokenByClientCredential env (length (providerRequests w))
            (oauth_scope env) with
    | ProviderResolves t e =>
        (Returned t,
         setServiceTokenCache
           (mkServiceTokenCache (Some t)
              match e with Some x => x | None => now + 3600000 end) w1)
    | ProviderRejects err =>
        (Thrown err, setServiceTokenCache (mkServiceTokenCache None 0) w1)
    | ProviderNull =>
        (Thrown (Js.TypeError "Cannot read properties of null"),
         setServiceTokenCache (mkServiceTokenCache None 0) w1)
    end.
Proof.
  intros Hmiss.
  unfold getServiceToken, tryCatch, bind, gets, modify, throw, ret.
  rewrite Hmiss.
  destruct (acquireTokenByClientCredential env (length (providerRequests w))
              (oauth_scope env)); reflexivity.
Qed.

(** C2. While the cache holds a token and the clock is strictly before
    [expiresAt - 300000], [getServiceToken] returns the cached token and
    leaves the world, the record of provider requests included, as it was;
    so do two calls in a row. Once the clock has reached
    [expiresAt - 300000] a call makes exactly one provider request, and
    when the provider answers with a token it returns that token and caches
    it with the expiration of the answer, or [now + 3600000] when the answer
    has none. *)
Theorem getServiceToken_cache_and_refresh (env : Env) (w : World) (tok : string) :
  cache_token (serviceTokenCache w) = Some tok ->
  JsString.truthy tok = true ->
  (forall now,
      now < cache_expiresAt (serviceTokenCache w) - 300000 ->
      getServiceToken env now w = (Returned tok, w))
  /\ (forall now1 now2,
      now1 < cache_expiresAt (serviceTokenCache w) - 300000 ->
      now2 < cache_expiresAt (serviceTokenCache w) - 300000 ->
      (t1 <- getServiceToken env now1 ;;
       t2 <- getServiceToken env now2 ;;
       ret (t1, t2)) w = (Returned (tok, tok), w))
  /\ (forall now,
      cache_expiresAt (serviceTokenCache w) - 300000 <= now ->
      providerRequests (snd (getServiceToken env now w))
        = oauth_scope env :: providerRequests w
      /\ forall t e,
          acquireTokenByClientCredential env (length (providerRequests w))
            (oauth_scope env) = ProviderResolves t e ->
          fst (getServiceToken env now w) = Returned t
          /\ serviceTokenCache (snd (getServiceToken env now w))
             = mkServiceTokenCache (Some t)
                 match e with Some x => x | None => now + 3600000 end).
Proof.
  intros Htok Htr. split; [|split].
  - intros now Hnow. by apply getServiceToken_hit.
  - intros now1 now2 H1 H2. unfold bind.
    rewrite (getServiceToken_hit env now1 w tok Htok Htr H1).
    rewrite (getServiceToken_hit env now2 w tok Htok Htr H2).
    reflexivity.
  - intros now Hnow.
    assert (Hmiss : JsString.truthyOpt (cache_token (serviceTokenCache w))
              && (now <? cache_expiresAt (serviceTokenCache w) - 300000) = false).
    { apply andb_false_iff. right. apply Z.ltb_ge. lia. }
    rewrite (getServiceToken_miss env now w Hmiss). cbv zeta.
    split.
    + destruct (acquireTokenByClientCredential env _ _); reflexivity.
    + intros t e Hp. rewrite Hp. split; reflexivity.
Qed.

(** The theorem at the sample world whose cache holds ["cached-token"]
    until 1761003600000: a call at 1761000000000 returns it, a call at
    1761003400000 asks the provider. *)
Lemma getServiceToken_cache_and_refresh_witness :
  cache_token (serviceTokenCache Fixtures.withServiceToken) = Some "cached-token"
  /\ JsString.truthy "cached-token" = true
  /\ getServiceToken Fixtures.env 1761000000000 Fixtures.withServiceToken
     = (Returned "cached-token", Fixtures.withServiceToken)
  /\ providerRequests
       (snd (getServiceToken Fixtures.env 1761003400000 Fixtures.withServiceToken))
     = [oauth_scope Fixtures.env]
  /\ fst (getServiceToken Fixtures.env 1761003400000 Fixtures.withServiceToken)
     = Returned "service-token".
Proof.
  destruct (getServiceToken_cache_and_refresh Fixtures.env Fixtures.withServiceToken
              "cached-token" eq_refl eq_refl) as (Hhit & _ & Hmiss).
  split; [reflexivity|]. split; [reflexivity|]. split.
  - apply Hhit. simpl. lia.
  - destruct (Hmiss 1761003400000) as [Hreq Hans]; [simpl; lia|].
    split; [exact Hreq|].
    destruct (Hans "service-token" (Some 1761003600000) eq_refl) as [Hret _].
    exact Hret.
Defined.

(** ** Properties of the sign-in card extraction *)

Lemma isSignInButton_actionJson (b : CardAction) :
  isSignInButton (actionJson b) = inr (String.eqb (action_type b) "signin").
Proof. reflexivity. Qed.

(** On the buttons of a typed card, [find] returns the first button whose
    type is [signin]. *)
Lemma find_signin_actions (bs : list CardAction) :
  Js.find isSignInButton (map actionJson bs)
  = inr (actionJson <$> List.find (fun b => String.eqb (action_type b) "signin") bs).
Proof.
  induction bs as [|b bs IH]; [reflexivity|].
  cbn [map Js.find List.find]. rewrite isSignInButton_actionJson.
  destruct (String.eqb (action_type b) "signin"); [reflexivity | exact IH].
Qed.

Lemma buttons_of_cardJson (c : OAuthCard) :
  Js.getPropOpt (Some (cardJson c)) "buttons"
  = inr (Some (Js.JArr (map actionJson (card_buttons c)))).
Proof. destruct c as [[t|] bs]; reflexivity. Qed.

Lemma text_of_cardJson (c : OAuthCard) :
  Js.getProp (Some (cardJson c)) "text" = inr (Js.JStr <$> card_text c).
Proof. destruct c as [[t|] bs]; reflexivity. Qed.

Lemma value_of_actionJson (b : CardAction) :
  Js.getProp (Some (actionJson b)) "value" = inr (Js.JStr <$> action_value b).
Proof. destruct b as [t [v|]]; reflexivity. Qed.

(** The [try] block on a typed card. *)
Lemma signInCardText_typed (env : Env) (a : Activity) (att : Attachment)
    (rest : list Attachment) (c : OAuthCard) :
  attachments a = Some (att :: rest) ->
  contentType att = oauthCardType ->
  content att = Some (cardJson c) ->
  signInCardText env a =
    inr match firstSignInAction c with
        | Some b =>
            if JsString.truthyOpt (action_value b)
            then signInMessage (cardPrompt c) (default EmptyString (action_value b))
            else msgSignInLinkMissing
        | None => msgSignInLinkMissing
        end.
Proof.
  intros Hatt Htype Hcontent.
  unfold signInCardText. rewrite Hatt, Htype, Hcontent.
  rewrite String.eqb_refl. cbn [negb].
  rewrite buttons_of_cardJson. cbn [Js.evalBind Js.findOpt].
  rewrite find_signin_actions. unfold firstSignInAction.
  destruct (List.find _ (card_buttons c)) as [b|]; cbn [fmap option_fmap option_map Js.evalBind];
    [|reflexivity].
  assert (Hobj : Js.truthy (Some (actionJson b)) = true) by reflexivity.
  rewrite Hobj. cbn [negb]. rewrite value_of_actionJson. cbn [Js.evalBind].
  destruct (action_value b) as [v|]; cbn [fmap option_fmap option_map]; [|reflexivity].
  cbn [Js.truthy JsString.truthyOpt].
  destruct (JsString.truthy v) eqn:Hv; cbn [negb]; [|reflexivity].
  rewrite text_of_cardJson. cbn [Js.evalBind].
  unfold cardPrompt.
  destruct (card_text c) as [t|]; cbn [fmap option_fmap option_map Js.truthy JsString.truthyOpt];
    [|reflexivity].
  destruct (JsString.truthy t); reflexivity.
Qed.

(** Whatever the fragment, a result of the [try] block is one of the two
    fixed messages or a composed sign-in message. *)
Lemma signInCardText_shape (env : Env) (a : Activity) (s : string) :
  signInCardText env a = inr s ->
  s = msgSignInNotFound \/ s = msgSignInLinkMissing
  \/ exists promptText signInUrl, s = signInMessage promptText signInUrl.
Proof.
  unfold signInCardText, Js.evalBind. intros H.
  repeat case_match; simplify_eq; eauto.
Qed.

(** The search passes over a button that is not [null] and not a sign-in
    button. *)
Lemma isSignInButton_passedOver (b : Js.Json) :
  passedOver b = true -> isSignInButton b = inr false.
Proof.
  destruct b as [|x|z|t|items|fields]; try reflexivity; [discriminate|].
  unfold passedOver, isSignInButton. cbn [Js.getProp Js.evalBind].
  destruct (Js.assoc "type" fields) as [[|x|z|t|items|fs]|]; try reflexivity.
  cbn [Js.strictEqStr]. intros H. apply negb_true_iff in H. by rewrite H.
Qed.

Lemma find_passedOver (pre rest : list Js.Json) :
  forallb passedOver pre = true ->
  Js.find isSignInButton (pre ++ rest) = Js.find isSignInButton rest.
Proof.
  induction pre as [|b pre IH]; [reflexivity|].
  cbn [forallb app Js.find]. intros H. apply andb_true_iff in H as [Hb Hpre].
  rewrite (isSignInButton_passedOver b Hb). exact (IH Hpre).
Qed.

Lemma truthy_falsyJson (j : Js.Json) : Js.truthy (Some j) = negb (falsyJson j).
Proof.
  destruct j as [|x|z|t|items|fields]; try reflexivity.
  - cbn. by rewrite negb_involutive.
  - destruct t; reflexivity.
Qed.

(** C9, as the code has it. Sign-in card extraction never raises: for
    every fragment it returns one of three fixed messages (no sign-in link
    found, link missing, or the apology of the catch clause) or a composed
    message, and which one is settled by the fragment alone. When the first
    attachment is missing or is not an oauth card: the no-sign-in-link
    message. Otherwise, with [content] the content of that attachment:
    when [content] is [undefined], [null] or no object, or is an object
    whose [buttons] is missing or [null]: the link-missing message; when
    [buttons] is anything else that is no array: the apology. When
    [buttons] is an array, the search goes through it in order and passes
    over every value that is not [null] and not an object whose [type] is
    ["signin"]: when it passes over all of them, the link-missing message;
    when it comes to a [null], the apology; when it comes to an object
    whose [type] is ["signin"], that button alone counts: without a [value]
    or with a falsy one, the link-missing message, else the prompt (the
    [text] of the card, or ["Please sign in to continue."] when the card
    has none or a falsy one), a blank line and
    ["Click here to sign in: <value|Sign In>"]. Fields that the code does
    not read, such as a title or a connection name, change nothing. *)
Theorem handleUserSignInCard_cases (env : Env) (a : Activity) :
  (handleUserSignInCard env a = msgSignInNotFound
   \/ handleUserSignInCard env a = msgSignInLinkMissing
   \/ handleUserSignInCard env a = msgSignInError
   \/ exists promptText signInUrl,
        handleUserSignInCard env a = signInMessage promptText signInUrl)
  /\ match attachments a with
     | Some (att :: _) =>
         if String.eqb (contentType att) oauthCardType then
           match content att with
           | Some (Js.JObj fields) =>
               match Js.assoc "buttons" fields with
               | Some (Js.JArr items) =>
                   (forallb passedOver items = true ->
                    handleUserSignInCard env a = msgSignInLinkMissing)
                   /\ (forall pre post,
                         items = pre ++ Js.JNull :: post ->
                         forallb passedOver pre = true ->
                         handleUserSignInCard env a = msgSignInError)
                   /\ (forall pre button post,
                         items = pre ++ Js.JObj button :: post ->
                         forallb passedOver pre = true ->
                         Js.assoc "type" button = Some (Js.JStr "signin") ->
                         handleUserSignInCard env a =
                           match Js.assoc "value" button with
                           | Some value =>
                               if falsyJson value then msgSignInLinkMissing
                               else signInMessage (promptOf env fields)
                                      (toString env value)
                           | None => msgSignInLinkMissing
                           end)
               | Some Js.JNull | None =>
                   handleUserSignInCard env a = msgSignInLinkMissing
               | Some _ => handleUserSignInCard env a = msgSignInError
               end
           | _ => handleUserSignInCard env a = msgSignInLinkMissing
           end
         else handleUserSignInCard env a = msgSignInNotFound
     | _ => handleUserSignInCard env a = msgSignInNotFound
     end.
Proof.
  split.
  - unfold handleUserSignInCard.
    destruct (signInCardText env a) as [e|s] eqn:E; [tauto|].
    destruct (signInCardText_shape env a s E) as [->|[->|(p & u & ->)]]; eauto 6.
  - unfold handleUserSignInCard, signInCardText.
    destruct (attachments a) as [[|att rest]|]; try reflexivity.
    destruct (String.eqb (contentType att) oauthCardType); cbn [negb]; [|reflexivity].
    destruct (content att) as [[|x|z|t|items|fields]|]; try reflexivity.
    cbn [Js.getPropOpt Js.getProp Js.evalBind].
    destruct (Js.assoc "buttons" fields) as [[|x|z|t|items|fs]|] eqn:Hbuttons;
      try reflexivity.
    cbn [Js.findOpt]. split; [|split].
    + intros Hall.
      pose proof (find_passedOver items [] Hall) as Hfind.
      rewrite app_nil_r in Hfind. rewrite Hfind. reflexivity.
    + intros pre post -> Hpre. rewrite (find_passedOver pre _ Hpre). reflexivity.
    + intros pre button post -> Hpre Htype.
      rewrite (find_passedOver pre _ Hpre).
      cbn [Js.find]. unfold isSignInButton at 1.
      cbn [Js.getProp Js.evalBind]. rewrite Htype.
      change (Js.strictEqStr (Some (Js.JStr "signin")) "signin") with true.
      cbn [Js.evalBind Js.truthy negb Js.getProp].
      destruct (Js.assoc "value" button) as [value|]; [|reflexivity].
      rewrite truthy_falsyJson, negb_involutive.
      destruct (falsyJson value); [reflexivity|].
      cbn [Js.evalBind Js.getProp from_option]. unfold promptOf.
      destruct (Js.assoc "text" fields) as [text|]; [|reflexivity].
      rewrite truthy_falsyJson. destruct (falsyJson text); reflexivity.
Qed.

(** The theorem at a fragment as the agent sends it, whose card and
    buttons carry fields that the code does not read. *)
Lemma handleUserSignInCard_cases_witness :
  handleUserSignInCard Fixtures.env Samples.signInFragment
  = signInMessage "Sign in to continue" "https://login.example/a".
Proof.
  pose proof (handleUserSignInCard_cases Fixtures.env Samples.signInFragment)
    as [_ H].
  cbn [attachments Samples.signInFragment contentType content] in H.
  change (String.eqb oauthCardType oauthCardType) with true in H.
  cbv beta iota in H.
  change (Js.assoc "buttons" _) with
    (Some (Js.JArr
             [Js.JObj [("type", Js.JStr "openUrl");
                       ("title", Js.JStr "Help");
                       ("value", Js.JStr "https://help.example")];
              Js.JObj [("type", Js.JStr "signin");
                       ("title", Js.JStr "Sign In");
                       ("value", Js.JStr "https://login.example/a")]])) in H.
  cbv beta iota in H.
  destruct H as (_ & _ & H).
  exact (H [Js.JObj [("type", Js.JStr "openUrl");
                     ("title", Js.JStr "Help");
                     ("value", Js.JStr "https://help.example")]]
           [("type", Js.JStr "signin");
            ("title", Js.JStr "Sign In");
            ("value", Js.JStr "https://login.example/a")]
           [] eq_refl eq_refl eq_refl).
Defined.

(** C9 as stated fails on a card whose first sign-in button has no value
    and whose second has one: a sign-in button with a value is there, and
    the extraction returns the link-missing message, not the message
    composed with that value. *)
Lemma handleUserSignInCard_later_button_counterexample :
  hasSignInActionWithValue Fixtures.twoButtonCard = true
  /\ handleUserSignInCard Fixtures.env (Fixtures.signInActivity Fixtures.twoButtonCard)
     = msgSignInLinkMissing
  /\ handleUserSignInCard Fixtures.env (Fixtures.signInActivity Fixtures.twoButtonCard)
     <> signInMessage "Sign in" "https://login.example/a".
Proof.
  split; [reflexivity|]. split; [reflexivity|].
  vm_compute. discriminate.
Qed.

(** ** Properties of the trimming and of the classification of fragments *)

Lemma append_cons (c : ascii) (s t : string) :
  String c s +:+ t = String c (s +:+ t).
Proof. reflexivity. Qed.

Lemma append_nil_r (s : string) : s +:+ EmptyString = s.
Proof.
  induction s as [|c s IH]; [reflexivity|].
  rewrite append_cons. f_equal. exact IH.
Qed.

Lemma append_assoc (a b c : string) : (a +:+ b) +:+ c = a +:+ (b +:+ c).
Proof.
  induction a as [|x a IH]; [reflexivity|].
  rewrite !append_cons. f_equal. exact IH.
Qed.

Lemma trimEnd_append_space (s : string) :
  JsString.trimEnd (s +:+ " ") = JsString.trimEnd s.
Proof.
  induction s as [|c s IH]; [reflexivity|].
  rewrite append_cons. cbn [JsString.trimEnd]. rewrite IH. reflexivity.
Qed.

Lemma trimStart_append_space (s : string) :
  JsString.trimStart (s +:+ " ") =
  match JsString.trimStart s with
  | EmptyString => EmptyString
  | t => t +:+ " "
  end.
Proof.
  induction s as [|c s IH]; [reflexivity|].
  rewrite append_cons. cbn [JsString.trimStart].
  destruct (JsString.isWhiteSpace c); [exact IH | reflexivity].
Qed.

(** A trailing space does not survive [trim]. *)
Lemma trim_append_space (s : string) :
  JsString.trim (s +:+ " ") = JsString.trim s.
Proof.
  unfold JsString.trim. rewrite trimStart_append_space.
  destruct (JsString.trimStart s) as [|c t]; [reflexivity|].
  apply trimEnd_append_space.
Qed.

Lemma spaced_concat (texts : list string) :
  spaced texts =
  match texts with
  | [] => EmptyString
  | _ => String.concat " " texts +:+ " "
  end.
Proof.
  induction texts as [|t rest IH]; [reflexivity|].
  cbn [spaced]. rewrite IH.
  destruct rest as [|t' rest']; cbn [String.concat].
  - reflexivity.
  - rewrite !append_assoc. reflexivity.
Qed.

Lemma trim_spaced (texts : list string) :
  JsString.trim (spaced texts) = JsString.trim (String.concat " " texts).
Proof.
  rewrite spaced_concat. destruct texts as [|t rest]; [reflexivity|].
  apply trim_append_space.
Qed.

(** What the loop over the replies collects, from any starting point. *)
Lemma classify_fold (replies : list Activity) (acc : Classified) :
  fold_left classifyActivity replies acc =
  mkClassified
    (responseText acc +:+ spaced (messageTexts replies))
    (match capturedConsentCard replies with
     | Some c => Some c
     | None => consentCard acc
     end)
    (match capturedSignInCard replies with
     | Some c => Some c
     | None => userSignInCard acc
     end).
Proof.
  revert acc. induction replies as [|a rest IH]; intros acc.
  - simpl. rewrite append_nil_r. by destruct acc.
  - cbn [fold_left]. rewrite IH. clear IH.
    unfold classifyActivity, messageTexts, capturedConsentCard, capturedSignInCard,
      isTextMessage.
    cbn [omap list_omap List.filter].
    destruct (String.eqb (activity_type a) "message") eqn:Hmsg;
      destruct (JsString.truthyOpt (activity_text a)) eqn:Htxt;
      destruct (isConsentCard a) eqn:Hcons;
      destruct (isSignInCard a) eqn:Hsign;
      cbn [andb negb responseText consentCard userSignInCard];
      try (destruct (activity_text a) as [t|]; [|discriminate Htxt]);
      cbn [default spaced];
      rewrite ?last_cons, ?append_assoc;
      repeat case_match; simplify_eq; reflexivity.
Qed.

Lemma classify_spec (replies : list Activity) :
  classify replies =
  mkClassified (spaced (messageTexts replies))
    (capturedConsentCard replies) (capturedSignInCard replies).
Proof.
  unfold classify. rewrite classify_fold. simpl.
  destruct (capturedConsentCard replies), (capturedSignInCard replies); reflexivity.
Qed.

(** The stages of [resolveReply], in terms of what the loop collected. *)
Lemma resolveReply_stages (env : Env) (fuel : nat) (userId : string)
    (replies : list Activity) (w : World) :
  resolveReply env fuel userId replies w =
    let cl := classify replies in
    let suffix :=
      match userSignInCard cl with
      | Some card => " " +:+ handleUserSignInCard env card
      | None => EmptyString
      end in
    if JsString.truthy (JsString.trim (responseText cl))
    then (Returned (JsString.trim (responseText cl) +:+ suffix), w)
    else
      match consentCard cl with
      | Some card =>
          match handleConsentCardResponse env fuel card (Some userId) w with
          | (Returned _, w') => (Returned (msgConsentSent +:+ suffix), w')
          | (Thrown e, w') => (Thrown e, w')
          | (Unfinished, w') => (Unfinished, w')
          end
      | None => (Returned (msgNoResponse +:+ suffix), w)
      end.
Proof.
  unfold resolveReply. cbv zeta. unfold bind, ret.
  destruct (JsString.truthy (JsString.trim (responseText (classify replies)))).
  - destruct (userSignInCard (classify replies)); [reflexivity|].
    by rewrite append_nil_r.
  - destruct (consentCard (classify replies)) as [card|].
    + destruct (handleConsentCardResponse env fuel card (Some userId) w)
        as [[[]|e|] w']; try reflexivity.
      destruct (userSignInCard (classify replies)); [reflexivity|].
      by rewrite append_nil_r.
    + destruct (userSignInCard (classify replies)); [reflexivity|].
      by rewrite append_nil_r.
Qed.

(** C3, as the code has it. The reply of a turn is, in this order: the
    space-separated concatenation of the texts of the message fragments with
    non-empty text, trimmed of white space at both ends, when that trimmed
    text is not empty; otherwise, when a consent-request fragment was
    captured, the fixed approval-sent text, after the consent card has been
    answered (the turn fails when that resend fails); otherwise the fixed
    no-response text. In each of the three cases a space and the text
    extracted from a captured sign-in card are appended. *)
Theorem resolveReply_priority (env : Env) (fuel : nat) (userId : string)
    (replies : list Activity) (w : World) :
  resolveReply env fuel userId replies w =
    if JsString.truthy (JsString.trim (joinedText replies))
    then (Returned (JsString.trim (joinedText replies) +:+ signInSuffix env replies), w)
    else
      match capturedConsentCard replies with
      | Some card =>
          match handleConsentCardResponse env fuel card (Some userId) w with
          | (Returned _, w') =>
              (Returned (msgConsentSent +:+ signInSuffix env replies), w')
          | (Thrown e, w') => (Thrown e, w')
          | (Unfinished, w') => (Unfinished, w')
          end
      | None => (Returned (msgNoResponse +:+ signInSuffix env replies), w)
      end.
Proof.
  rewrite resolveReply_stages. cbv zeta. rewrite classify_spec.
  cbn [responseText consentCard userSignInCard].
  rewrite trim_spaced. reflexivity.
Qed.

(** C3 as stated fails on a turn whose only fragment is a message with the
    text [" "]: the space-separated concatenation of the texts is not
    empty, and the reply is the no-response text, not that concatenation. *)
Lemma resolveReply_blank_text_counterexample :
  joinedText [Fixtures.blank] = " "
  /\ joinedText [Fixtures.blank] <> EmptyString
  /\ resolveReply Fixtures.env 2 Fixtures.user [Fixtures.blank] (constructor true)
     = (Returned msgNoResponse, constructor true)
  /\ msgNoResponse <> joinedText [Fixtures.blank].
Proof.
  split; [reflexivity|]. split; [discriminate|]. split; [reflexivity|].
  vm_compute. discriminate.
Qed.

(** ** Properties of the consent sub-protocol *)

Lemma askQuestion_spec (env : Env) (c : Connection) (text : string) (w : World) :
  askQuestion env c text w =
    let q := mkQuestion (client c) text (conversationId c) in
    match askQuestionAsync env (length (questions w)) (client c) text (conversationId c) with
    | AskRejects e => (Thrown e, logQuestion q w)
    | AskResolves replies => (Returned replies, logQuestion q w)
    end.
Proof.
  unfold askQuestion, bind, gets, modify, throw, ret. cbv zeta.
  destruct (askQuestionAsync env _ _ _ _); reflexivity.
Qed.

(** The recursive call, which passes no user id: with nothing stored under
    [undefined] it finds no connection and returns, and the world is as it
    was. *)
Lemma handleConsentCardResponse_undefined (env : Env) (fuel : nat)
    (activity : Activity) (w : World) :
  noUndefinedKey w ->
  handleConsentCardResponse env (S fuel) activity None w = (Returned tt, w).
Proof.
  intros H. cbn [handleConsentCardResponse]. unfold bind, gets.
  unfold noUndefinedKey in H. rewrite H. reflexivity.
Qed.

(** The loop over the replies to the resend. *)
Lemma forEach_nested_consent (env : Env) (fuel : nat) (responses : list Activity)
    (w : World) :
  noUndefinedKey w ->
  forEach
    (fun activity' =>
       if isConsentCard activity'
       then detached (handleConsentCardResponse env (S fuel) activity' None)
       else ret tt)
    responses w = (Returned tt, w).
Proof.
  intros H. induction responses as [|a rest IH]; [reflexivity|].
  cbn [forEach]. unfold bind at 1.
  destruct (isConsentCard a).
  - unfold detached. rewrite (handleConsentCardResponse_undefined env fuel a w H).
    exact IH.
  - unfold ret at 1. exact IH.
Qed.

(** One run of the sub-protocol for a user: no connection, nothing sent;
    a connection, one approval sent, and the run fails only when that send
    fails. *)
Lemma handleConsentCardResponse_spec (env : Env) (fuel : nat) (activity : Activity)
    (k : UserKey) (w : World) :
  noUndefinedKey w ->
  handleConsentCardResponse env (S (S fuel)) activity k w =
    match activeConnections w !! k with
    | None => (Returned tt, w)
    | Some c =>
        let q := mkQuestion (client c) consentPayloadText (conversationId c) in
        match askQuestionAsync env (length (questions w)) (client c)
                consentPayloadText (conversationId c) with
        | AskRejects e => (Thrown e, logQuestion q w)
        | AskResolves _ => (Returned tt, logQuestion q w)
        end
    end.
Proof.
  intros H.
  change (handleConsentCardResponse env (S (S fuel)) activity k w) with
    ((connection <- gets (fun w => activeConnections w !! k) ;;
      match connection with
      | None => ret tt
      | Some c =>
          responses <- askQuestion env c consentPayloadText ;;
          forEach
            (fun activity' =>
               if isConsentCard activity'
               then detached (handleConsentCardResponse env (S fuel) activity' None)
               else ret tt)
            responses
      end) w).
  unfold bind at 1. unfold gets.
  destruct (activeConnections w !! k) as [c|]; [|reflexivity].
  unfold bind. rewrite askQuestion_spec. cbv zeta.
  destruct (askQuestionAsync env _ _ _ _) as [e|responses]; [reflexivity|].
  apply forEach_nested_consent. exact H.
Qed.

(** C5, as the code has it. When the agent answers every consent approval
    with another consent request, and nothing is stored under the key
    [undefined], a run of the consent sub-protocol for a user with a
    connection sends one approval and returns normally, for every bound on
    the depth of at least two: neither an error nor an unbounded recursion. *)
Theorem consent_loop_returns_normally (env : Env) (fuel : nat) (activity : Activity)
    (userId : string) (c : Connection) (w : World) :
  (forall n cl cid, exists replies,
      askQuestionAsync env n cl consentPayloadText cid = AskResolves replies
      /\ existsb isConsentCard replies = true) ->
  noUndefinedKey w ->
  activeConnections w !! Some userId = Some c ->
  handleConsentCardResponse env (S (S fuel)) activity (Some userId) w
  = (Returned tt,
     logQuestion (mkQuestion (client c) consentPayloadText (conversationId c)) w).
Proof.
  intros Hloop Hw Hc.
  rewrite (handleConsentCardResponse_spec env fuel activity (Some userId) w Hw), Hc.
  cbv zeta.
  destruct (Hloop (length (questions w)) (client c) (conversationId c))
    as (replies & -> & _).
  reflexivity.
Qed.

Lemma consent_loop_returns_normally_witness :
  (forall n cl cid, exists replies,
      askQuestionAsync Fixtures.env n cl consentPayloadText cid = AskResolves replies
      /\ existsb isConsentCard replies = true)
  /\ handleConsentCardResponse Fixtures.env 5 Fixtures.consentActivity
       (Some Fixtures.user) Fixtures.withSession
     = (Returned tt,
        logQuestion
          (mkQuestion (client Fixtures.session) consentPayloadText
             (conversationId Fixtures.session))
          Fixtures.withSession).
Proof.
  assert (Hloop : forall n cl cid, exists replies,
      askQuestionAsync Fixtures.env n cl consentPayloadText cid = AskResolves replies
      /\ existsb isConsentCard replies = true).
  { intros n cl cid. exists [Fixtures.consentActivity]. split; reflexivity. }
  split; [exact Hloop|].
  apply (consent_loop_returns_normally Fixtures.env 3 Fixtures.consentActivity
           Fixtures.user Fixtures.session Fixtures.withSession Hloop).
  - vm_compute. reflexivity.
  - vm_compute. reflexivity.
Defined.

(** C5 as stated fails in the sample environment, where the agent answers
    every consent approval with another consent request: the sub-protocol
    returns normally after one approval, and so does the whole turn; no
    error is raised. *)
Lemma consent_loop_no_error_counterexample :
  (forall n cl cid,
      askQuestionAsync Fixtures.env n cl consentPayloadText cid
      = AskResolves [Fixtures.consentActivity])
  /\ isConsentCard Fixtures.consentActivity = true
  /\ fst (handleConsentCardResponse Fixtures.env 100 Fixtures.consentActivity
            (Some Fixtures.user) Fixtures.withSession) = Returned tt
  /\ (forall e, fst (handleConsentCardResponse Fixtures.env 100 Fixtures.consentActivity
                       (Some Fixtures.user) Fixtures.withSession) <> Thrown e)
  /\ fst (sendMessage Fixtures.env 100 Fixtures.user "consent" None 1761000000000
            Fixtures.withSession) = Returned EmptyString.
Proof.
  split; [reflexivity|]. split; [reflexivity|].
  assert (H : fst (handleConsentCardResponse Fixtures.env 100 Fixtures.consentActivity
            (Some Fixtures.user) Fixtures.withSession) = Returned tt)
    by (vm_compute; reflexivity).
  split; [exact H|]. split.
  - intros e. rewrite H. discriminate.
  - vm_compute. reflexivity.
Qed.

(** ** Frame properties of the operations of a turn *)

Lemma onlyAsks_refl (w : World) : onlyAsks w w.
Proof.
  unfold onlyAsks. repeat split; try reflexivity; by exists [].
Qed.

Lemma onlyAsks_trans (w1 w2 w3 : World) :
  onlyAsks w1 w2 -> onlyAsks w2 w3 -> onlyAsks w1 w3.
Proof.
  unfold onlyAsks.
  intros (A1 & A2 & A3 & A4 & A5 & A6 & A7 & (qs & A8) & (cs & A9))
         (B1 & B2 & B3 & B4 & B5 & B6 & B7 & (qs' & B8) & (cs' & B9)).
  repeat split; try congruence.
  - exists (qs' ++ qs). rewrite B8, A8. by rewrite app_assoc.
  - exists (cs' ++ cs). rewrite B9, A9. by rewrite app_assoc.
Qed.

Lemma onlyAsks_logQuestion (q : Question) (w : World) : onlyAsks w (logQuestion q w).
Proof.
  unfold onlyAsks. simpl. repeat split; try reflexivity.
  - by exists [q].
  - by exists [].
Qed.

Lemma onlyAsks_logSlackCall (c : SlackCall) (w : World) : onlyAsks w (logSlackCall c w).
Proof.
  unfold onlyAsks. simpl. repeat split; try reflexivity.
  - by exists [].
  - by exists [c].
Qed.

(** [postThinkingMessage] returns, and returns a message only when there is
    a chat client. *)
Lemma postThinkingMessage_spec (env : Env) (u : string) (w : World) :
  exists tm w0,
    postThinkingMessage env u w = (Returned tm, w0)
    /\ onlyAsks w w0
    /\ questions w0 = questions w
    /\ (tm <> None -> slackClient w = true).
Proof.
  unfold postThinkingMessage, bind, gets, modify, ret.
  destruct (slackClient w) eqn:Hc; cbn [negb].
  - destruct (chat_postMessage env _ _ _) as [e|r]; eexists _, _;
      (split; [reflexivity|]); (split; [apply onlyAsks_logSlackCall|]);
      (split; [reflexivity|]); intros _; reflexivity.
  - eexists _, _. split; [reflexivity|]. split; [apply onlyAsks_refl|].
    split; [reflexivity|]. intros H. by destruct H.
Qed.

(** [updateThinkingMessage] returns; with a chat client, the update it
    requested is on record. *)
Lemma updateThinkingMessage_spec (env : Env) (channel ts text : string) (w : World) :
  exists w1,
    updateThinkingMessage env channel ts text w = (Returned tt, w1)
    /\ onlyAsks w w1
    /\ questions w1 = questions w
    /\ (slackClient w = true -> In (ChatUpdate channel ts text) (slackCalls w1)).
Proof.
  unfold updateThinkingMessage, bind, gets, modify, ret.
  destruct (slackClient w) eqn:Hc; cbn [negb].
  - destruct (chat_update env _ _ _ _) as [e|[]].
    + destruct (chat_postMessage env _ _ _) as [e'|r]; eexists;
        (split; [reflexivity|]);
        (split; [eapply onlyAsks_trans; apply onlyAsks_logSlackCall|]);
        (split; [reflexivity|]); intros _; simpl; auto.
    + eexists. split; [reflexivity|]. split; [apply onlyAsks_logSlackCall|].
      split; [reflexivity|]. intros _. simpl. auto.
  - eexists. split; [reflexivity|]. split; [apply onlyAsks_refl|].
    split; [reflexivity|]. discriminate.
Qed.

Lemma updateIfThinking_spec (env : Env) (tm : option PostResult) (text : string)
    (w : World) :
  exists w1,
    updateIfThinking env tm text w = (Returned tt, w1)
    /\ onlyAsks w w1
    /\ questions w1 = questions w
    /\ (forall r, tm = Some r -> hasThinkingMessage tm = true -> slackClient w = true ->
        In (ChatUpdate (post_channel r) (post_ts r) text) (slackCalls w1)).
Proof.
  unfold updateIfThinking.
  destruct tm as [r|].
  - destruct (hasThinkingMessage (Some r)) eqn:Hh.
    + destruct (updateThinkingMessage_spec env (post_channel r) (post_ts r) text w)
        as (w1 & E & F & Q & I).
      exists w1. split; [exact E|]. split; [exact F|]. split; [exact Q|].
      intros r' [= <-] _ Hc. exact (I Hc).
    + exists w. split; [reflexivity|]. split; [apply onlyAsks_refl|].
      split; [reflexivity|]. discriminate.
  - exists w. split; [reflexivity|]. split; [apply onlyAsks_refl|].
    split; [reflexivity|]. discriminate.
Qed.

Lemma askQuestion_onlyAsks (env : Env) (c : Connection) (text : string) (w : World) :
  onlyAsks w (snd (askQuestion env c text w))
  /\ questions (snd (askQuestion env c text w))
     = mkQuestion (client c) text (conversationId c) :: questions w
  /\ fst (askQuestion env c text w) <> Unfinished.
Proof.
  rewrite askQuestion_spec. cbv zeta.
  destruct (askQuestionAsync env _ _ _ _); simpl;
    (split; [apply onlyAsks_logQuestion|]); split; [reflexivity | discriminate | reflexivity | discriminate].
Qed.

(** The consent sub-protocol, whatever the registry holds and whatever the
    bound: it only asks questions. *)
Lemma handleConsentCardResponse_onlyAsks (env : Env) (fuel : nat) :
  forall (activity : Activity) (k : UserKey) (w : World),
    onlyAsks w (snd (handleConsentCardResponse env fuel activity k w)).
Proof.
  induction fuel as [|fuel IH]; intros activity k w.
  - simpl. apply onlyAsks_refl.
  - cbn [handleConsentCardResponse]. unfold bind at 1. unfold gets.
    destruct (activeConnections w !! k) as [c|]; [|apply onlyAsks_refl].
    unfold bind at 1.
    destruct (askQuestion_onlyAsks env c consentPayloadText w) as (Hask & _ & _).
    destruct (askQuestion env c consentPayloadText w) as [[responses|e|] w1];
      simpl in Hask; simpl; try exact Hask.
    eapply onlyAsks_trans; [exact Hask|]. clear Hask.
    revert w1. induction responses as [|a rest IHr]; intros w1.
    + apply onlyAsks_refl.
    + cbn [forEach]. unfold bind at 1.
      destruct (isConsentCard a).
      * unfold detached.
        pose proof (IH a None w1) as Hn.
        destruct (handleConsentCardResponse env fuel a None w1) as [[[]|e|] w2];
          simpl in Hn; simpl; try exact Hn;
          (eapply onlyAsks_trans; [exact Hn | apply IHr]).
      * unfold ret at 1. apply IHr.
Qed.

Lemma resolveReply_onlyAsks (env : Env) (fuel : nat) (u : string)
    (replies : list Activity) (w : World) :
  onlyAsks w (snd (resolveReply env fuel u replies w)).
Proof.
  rewrite resolveReply_stages. cbv zeta.
  destruct (JsString.truthy _); [apply onlyAsks_refl|].
  destruct (consentCard (classify replies)) as [card|]; [|apply onlyAsks_refl].
  pose proof (handleConsentCardResponse_onlyAsks env fuel card (Some u) w) as H.
  destruct (handleConsentCardResponse env fuel card (Some u) w) as [[[]|e|] w1];
    exact H.
Qed.

(** ** Properties of the creation of connections *)

Lemma getServiceToken_effect (env : Env) (now : Z) (w : World) :
  match getServiceToken env now w with
  | (Returned t, w') =>
      activeConnections w' = activeConnections w
      /\ userTokens w' = userTokens w
      /\ slackClient w' = slackClient w
      /\ registryOps w' = registryOps w
      /\ startedConversations w' = startedConversations w
      /\ questions w' = questions w
      /\ slackCalls w' = slackCalls w
      /\ cacheEffect env now w w'
  | (Thrown e, w') =>
      activeConnections w' = activeConnections w
      /\ userTokens w' = userTokens w
      /\ slackClient w' = slackClient w
      /\ registryOps w' = registryOps w
      /\ startedConversations w' = startedConversations w
      /\ questions w' = questions w
      /\ slackCalls w' = slackCalls w
      /\ cacheEffect env now w w'
      /\ errorOrigin env e
  | (Unfinished, _) => False
  end.
Proof.
  destruct (JsString.truthyOpt (cache_token (serviceTokenCache w))
            && (now <? cache_expiresAt (serviceTokenCache w) - 300000)) eqn:Hhit.
  - unfold getServiceToken, tryCatch, bind, gets. cbv beta iota. rewrite Hhit.
    unfold ret. repeat (split; [reflexivity|]). left. by split.
  - rewrite (getServiceToken_miss env now w Hhit). cbv zeta.
    destruct (acquireTokenByClientCredential env _ _) as [e| |t x] eqn:Hp;
      repeat (split; [reflexivity|]).
    + split.
      * right. split; [reflexivity|]. by left.
      * left. eauto.
    + split.
      * right. split; [reflexivity|]. by left.
      * right. left. eauto.
    + right. split; [reflexivity|]. right. eauto.
Qed.

Lemma createUserConnection_spec (env : Env) (u : string) (tok : option string)
    (now : Z) (w : World) :
  createUserConnection env u tok now w =
    match (if JsString.truthyOpt tok
           then (Returned (default EmptyString tok), w)
           else getServiceToken env now w) with
    | (Returned t, w1) =>
        match startConversationAsync env (length (startedConversations w1))
                (mkClient t) with
        | StartRejects e => (Thrown e, logStartedConversation (mkClient t) w1)
        | StartResolves a =>
            let connection := mkConnection (mkClient t) (conversation a) a now u in
            (Returned connection,
             logRegistryOp (RegSet (Some u) connection)
               (setConnections (insert (Some u) connection)
                  (logStartedConversation (mkClient t) w1)))
        end
    | (Thrown e, w1) => (Thrown e, w1)
    | (Unfinished, w1) => (Unfinished, w1)
    end.
Proof.
  unfold createUserConnection, createAgentsConnection, connectionsSet,
    tryCatch, bind, gets, modify, throw, ret.
  destruct (JsString.truthyOpt tok).
  - destruct (startConversationAsync env _ _); reflexivity.
  - destruct (getServiceToken env now w) as [[t|e|] w1]; try reflexivity.
    destruct (startConversationAsync env _ _); reflexivity.
Qed.

(** What [createUserConnection] does to the world: on success it stores
    the new connection under the user id with one [set], over whatever was
    there; on failure the registry is as it was. The token store, the
    questions and the chat requests are never touched. *)
Lemma createUserConnection_effect (env : Env) (u : string) (tok : option string)
    (now : Z) (w : World) :
  match createUserConnection env u tok now w with
  | (Returned c, w') =>
      activeConnections w' = <[Some u := c]> (activeConnections w)
      /\ registryOps w' = RegSet (Some u) c :: registryOps w
      /\ startedConversations w' = client c :: startedConversations w
      /\ userTokens w' = userTokens w
      /\ slackClient w' = slackClient w
      /\ questions w' = questions w
      /\ slackCalls w' = slackCalls w
      /\ cacheEffect env now w w'
  | (Thrown e, w') =>
      activeConnections w' = activeConnections w
      /\ registryOps w' = registryOps w
      /\ userTokens w' = userTokens w
      /\ slackClient w' = slackClient w
      /\ questions w' = questions w
      /\ slackCalls w' = slackCalls w
      /\ cacheEffect env now w w'
      /\ errorOrigin env e
  | (Unfinished, _) => False
  end.
Proof.
  rewrite createUserConnection_spec.
  destruct (JsString.truthyOpt tok).
  - destruct (startConversationAsync env _ _) as [e|a] eqn:Hs; cbv zeta; simpl.
    + repeat (split; [reflexivity|]). split; [left; by split|].
      right. right. left. eauto.
    + repeat (split; [reflexivity|]). left; by split.
  - pose proof (getServiceToken_effect env now w) as H.
    destruct (getServiceToken env now w) as [[t|e|] w1].
    + destruct H as (H1 & H2 & H3 & H4 & H5 & H6 & H7 & H8).
      destruct (startConversationAsync env _ _) as [e|a] eqn:Hs; cbv zeta; simpl.
      * repeat (split; [assumption|]).
        right. right. left. eauto.
      * rewrite H1, H4, H5. repeat (split; [first [reflexivity|assumption]|]).
        assumption.
    + destruct H as (H1 & H2 & H3 & H4 & H5 & H6 & H7 & H8 & H9).
      repeat (split; [assumption|]). assumption.
    + exact H.
Qed.

Lemma NoDup_getStats_keys (w : World) :
  NoDup (map (fun s => s.1.1) (snd (getStats w))).
Proof.
  unfold getStats. cbn [snd]. rewrite map_map.
  rewrite (map_ext _ fst).
  - apply NoDup_fst_map_to_list.
  - intros [k c]. reflexivity.
Qed.

(** C6, as the code has it. The registry is a map, so at every instant it
    holds at most one session per user id: the sessions that [getStats]
    lists have distinct user ids. [newConversation] first deletes the entry
    of the user and then creates and stores the new session.
    [createUserConnection] itself does not invalidate anything: a success
    is one [set] that overwrites the entry of the user, a failure leaves the
    registry as it was. *)
Theorem registry_one_session_and_overwrite (env : Env) (u : string)
    (tok : option string) (now : Z) (w : World) :
  NoDup (map (fun s => s.1.1) (snd (getStats w)))
  /\ match newConversation env u now w with
     | (Returned c, w') =>
         registryOps w' = RegSet (Some u) c :: RegDelete (Some u) :: registryOps w
         /\ activeConnections w' = <[Some u := c]> (delete (Some u) (activeConnections w))
     | (_, w') =>
         registryOps w' = RegDelete (Some u) :: registryOps w
         /\ activeConnections w' = delete (Some u) (activeConnections w)
     end
  /\ match createUserConnection env u tok now w with
     | (Returned c, w') =>
         registryOps w' = RegSet (Some u) c :: registryOps w
         /\ activeConnections w' = <[Some u := c]> (activeConnections w)
     | (_, w') =>
         registryOps w' = registryOps w
         /\ activeConnections w' = activeConnections w
     end.
Proof.
  split; [apply NoDup_getStats_keys|]. split.
  - unfold newConversation, connectionsDelete. unfold bind at 1.
    set (w1 := logRegistryOp (RegDelete (Some u)) (setConnections (delete (Some u)) w)).
    unfold bind, ret.
    pose proof (createUserConnection_effect env u None now w1) as H.
    destruct (createUserConnection env u None now w1) as [[c|e|] w'].
    + destruct H as (H1 & H2 & _). by split.
    + destruct H as (H1 & H2 & _). by split.
    + destruct H.
  - pose proof (createUserConnection_effect env u tok now w) as H.
    destruct (createUserConnection env u tok now w) as [[c|e|] w'].
    + destruct H as (H1 & H2 & _). by split.
    + destruct H as (H1 & H2 & _). by split.
    + destruct H.
Qed.

(** C6 as stated fails for [createUserConnection] on a world that has a
    session for the user: the call succeeds, and the one registry write it
    makes is the [set] of the new session; no delete of the old session
    comes before it. [newConversation] on the same world does delete
    first. *)
Lemma createUserConnection_overwrite_counterexample :
  activeConnections Fixtures.withSession !! Some Fixtures.user = Some Fixtures.session
  /\ (exists c,
        fst (createUserConnection Fixtures.env Fixtures.user (Some "user-token")
               1761000000000 Fixtures.withSession) = Returned c
        /\ newRegistryOps Fixtures.withSession
             (snd (createUserConnection Fixtures.env Fixtures.user (Some "user-token")
                     1761000000000 Fixtures.withSession))
           = [RegSet (Some Fixtures.user) c])
  /\ deletesBeforeSet (Some Fixtures.user)
       (newRegistryOps Fixtures.withSession
          (snd (createUserConnection Fixtures.env Fixtures.user (Some "user-token")
                  1761000000000 Fixtures.withSession))) = false
  /\ deletesBeforeSet (Some Fixtures.user)
       (newRegistryOps Fixtures.withSession
          (snd (newConversation Fixtures.env Fixtures.user 1761000000000
                  Fixtures.withSession))) = true.
Proof.
  split; [vm_compute; reflexivity|]. split.
  - eexists. split; vm_compute; reflexivity.
  - split; vm_compute; reflexivity.
Qed.

(** ** Properties of a chat turn *)

(** The stages of [sendMessage]. *)
Lemma sendMessage_unfold (env : Env) (fuel : nat) (u text : string)
    (tok : option string) (now : Z) (w : World) :
  sendMessage env fuel u text tok now w =
    match postThinkingMessage env u w with
    | (Returned tm, w0) =>
        match resolveConnection env u tok now w0 with
        | (Returned conn, w1) =>
            match askQuestion env conn text w1 with
            | (Returned replies, w2) =>
                match resolveReply env fuel u replies w2 with
                | (Returned reply, w3) =>
                    match updateIfThinking env tm reply w3 with
                    | (Returned _, w4) =>
                        (Returned EmptyString, snd (touchConnection u now w4))
                    | (Thrown e, w4) => turnFailed env tm e w4
                    | (Unfinished, w4) => (Unfinished, w4)
                    end
                | (Thrown e, w3) => turnFailed env tm e w3
                | (Unfinished, w3) => (Unfinished, w3)
                end
            | (Thrown e, w2) => turnFailed env tm e w2
            | (Unfinished, w2) => (Unfinished, w2)
            end
        | (Thrown e, w1) => turnFailed env tm e w1
        | (Unfinished, w1) => (Unfinished, w1)
        end
    | (Thrown e, w0) => (Thrown e, w0)
    | (Unfinished, w0) => (Unfinished, w0)
    end.
Proof.
  unfold sendMessage, resolveConnection, turnFailed.
  cbv [bind tryCatch gets ret throw].
  destruct (postThinkingMessage env u w) as [[tm|e|] w0]; try reflexivity.
  destruct (activeConnections w0 !! Some u) as [c|].
  - destruct (askQuestion env c text w0) as [[replies|e|] w2]; try reflexivity.
    destruct (resolveReply env fuel u replies w2) as [[reply|e|] w3]; try reflexivity.
    destruct (updateIfThinking env tm reply w3) as [[[]|e|] w4]; reflexivity.
  - destruct (createUserConnection env u tok now w0) as [[c|e|] w1]; try reflexivity.
    destruct (askQuestion env c text w1) as [[replies|e|] w2]; try reflexivity.
    destruct (resolveReply env fuel u replies w2) as [[reply|e|] w3]; try reflexivity.
    destruct (updateIfThinking env tm reply w3) as [[[]|e|] w4]; reflexivity.
Qed.

Lemma turnFailed_spec (env : Env) (tm : option PostResult) (e : Js.Error) (w : World) :
  exists w',
    turnFailed env tm e w = (Thrown e, w')
    /\ onlyAsks w w'
    /\ questions w' = questions w.
Proof.
  unfold turnFailed, bind, throw.
  destruct (updateIfThinking_spec env tm msgTurnError w) as (w1 & E & F & Q & _).
  rewrite E. exists w1. split; [reflexivity|]. split; [exact F | exact Q].
Qed.

Lemma resolveConnection_effect (env : Env) (u : string) (tok : option string)
    (now : Z) (w : World) :
  match resolveConnection env u tok now w with
  | (Returned c, w') =>
      (activeConnections w !! Some u = Some c /\ w' = w)
      \/ (activeConnections w !! Some u = None
          /\ createUserConnection env u tok now w = (Returned c, w'))
  | (Thrown e, w') =>
      activeConnections w !! Some u = None
      /\ createUserConnection env u tok now w = (Thrown e, w')
  | (Unfinished, _) => False
  end.
Proof.
  unfold resolveConnection, bind, gets.
  destruct (activeConnections w !! Some u) as [c|] eqn:Hc.
  - left. by split.
  - pose proof (createUserConnection_effect env u tok now w) as H.
    destruct (createUserConnection env u tok now w) as [[c|e|] w'].
    + right. by split.
    + by split.
    + exact H.
Qed.

(** The loop over the replies to a consent approval never throws: the
    calls it makes are not awaited. *)
Lemma forEach_detached_not_thrown {A} (m : Activity -> M A) (responses : list Activity)
    (w : World) (e : Js.Error) :
  fst (forEach
         (fun activity' => if isConsentCard activity' then detached (m activity') else ret tt)
         responses w) <> Thrown e.
Proof.
  revert w. induction responses as [|a rest IH]; intros w; [discriminate|].
  cbn [forEach]. unfold bind at 1.
  destruct (isConsentCard a).
  - unfold detached. destruct (m a w) as [[x|e'|] w1]; simpl;
      [apply IH | apply IH | discriminate].
  - unfold ret at 1. apply IH.
Qed.

(** The consent sub-protocol throws only what the agent client rejected the
    approval with. *)
Lemma handleConsentCardResponse_thrown (env : Env) (fuel : nat) (activity : Activity)
    (k : UserKey) (w w' : World) (e : Js.Error) :
  handleConsentCardResponse env fuel activity k w = (Thrown e, w') ->
  exists n c text cid, askQuestionAsync env n c text cid = AskRejects e.
Proof.
  destruct fuel as [|fuel]; [discriminate|].
  cbn [handleConsentCardResponse]. unfold bind at 1. unfold gets.
  destruct (activeConnections w !! k) as [c|]; [|discriminate].
  unfold bind at 1. rewrite askQuestion_spec. cbv zeta.
  destruct (askQuestionAsync env _ _ _ _) as [e'|responses] eqn:Hask.
  - intros [= -> _]. eauto.
  - intros H. exfalso.
    eapply (forEach_detached_not_thrown
              (fun a => handleConsentCardResponse env fuel a None)).
    rewrite H. reflexivity.
Qed.

Lemma resolveReply_thrown (env : Env) (fuel : nat) (u : string)
    (replies : list Activity) (w w' : World) (e : Js.Error) :
  resolveReply env fuel u replies w = (Thrown e, w') ->
  exists n c text cid, askQuestionAsync env n c text cid = AskRejects e.
Proof.
  rewrite resolveReply_stages. cbv zeta.
  destruct (JsString.truthy _); [discriminate|].
  destruct (consentCard (classify replies)) as [card|]; [|discriminate].
  destruct (handleConsentCardResponse env fuel card (Some u) w) as [[[]|e'|] w1] eqn:H;
    try discriminate.
  intros [= -> _]. eapply handleConsentCardResponse_thrown. exact H.
Qed.

(** A turn for a user who has a session creates nothing: it starts no
    conversation, asks the provider nothing, writes nothing to the registry,
    and its first question goes to the conversation of that session. *)
Lemma sendMessage_existing_session (env : Env) (fuel : nat) (u text : string)
    (tok : option string) (now : Z) (w : World) (c : Connection) :
  activeConnections w !! Some u = Some c ->
  startedConversations (snd (sendMessage env fuel u text tok now w))
    = startedConversations w
  /\ providerRequests (snd (sendMessage env fuel u text tok now w))
     = providerRequests w
  /\ registryOps (snd (sendMessage env fuel u text tok now w)) = registryOps w
  /\ exists more,
       questions (snd (sendMessage env fuel u text tok now w))
       = more ++ mkQuestion (client c) text (conversationId c) :: questions w.
Proof.
  intros Hc. rewrite sendMessage_unfold.
  destruct (postThinkingMessage_spec env u w) as (tm & w0 & -> & F0 & Q0 & _).
  assert (Hc0 : activeConnections w0 !! Some u = Some c).
  { destruct F0 as (-> & _). exact Hc. }
  pose proof (resolveConnection_effect env u tok now w0) as HR.
  destruct (resolveConnection env u tok now w0) as [[conn|e|] w1].
  2:{ destruct HR as [HR _]. congruence. }
  2:{ destruct HR. }
  destruct HR as [[HR ->]|[HR _]]; [|congruence].
  assert (conn = c) as -> by congruence.
  destruct (askQuestion_onlyAsks env c text w0) as (F2 & Q2 & _).
  assert (Hfinal : forall w',
    onlyAsks (snd (askQuestion env c text w0)) w' ->
    startedConversations w' = startedConversations w
    /\ providerRequests w' = providerRequests w
    /\ registryOps w' = registryOps w
    /\ exists more, questions w'
         = more ++ mkQuestion (client c) text (conversationId c) :: questions w).
  { intros w' F.
    pose proof (onlyAsks_trans _ _ _ F0 (onlyAsks_trans _ _ _ F2 F)) as
      (_ & _ & _ & _ & A5 & A6 & A7 & _ & _).
    repeat (split; [assumption|]).
    destruct F as (_ & _ & _ & _ & _ & _ & _ & (qs & Hq) & _).
    exists qs. rewrite Hq, Q2, Q0. reflexivity. }
  destruct (askQuestion env c text w0) as [[replies|e|] w2]; cbn [snd] in *.
  - pose proof (resolveReply_onlyAsks env fuel u replies w2) as F3.
    destruct (resolveReply env fuel u replies w2) as [[reply|e|] w3]; cbn [snd] in F3.
    + destruct (updateIfThinking_spec env tm reply w3) as (w4 & -> & F4 & _).
      cbn [snd]. unfold touchConnection, modify. cbn [snd].
      exact (Hfinal w4 (onlyAsks_trans _ _ _ F3 F4)).
    + destruct (turnFailed_spec env tm e w3) as (w4 & -> & F4 & _).
      apply Hfinal. eapply onlyAsks_trans; eassumption.
    + apply Hfinal. exact F3.
  - destruct (turnFailed_spec env tm e w2) as (w4 & -> & F4 & _).
    apply Hfinal. exact F4.
  - apply Hfinal. apply onlyAsks_refl.
Qed.

(** What a turn that got its connection has changed before the question is
    asked: no question yet, the chat client as it was. *)
Lemma resolveConnection_keeps (env : Env) (u : string) (tok : option string)
    (now : Z) (w : World) :
  questions (snd (resolveConnection env u tok now w)) = questions w
  /\ slackClient (snd (resolveConnection env u tok now w)) = slackClient w
  /\ userTokens (snd (resolveConnection env u tok now w)) = userTokens w
  /\ fst (resolveConnection env u tok now w) <> Unfinished.
Proof.
  pose proof (resolveConnection_effect env u tok now w) as HR.
  destruct (resolveConnection env u tok now w) as [[c|e|] w1]; cbn [fst snd].
  - destruct HR as [[_ ->]|[_ HC]]; [by repeat split|].
    pose proof (createUserConnection_effect env u tok now w) as HE.
    rewrite HC in HE. destruct HE as (_ & _ & _ & H4 & H5 & H6 & _).
    by repeat split.
  - destruct HR as [_ HC].
    pose proof (createUserConnection_effect env u tok now w) as HE.
    rewrite HC in HE. destruct HE as (_ & _ & H3 & H4 & H5 & _).
    by repeat split.
  - destruct HR.
Qed.

(** ** Requests to the chat client do not matter to the rest of a turn *)

Lemma withSlackCalls_id (w : World) : withSlackCalls (slackCalls w) w = w.
Proof. destruct w; reflexivity. Qed.

(** Two worlds that differ by questions-free requests to the chat client. *)
Lemma onlyAsks_withSlackCalls (w w0 : World) :
  onlyAsks w w0 -> questions w0 = questions w ->
  w0 = withSlackCalls (slackCalls w0) w.
Proof.
  intros (H1 & H2 & H3 & H4 & H5 & H6 & H7 & _ & _) Q.
  destruct w, w0; cbn in *. subst. reflexivity.
Qed.

Lemma getServiceToken_withSlackCalls (env : Env) (now : Z) (cs : list SlackCall)
    (w : World) :
  getServiceToken env now (withSlackCalls cs w)
  = (fst (getServiceToken env now w),
     withSlackCalls cs (snd (getServiceToken env now w))).
Proof.
  destruct (JsString.truthyOpt (cache_token (serviceTokenCache w))
            && (now <? cache_expiresAt (serviceTokenCache w) - 300000)) eqn:Hhit.
  - unfold getServiceToken, tryCatch, bind, gets, ret. cbv beta iota.
    cbn [serviceTokenCache withSlackCalls]. rewrite Hhit. reflexivity.
  - rewrite (getServiceToken_miss env now w Hhit).
    rewrite (getServiceToken_miss env now (withSlackCalls cs w) Hhit).
    cbv zeta. cbn [providerRequests withSlackCalls].
    destruct (acquireTokenByClientCredential env (length (providerRequests w))
                (oauth_scope env)); reflexivity.
Qed.

Lemma turnCredential_withSlackCalls (env : Env) (tok : option string) (now : Z)
    (cs : list SlackCall) (w : World) :
  turnCredential env tok now (withSlackCalls cs w)
  = (fst (turnCredential env tok now w),
     withSlackCalls cs (snd (turnCredential env tok now w))).
Proof.
  unfold turnCredential. destruct (JsString.truthyOpt tok);
    [reflexivity | apply getServiceToken_withSlackCalls].
Qed.

(** [createUserConnection] through the credential of the turn. *)
Lemma createUserConnection_credential (env : Env) (u : string) (tok : option string)
    (now : Z) (w : World) :
  createUserConnection env u tok now w =
    match turnCredential env tok now w with
    | (Returned t, w1) =>
        match startConversationAsync env (length (startedConversations w1))
                (mkClient t) with
        | StartRejects e => (Thrown e, logStartedConversation (mkClient t) w1)
        | StartResolves a =>
            let connection := mkConnection (mkClient t) (conversation a) a now u in
            (Returned connection,
             logRegistryOp (RegSet (Some u) connection)
               (setConnections (insert (Some u) connection)
                  (logStartedConversation (mkClient t) w1)))
        end
    | (Thrown e, w1) => (Thrown e, w1)
    | (Unfinished, w1) => (Unfinished, w1)
    end.
Proof.
  rewrite createUserConnection_spec. unfold turnCredential.
  destruct (JsString.truthyOpt tok); reflexivity.
Qed.

Lemma createUserConnection_withSlackCalls (env : Env) (u : string)
    (tok : option string) (now : Z) (cs : list SlackCall) (w : World) :
  createUserConnection env u tok now (withSlackCalls cs w)
  = (fst (createUserConnection env u tok now w),
     withSlackCalls cs (snd (createUserConnection env u tok now w))).
Proof.
  rewrite !createUserConnection_credential, turnCredential_withSlackCalls.
  destruct (turnCredential env tok now w) as [[t|e|] w1]; cbn [fst snd];
    try reflexivity.
  cbn [startedConversations withSlackCalls].
  destruct (startConversationAsync env (length (startedConversations w1)) (mkClient t));
    reflexivity.
Qed.

Lemma resolveConnection_withSlackCalls (env : Env) (u : string)
    (tok : option string) (now : Z) (cs : list SlackCall) (w : World) :
  resolveConnection env u tok now (withSlackCalls cs w)
  = (fst (resolveConnection env u tok now w),
     withSlackCalls cs (snd (resolveConnection env u tok now w))).
Proof.
  unfold resolveConnection, bind, gets. cbn [activeConnections withSlackCalls].
  destruct (activeConnections w !! Some u) as [c|]; [reflexivity|].
  apply createUserConnection_withSlackCalls.
Qed.

Lemma askQuestion_withSlackCalls (env : Env) (c : Connection) (text : string)
    (cs : list SlackCall) (w : World) :
  askQuestion env c text (withSlackCalls cs w)
  = (fst (askQuestion env c text w), withSlackCalls cs (snd (askQuestion env c text w))).
Proof.
  rewrite !askQuestion_spec. cbv zeta. cbn [questions withSlackCalls].
  destruct (askQuestionAsync env (length (questions w)) (client c) text
              (conversationId c)); reflexivity.
Qed.

Lemma handleConsentCardResponse_withSlackCalls (env : Env) (fuel : nat) :
  forall (activity : Activity) (k : UserKey) (cs : list SlackCall) (w : World),
    handleConsentCardResponse env fuel activity k (withSlackCalls cs w)
    = (fst (handleConsentCardResponse env fuel activity k w),
       withSlackCalls cs (snd (handleConsentCardResponse env fuel activity k w))).
Proof.
  induction fuel as [|fuel IH]; intros activity k cs w; [reflexivity|].
  cbn [handleConsentCardResponse]. unfold bind at 1 3 5. unfold gets.
  cbn [activeConnections withSlackCalls].
  destruct (activeConnections w !! k) as [c|]; [|reflexivity].
  unfold bind at 1 2 3. rewrite askQuestion_withSlackCalls.
  destruct (askQuestion env c consentPayloadText w) as [[responses|e|] w1];
    cbn [fst snd]; try reflexivity.
  revert w1. induction responses as [|a rest IHr]; intros w1; [reflexivity|].
  cbn [forEach]. unfold bind at 1 2 3.
  destruct (isConsentCard a).
  - unfold detached. rewrite IH.
    destruct (handleConsentCardResponse env fuel a None w1) as [[[]|e|] w2];
      cbn [fst snd]; try reflexivity; apply IHr.
  - unfold ret at 1 2 3. apply IHr.
Qed.

Lemma resolveReply_withSlackCalls (env : Env) (fuel : nat) (u : string)
    (replies : list Activity) (cs : list SlackCall) (w : World) :
  resolveReply env fuel u replies (withSlackCalls cs w)
  = (fst (resolveReply env fuel u replies w),
     withSlackCalls cs (snd (resolveReply env fuel u replies w))).
Proof.
  rewrite !resolveReply_stages. cbv zeta.
  destruct (JsString.truthy _); [reflexivity|].
  destruct (consentCard (classify replies)) as [card|]; [|reflexivity].
  rewrite handleConsentCardResponse_withSlackCalls.
  destruct (handleConsentCardResponse env fuel card (Some u) w) as [[[]|e|] w1];
    reflexivity.
Qed.

(** The reply of a turn is resolved without a request to the chat client. *)
Lemma resolveReply_slackCalls (env : Env) (fuel : nat) (u : string)
    (replies : list Activity) (w : World) :
  slackCalls (snd (resolveReply env fuel u replies w)) = slackCalls w.
Proof.
  pose proof (resolveReply_withSlackCalls env fuel u replies (slackCalls w) w) as H.
  rewrite withSlackCalls_id in H.
  destruct (resolveReply env fuel u replies w) as [r w1]. cbn [fst snd] in *.
  injection H as ->. reflexivity.
Qed.

(** The catch clause of [sendMessage] adds requests to the chat client and
    nothing else. *)
Lemma turnFailed_withSlackCalls (env : Env) (tm : option PostResult) (e : Js.Error)
    (w : World) :
  exists cs, turnFailed env tm e w = (Thrown e, withSlackCalls cs w).
Proof.
  destruct (turnFailed_spec env tm e w) as (w' & E & F & Q).
  exists (slackCalls w'). rewrite E. f_equal.
  exact (onlyAsks_withSlackCalls _ _ F Q).
Qed.

(** Where a turn fails: at the resolution of its connection, at the send
    of the question, or at the resolution of the reply. The world is then
    the one that this step left, but for the requests to the chat client. *)
Lemma sendMessage_thrown_at (env : Env) (fuel : nat) (u text : string)
    (tok : option string) (now : Z) (w : World) :
  match resolveConnection env u tok now w with
  | (Thrown e, w1) =>
      exists cs, sendMessage env fuel u text tok now w
                 = (Thrown e, withSlackCalls cs w1)
  | (Returned c, w1) =>
      match askQuestion env c text w1 with
      | (Thrown e, w2) =>
          exists cs, sendMessage env fuel u text tok now w
                     = (Thrown e, withSlackCalls cs w2)
      | (Returned replies, w2) =>
          match resolveReply env fuel u replies w2 with
          | (Thrown e, w3) =>
              exists cs, sendMessage env fuel u text tok now w
                         = (Thrown e, withSlackCalls cs w3)
          | _ => True
          end
      | _ => True
      end
  | _ => True
  end.
Proof.
  rewrite sendMessage_unfold.
  destruct (postThinkingMessage_spec env u w) as (tm & w0 & -> & F0 & Q0 & _).
  rewrite (onlyAsks_withSlackCalls _ _ F0 Q0).
  rewrite resolveConnection_withSlackCalls.
  destruct (resolveConnection env u tok now w) as [[c|e|] w1]; cbn [fst snd];
    [| |exact I].
  2:{ destruct (turnFailed_withSlackCalls env tm e (withSlackCalls (slackCalls w0) w1))
        as (cs & ->). by exists cs. }
  rewrite askQuestion_withSlackCalls.
  destruct (askQuestion env c text w1) as [[replies|e|] w2]; cbn [fst snd];
    [| |exact I].
  2:{ destruct (turnFailed_withSlackCalls env tm e (withSlackCalls (slackCalls w0) w2))
        as (cs & ->). by exists cs. }
  rewrite resolveReply_withSlackCalls.
  destruct (resolveReply env fuel u replies w2) as [[reply|e|] w3]; cbn [fst snd];
    [exact I| |exact I].
  destruct (turnFailed_withSlackCalls env tm e (withSlackCalls (slackCalls w0) w3))
    as (cs & ->). by exists cs.
Qed.

Lemma truthy_append (a b : string) :
  JsString.truthy a = true -> JsString.truthy (a +:+ b) = true.
Proof. destruct a; [discriminate|]. rewrite append_cons. reflexivity. Qed.

(** The reply of a turn is never the empty text. *)
Lemma resolveReply_nonempty (env : Env) (fuel : nat) (u : string)
    (replies : list Activity) (w w' : World) (reply : string) :
  resolveReply env fuel u replies w = (Returned reply, w') ->
  JsString.truthy reply = true.
Proof.
  rewrite resolveReply_stages. cbv zeta.
  destruct (JsString.truthy (JsString.trim (responseText (classify replies)))) eqn:Ht.
  - intros [= <- _]. by apply truthy_append.
  - destruct (consentCard (classify replies)) as [card|].
    + destruct (handleConsentCardResponse env fuel card (Some u) w) as [[[]|e|] w1];
        try discriminate.
      intros [= <- _]. by apply truthy_append.
    + intros [= <- _]. by apply truthy_append.
Qed.

Lemma resolveConnection_slackCalls (env : Env) (u : string) (tok : option string)
    (now : Z) (w : World) :
  slackCalls (snd (resolveConnection env u tok now w)) = slackCalls w.
Proof.
  pose proof (resolveConnection_withSlackCalls env u tok now (slackCalls w) w) as H.
  rewrite withSlackCalls_id in H.
  destruct (resolveConnection env u tok now w) as [r w1]. cbn [fst snd] in *.
  injection H as ->. reflexivity.
Qed.

(** C4, where the code departs from it. A turn that succeeds returns the
    empty text, never the reply: the reply resolved from the fragments that
    the agent answered with is not empty. What the turn does with the
    reply is to ask the chat client to put it in the place of the thinking
    message, when one was posted. When none was posted, because the
    middleware has no chat client or because the post failed, the turn
    makes no request to the chat client at all: the reply is neither
    returned nor sent. *)
Theorem sendMessage_returns_empty_text (env : Env) (fuel : nat) (u text : string)
    (tok : option string) (now : Z) (w w' : World) (t : string) :
  sendMessage env fuel u text tok now w = (Returned t, w') ->
  t = EmptyString
  /\ exists conn replies w2 reply w3 tm,
       askQuestionAsync env (length (questions w)) (client conn) text
         (conversationId conn) = AskResolves replies
       /\ resolveReply env fuel u replies w2 = (Returned reply, w3)
       /\ reply <> EmptyString
       /\ fst (postThinkingMessage env u w) = Returned tm
       /\ (forall r,
             tm = Some r ->
             hasThinkingMessage (Some r) = true ->
             In (ChatUpdate (post_channel r) (post_ts r) reply) (slackCalls w'))
       /\ (hasThinkingMessage tm = false ->
           slackCalls w' = slackCalls (snd (postThinkingMessage env u w))).
Proof.
  rewrite sendMessage_unfold.
  destruct (postThinkingMessage_spec env u w) as (tm & w0 & Hpost & F0 & Q0 & Hclient).
  rewrite Hpost.
  destruct (resolveConnection_keeps env u tok now w0) as (Q1 & C1 & _ & _).
  pose proof (resolveConnection_slackCalls env u tok now w0) as S1.
  destruct (resolveConnection env u tok now w0) as [[conn|e|] w1];
    cbn [snd] in Q1, C1, S1.
  2:{ destruct (turnFailed_spec env tm e w1) as (wf & -> & _). discriminate. }
  2:{ discriminate. }
  pose proof (askQuestion_onlyAsks env conn text w1) as (F2 & _ & _).
  rewrite askQuestion_spec in *. cbv zeta in *.
  destruct (askQuestionAsync env (length (questions w1)) (client conn) text
              (conversationId conn)) as [e|replies] eqn:Hask; cbn [snd] in F2.
  { match goal with
    | |- context [turnFailed env tm e ?x] =>
        destruct (turnFailed_spec env tm e x) as (wf & -> & _)
    end. discriminate. }
  set (w2 := logQuestion (mkQuestion (client conn) text (conversationId conn)) w1) in *.
  pose proof (resolveReply_onlyAsks env fuel u replies w2) as F3.
  pose proof (resolveReply_slackCalls env fuel u replies w2) as S3.
  destruct (resolveReply env fuel u replies w2) as [[reply|e|] w3] eqn:Hreply;
    cbn [snd] in F3, S3.
  2:{ destruct (turnFailed_spec env tm e w3) as (wf & -> & _). discriminate. }
  2:{ discriminate. }
  assert (Hnone : hasThinkingMessage tm = false ->
                  updateIfThinking env tm reply w3 = (Returned tt, w3)).
  { intros Hno. unfold updateIfThinking. destruct tm as [r|]; [|reflexivity].
    rewrite Hno. reflexivity. }
  destruct (updateIfThinking_spec env tm reply w3) as (w4 & Hupd4 & _ & _ & Hupd).
  rewrite Hupd4.
  intros [= <- <-]. split; [reflexivity|].
  exists conn, replies, w2, reply, w3, tm.
  split; [rewrite <- Q0, <- Q1; exact Hask|]. split; [exact Hreply|].
  split.
  { pose proof (resolveReply_nonempty _ _ _ _ _ _ _ Hreply) as Hne.
    intros ->. discriminate. }
  split; [reflexivity|]. split.
  - intros r -> Hthinking.
    unfold touchConnection, modify. cbn [snd].
    change (In (ChatUpdate (post_channel r) (post_ts r) reply) (slackCalls w4)).
    apply Hupd; [reflexivity | exact Hthinking |].
    destruct F3 as (_ & _ & _ & -> & _). destruct F2 as (_ & _ & _ & -> & _).
    rewrite C1. destruct F0 as (_ & _ & _ & -> & _).
    apply Hclient. discriminate.
  - intros Hno. rewrite (Hnone Hno) in Hupd4. injection Hupd4 as <-.
    unfold touchConnection, modify. cbn [snd].
    change (slackCalls w3 = slackCalls w0).
    rewrite S3. subst w2. cbn [slackCalls logQuestion]. exact S1.
Qed.

(** The theorem at the turn where the reply is lost: the middleware has no
    chat client and the agent answers ["Hello"]. The turn returns the empty
    text and the record of requests to the chat client stays empty. *)
Lemma sendMessage_returns_empty_text_witness :
  askQuestionAsync Fixtures.env 0 (mkClient "user-token") "hello" (Some "conv-1")
  = AskResolves [Fixtures.hello]
  /\ fst (resolveReply Fixtures.env 2 Fixtures.user [Fixtures.hello] (constructor false))
     = Returned "Hello"
  /\ fst (sendMessage Fixtures.env 2 Fixtures.user "hello" (Some "user-token")
            1761000000000 (constructor false)) = Returned EmptyString
  /\ slackCalls (snd (sendMessage Fixtures.env 2 Fixtures.user "hello"
                        (Some "user-token") 1761000000000 (constructor false)))
     = [].
Proof.
  assert (H : sendMessage Fixtures.env 2 Fixtures.user "hello" (Some "user-token")
                1761000000000 (constructor false)
              = (fst (sendMessage Fixtures.env 2 Fixtures.user "hello"
                        (Some "user-token") 1761000000000 (constructor false)),
                 snd (sendMessage Fixtures.env 2 Fixtures.user "hello"
                        (Some "user-token") 1761000000000 (constructor false))))
    by (vm_compute; reflexivity).
  assert (Hr : fst (sendMessage Fixtures.env 2 Fixtures.user "hello"
                      (Some "user-token") 1761000000000 (constructor false))
               = Returned EmptyString) by (vm_compute; reflexivity).
  rewrite Hr in H.
  destruct (sendMessage_returns_empty_text _ _ _ _ _ _ _ _ _ H)
    as (_ & conn & replies & w2 & reply & w3 & tm & _ & _ & _ & Htm & _ & Hlost).
  split; [reflexivity|]. split; [reflexivity|]. split; [exact Hr|].
  assert (tm = None) as -> by (vm_compute in Htm; congruence).
  rewrite (Hlost eq_refl). reflexivity.
Defined.

(** The same turn with a chat client: the agent answers the question with
    one text fragment, the reply resolved from it is ["Hello"], the chat
    client is asked to show it in the place of the thinking message, and
    [sendMessage] returns the empty text. *)
Lemma sendMessage_empty_text_counterexample :
  askQuestionAsync Fixtures.env 0 (mkClient "user-token") "hello" (Some "conv-1")
  = AskResolves [Fixtures.hello]
  /\ fst (resolveReply Fixtures.env 2 Fixtures.user [Fixtures.hello] (constructor true))
     = Returned "Hello"
  /\ fst (sendMessage Fixtures.env 2 Fixtures.user "hello" (Some "user-token")
            1761000000000 (constructor true)) = Returned EmptyString
  /\ fst (sendMessage Fixtures.env 2 Fixtures.user "hello" (Some "user-token")
            1761000000000 (constructor true)) <> Returned "Hello"
  /\ slackCalls (snd (sendMessage Fixtures.env 2 Fixtures.user "hello"
                        (Some "user-token") 1761000000000 (constructor true)))
     = [ChatUpdate "U1" "1700000000.000100" "Hello";
        ChatPostMessage "U1" ":thinking_face: Thinking..."].
Proof.
  split; [reflexivity|]. split; [reflexivity|].
  split; [vm_compute; reflexivity|]. split; [vm_compute; discriminate|].
  vm_compute. reflexivity.
Qed.

Lemma turnCommit_frame (env : Env) (u : string) (now : Z) (w w0 w1 w' : World) :
  onlyAsks w w0 -> turnCommit env u now w0 w1 -> onlyAsks w1 w' ->
  turnCommit env u now w w'.
Proof.
  intros (A1 & A2 & A3 & _ & A5 & A6 & _) (T1 & T2 & T3)
         (B1 & B2 & B3 & _ & B5 & B6 & _).
  unfold turnCommit, cacheEffect in *.
  rewrite B1, B2, B3, B5, B6. rewrite A1, A2, A3, A5, A6 in *.
  split; [exact T1|]. split; [exact T2 | exact T3].
Qed.

(** What getting the connection commits. *)
Lemma resolveConnection_commit (env : Env) (u : string) (tok : option string)
    (now : Z) (w : World) :
  turnCommit env u now w (snd (resolveConnection env u tok now w))
  /\ match fst (resolveConnection env u tok now w) with
     | Returned c => True
     | Thrown e =>
         errorOrigin env e
         /\ registryOps (snd (resolveConnection env u tok now w)) = registryOps w
     | Unfinished => False
     end.
Proof.
  pose proof (resolveConnection_effect env u tok now w) as HR.
  destruct (resolveConnection env u tok now w) as [[c|e|] w1]; cbn [fst snd].
  - split; [|exact I]. destruct HR as [[_ ->]|[Hnone HC]].
    + split; [reflexivity|]. split; [left; by split | left; by split].
    + pose proof (createUserConnection_effect env u tok now w) as HE.
      rewrite HC in HE. destruct HE as (H1 & H2 & _ & H4 & _ & _ & _ & H8).
      split; [exact H4|]. split; [exact H8|]. right. split; [exact Hnone|].
      exists c. by split.
  - destruct HR as [Hnone HC].
    pose proof (createUserConnection_effect env u tok now w) as HE.
    rewrite HC in HE. destruct HE as (H1 & H2 & H3 & _ & _ & _ & H7 & H8).
    split; [|by split]. split; [exact H3|]. split; [exact H7|]. left. by split.
  - destruct HR.
Qed.

(** When a turn throws, the error is the one that the identity provider,
    the start of the conversation or a send to the agent failed with. The
    token store is as it was; the service-token cache is as it was, or
    holds what the provider answered, or was cleared after the provider
    failed; the registry is as it was, or holds in addition the session
    that this turn created for the user, which happens only when the
    failure was a send. A session for the user that is in the registry
    after the failure is reused by the next turn of that user. *)
Lemma sendMessage_thrown_commit (env : Env) (fuel : nat)
    (u text : string) (tok : option string) (now : Z) (w w' : World) (e : Js.Error) :
  sendMessage env fuel u text tok now w = (Thrown e, w') ->
  errorOrigin env e
  /\ turnCommit env u now w w'
  /\ (registryOps w' <> registryOps w ->
      exists n c t cid, askQuestionAsync env n c t cid = AskRejects e)
  /\ forall c,
      activeConnections w' !! Some u = Some c ->
      forall fuel2 text2 tok2 now2,
        startedConversations (snd (sendMessage env fuel2 u text2 tok2 now2 w'))
          = startedConversations w'
        /\ providerRequests (snd (sendMessage env fuel2 u text2 tok2 now2 w'))
           = providerRequests w'
        /\ registryOps (snd (sendMessage env fuel2 u text2 tok2 now2 w'))
           = registryOps w'
        /\ exists more,
             questions (snd (sendMessage env fuel2 u text2 tok2 now2 w'))
             = more ++ mkQuestion (client c) text2 (conversationId c) :: questions w'.
Proof.
  intros H.
  assert (Hmain : errorOrigin env e /\ turnCommit env u now w w'
                  /\ (registryOps w' <> registryOps w ->
                      exists n c t cid, askQuestionAsync env n c t cid = AskRejects e)).
  { rewrite sendMessage_unfold in H.
    destruct (postThinkingMessage_spec env u w) as (tm & w0 & Hpost & F0 & _ & _).
    rewrite Hpost in H.
    destruct (resolveConnection_commit env u tok now w0) as (T1 & E1).
    destruct (resolveConnection env u tok now w0) as [[conn|e1|] w1];
      cbn [fst snd] in T1, E1; [| |destruct E1].
    2:{ destruct (turnFailed_spec env tm e1 w1) as (wf & Hf & Ff & _).
        rewrite Hf in H. injection H as -> ->. destruct E1 as [E1 R1].
        split; [exact E1|]. split; [exact (turnCommit_frame _ _ _ _ _ _ _ F0 T1 Ff)|].
        intros Hneq. exfalso. apply Hneq.
        destruct Ff as (_ & _ & _ & _ & -> & _). rewrite R1.
        by destruct F0 as (_ & _ & _ & _ & -> & _). }
    assert (Hsend : forall w2,
      onlyAsks w1 w2 ->
      (exists n c t cid, askQuestionAsync env n c t cid = AskRejects e) ->
      turnFailed env tm e w2 = (Thrown e, w') ->
      errorOrigin env e /\ turnCommit env u now w w'
      /\ (registryOps w' <> registryOps w ->
          exists n c t cid, askQuestionAsync env n c t cid = AskRejects e)).
    { intros w2 F2 Hask Hf.
      destruct (turnFailed_spec env tm e w2) as (wf & Hf' & Ff & _).
      rewrite Hf' in Hf. injection Hf as ->.
      split; [right; right; right; exact Hask|].
      split; [|intros _; exact Hask].
      exact (turnCommit_frame _ _ _ _ _ _ _ F0 T1 (onlyAsks_trans _ _ _ F2 Ff)). }
    pose proof (askQuestion_onlyAsks env conn text w1) as (F2 & _ & _).
    rewrite askQuestion_spec in *. cbv zeta in *.
    destruct (askQuestionAsync env (length (questions w1)) (client conn) text
                (conversationId conn)) as [e2|replies] eqn:Hask; cbn [snd] in F2.
    { assert (e2 = e) as ->.
      { match type of H with
        | turnFailed env tm e2 ?x = _ =>
            destruct (turnFailed_spec env tm e2 x) as (wf & Hf & _)
        end. rewrite Hf in H. by injection H. }
      eapply Hsend; [exact F2 | eauto | exact H]. }
    set (w2 := logQuestion (mkQuestion (client conn) text (conversationId conn)) w1) in *.
    pose proof (resolveReply_onlyAsks env fuel u replies w2) as F3.
    destruct (resolveReply env fuel u replies w2) as [[reply|e3|] w3] eqn:Hreply;
      cbn [snd] in F3.
    - destruct (updateIfThinking_spec env tm reply w3) as (w4 & Hu & _).
      rewrite Hu in H. discriminate.
    - assert (e3 = e) as ->.
      { destruct (turnFailed_spec env tm e3 w3) as (wf & Hf & _).
        rewrite Hf in H. by injection H. }
      eapply Hsend; [exact (onlyAsks_trans _ _ _ F2 F3) | | exact H].
      eapply resolveReply_thrown. exact Hreply.
    - discriminate. }
  destruct Hmain as (H1 & H2 & H3).
  split; [exact H1|]. split; [exact H2|]. split; [exact H3|].
  intros c Hc fuel2 text2 tok2 now2.
  by apply sendMessage_existing_session.
Qed.

(** The theorem at a first turn of the sample environment whose send
    fails: the session that the turn created is in the registry, and a
    second turn starts no other conversation. *)
(** ** The key [undefined] and the bound on the questions of a turn *)

Lemma onlyAsks_noUndefinedKey (w w' : World) :
  onlyAsks w w' -> noUndefinedKey w -> noUndefinedKey w'.
Proof. unfold noUndefinedKey. intros (-> & _) H. exact H. Qed.

Lemma turnCommit_noUndefinedKey (env : Env) (u : string) (now : Z) (w w' : World) :
  turnCommit env u now w w' -> noUndefinedKey w -> noUndefinedKey w'.
Proof.
  unfold noUndefinedKey. intros (_ & _ & [[-> _]|(_ & c & -> & _)]) H.
  - exact H.
  - rewrite lookup_insert_ne by discriminate. exact H.
Qed.

(** With enough fuel and nothing under [undefined], resolving the reply
    finishes and sends at most one question, the consent approval. *)
Lemma resolveReply_bounded (env : Env) (fuel : nat) (u : string)
    (replies : list Activity) (w : World) :
  noUndefinedKey w ->
  fst (resolveReply env (S (S fuel)) u replies w) <> Unfinished
  /\ (length (questions (snd (resolveReply env (S (S fuel)) u replies w)))
      <= S (length (questions w)))%nat.
Proof.
  intros Hw. rewrite resolveReply_stages. cbv zeta.
  destruct (JsString.truthy _); [split; [discriminate | simpl; lia]|].
  destruct (consentCard (classify replies)) as [card|];
    [|split; [discriminate | simpl; lia]].
  rewrite (handleConsentCardResponse_spec env fuel card (Some u) w Hw).
  destruct (activeConnections w !! Some u) as [c|];
    [|split; [discriminate | simpl; lia]].
  cbv zeta. destruct (askQuestionAsync env _ _ _ _);
    (split; [discriminate | simpl; lia]).
Qed.

(** A turn started with nothing under [undefined] finishes, sends at most
    two questions (the message and one consent approval) and leaves nothing
    under [undefined]. *)
Lemma sendMessage_bounded (env : Env) (fuel : nat) (u text : string)
    (tok : option string) (now : Z) (w : World) :
  noUndefinedKey w ->
  fst (sendMessage env (S (S fuel)) u text tok now w) <> Unfinished
  /\ (length (questions (snd (sendMessage env (S (S fuel)) u text tok now w)))
      <= 2 + length (questions w))%nat
  /\ noUndefinedKey (snd (sendMessage env (S (S fuel)) u text tok now w)).
Proof.
  intros Hw. rewrite sendMessage_unfold.
  destruct (postThinkingMessage_spec env u w) as (tm & w0 & -> & F0 & Q0 & _).
  pose proof (onlyAsks_noUndefinedKey _ _ F0 Hw) as Hw0.
  destruct (resolveConnection_keeps env u tok now w0) as (Q1 & _ & _ & U1).
  destruct (resolveConnection_commit env u tok now w0) as (T1 & _).
  pose proof (turnCommit_noUndefinedKey _ _ _ _ _ T1 Hw0) as Hw1.
  destruct (resolveConnection env u tok now w0) as [[conn|e|] w1];
    cbn [fst snd] in Q1, U1, Hw1; [| |by destruct U1].
  2:{ destruct (turnFailed_spec env tm e w1) as (wf & -> & Ff & Qf). cbn [fst snd].
      split; [discriminate|]. split; [rewrite Qf, Q1, Q0; lia|].
      exact (onlyAsks_noUndefinedKey _ _ Ff Hw1). }
  destruct (askQuestion_onlyAsks env conn text w1) as (F2 & Q2 & U2).
  destruct (askQuestion env conn text w1) as [[replies|e|] w2];
    cbn [fst snd] in F2, Q2, U2; [| |by destruct U2].
  2:{ destruct (turnFailed_spec env tm e w2) as (wf & -> & Ff & Qf). cbn [fst snd].
      split; [discriminate|]. split; [rewrite Qf, Q2, Q1, Q0; simpl; lia|].
      exact (onlyAsks_noUndefinedKey _ _ (onlyAsks_trans _ _ _ F2 Ff) Hw1). }
  pose proof (onlyAsks_noUndefinedKey _ _ F2 Hw1) as Hw2.
  destruct (resolveReply_bounded env fuel u replies w2 Hw2) as (U3 & L3).
  pose proof (resolveReply_onlyAsks env (S (S fuel)) u replies w2) as F3.
  destruct (resolveReply env (S (S fuel)) u replies w2) as [[reply|e|] w3];
    cbn [fst snd] in U3, L3, F3; [| |by destruct U3].
  - destruct (updateIfThinking_spec env tm reply w3) as (w4 & -> & F4 & Q4 & _).
    cbn [fst snd]. split; [discriminate|].
    unfold touchConnection, modify. cbn [snd]. split.
    + change (length (questions w4) <= 2 + length (questions w))%nat.
      rewrite Q4. rewrite Q2, Q1, Q0 in L3. simpl in L3. lia.
    + pose proof (onlyAsks_noUndefinedKey _ _ (onlyAsks_trans _ _ _ F3 F4) Hw2) as Hw4.
      unfold noUndefinedKey in *. cbn [activeConnections setConnections].
      rewrite lookup_alter_ne by discriminate. exact Hw4.
  - destruct (turnFailed_spec env tm e w3) as (wf & -> & Ff & Qf). cbn [fst snd].
    split; [discriminate|]. split.
    + rewrite Qf. rewrite Q2, Q1, Q0 in L3. simpl in L3. lia.
    + exact (onlyAsks_noUndefinedKey _ _ (onlyAsks_trans _ _ _ F3 Ff) Hw2).
Qed.

(** C10. With nothing stored under the key [undefined], the recursive
    invocation of the consent sub-protocol, called without a user id, finds
    no connection and returns without sending and without raising. A run of
    the sub-protocol for a user therefore finishes and sends at most one
    consent approval upstream, the consent payload on the connection of that
    user, whatever the agent replies; and a whole turn finishes, sends at
    most two questions (the message and one approval) and leaves nothing
    under [undefined] for the next turn. *)
Theorem consent_at_most_one_resend (env : Env) (fuel : nat) (activity : Activity)
    (userId : string) (w : World) :
  noUndefinedKey w ->
  (forall nested : Activity,
      handleConsentCardResponse env (S fuel) nested None w = (Returned tt, w))
  /\ fst (handleConsentCardResponse env (S (S fuel)) activity (Some userId) w)
     <> Unfinished
  /\ (snd (handleConsentCardResponse env (S (S fuel)) activity (Some userId) w) = w
      \/ exists c,
           activeConnections w !! Some userId = Some c
           /\ snd (handleConsentCardResponse env (S (S fuel)) activity (Some userId) w)
              = logQuestion
                  (mkQuestion (client c) consentPayloadText (conversationId c)) w)
  /\ (length (questions
        (snd (handleConsentCardResponse env (S (S fuel)) activity (Some userId) w)))
      <= S (length (questions w)))%nat
  /\ forall text tok now,
      fst (sendMessage env (S (S fuel)) userId text tok now w) <> Unfinished
      /\ (length (questions (snd (sendMessage env (S (S fuel)) userId text tok now w)))
          <= 2 + length (questions w))%nat
      /\ noUndefinedKey (snd (sendMessage env (S (S fuel)) userId text tok now w)).
Proof.
  intros H. split.
  { intros nested. by apply handleConsentCardResponse_undefined. }
  rewrite (handleConsentCardResponse_spec env fuel activity (Some userId) w H).
  assert (Hturn : forall text tok now,
      fst (sendMessage env (S (S fuel)) userId text tok now w) <> Unfinished
      /\ (length (questions (snd (sendMessage env (S (S fuel)) userId text tok now w)))
          <= 2 + length (questions w))%nat
      /\ noUndefinedKey (snd (sendMessage env (S (S fuel)) userId text tok now w))).
  { intros text tok now. by apply sendMessage_bounded. }
  destruct (activeConnections w !! Some userId) as [c|].
  - cbv zeta. destruct (askQuestionAsync env _ _ _ _); simpl;
      (split; [discriminate|]); (split; [right; eauto |]);
      (split; [lia | exact Hturn]).
  - simpl. split; [discriminate|]. split; [by left|]. split; [lia | exact Hturn].
Qed.

(** The theorem at the sample world with one session, where the agent
    answers every approval with another consent request: the recursive call
    returns at once, one approval is sent, and a turn that meets a consent
    request sends two questions. *)
Lemma consent_at_most_one_resend_witness :
  noUndefinedKey Fixtures.withSession
  /\ handleConsentCardResponse Fixtures.env 2 Fixtures.consentActivity None
       Fixtures.withSession = (Returned tt, Fixtures.withSession)
  /\ (length (questions
        (snd (handleConsentCardResponse Fixtures.env 3 Fixtures.consentActivity
                (Some Fixtures.user) Fixtures.withSession))) <= 1)%nat
  /\ (length (questions
        (snd (sendMessage Fixtures.env 3 Fixtures.user "consent" None 1761000000000
                Fixtures.withSession))) <= 2)%nat.
Proof.
  assert (H : noUndefinedKey Fixtures.withSession) by (vm_compute; reflexivity).
  destruct (consent_at_most_one_resend Fixtures.env 1 Fixtures.consentActivity
              Fixtures.user Fixtures.withSession H) as (Hnested & _ & _ & Hlen & Hturn).
  split; [exact H|]. split; [apply Hnested|]. split; [exact Hlen|].
  destruct (Hturn "consent" None 1761000000000) as (_ & Hq & _). exact Hq.
Defined.

(** A turn never writes under the key [undefined], whatever the fuel. *)
Lemma sendMessage_undefined_key (env : Env) (fuel : nat) (u text : string)
    (tok : option string) (now : Z) (w : World) :
  noUndefinedKey w ->
  noUndefinedKey (snd (sendMessage env fuel u text tok now w)).
Proof.
  intros Hw. rewrite sendMessage_unfold.
  destruct (postThinkingMessage_spec env u w) as (tm & w0 & -> & F0 & _ & _).
  pose proof (onlyAsks_noUndefinedKey _ _ F0 Hw) as Hw0.
  destruct (resolveConnection_commit env u tok now w0) as (T1 & _).
  pose proof (turnCommit_noUndefinedKey _ _ _ _ _ T1 Hw0) as Hw1.
  destruct (resolveConnection env u tok now w0) as [[conn|e|] w1];
    cbn [fst snd] in Hw1; [| |exact Hw1].
  2:{ destruct (turnFailed_spec env tm e w1) as (wf & -> & Ff & _).
      exact (onlyAsks_noUndefinedKey _ _ Ff Hw1). }
  destruct (askQuestion_onlyAsks env conn text w1) as (F2 & _ & _).
  pose proof (onlyAsks_noUndefinedKey _ _ F2 Hw1) as Hw2.
  destruct (askQuestion env conn text w1) as [[replies|e|] w2];
    cbn [fst snd] in F2, Hw2; [| |exact Hw2].
  2:{ destruct (turnFailed_spec env tm e w2) as (wf & -> & Ff & _).
      exact (onlyAsks_noUndefinedKey _ _ Ff Hw2). }
  pose proof (resolveReply_onlyAsks env fuel u replies w2) as F3.
  pose proof (onlyAsks_noUndefinedKey _ _ F3 Hw2) as Hw3.
  destruct (resolveReply env fuel u replies w2) as [[reply|e|] w3];
    cbn [fst snd] in F3, Hw3; [| |exact Hw3].
  - destruct (updateIfThinking_spec env tm reply w3) as (w4 & -> & F4 & _).
    pose proof (onlyAsks_noUndefinedKey _ _ F4 Hw3) as Hw4.
    unfold touchConnection, modify, noUndefinedKey in *.
    cbn [snd activeConnections setConnections].
    rewrite lookup_alter_ne by discriminate. exact Hw4.
  - destruct (turnFailed_spec env tm e w3) as (wf & -> & Ff & _).
    exact (onlyAsks_noUndefinedKey _ _ Ff Hw3).
Qed.

Lemma getUserToken_connections (env : Env) (u : string) (now : Z) (w : World) :
  activeConnections (snd (getUserToken env u now w)) = activeConnections w.
Proof.
  unfold getUserToken, logDate, bind, gets, tokensDelete, modify, tryCatch, throw, ret.
  repeat case_match; simplify_eq; reflexivity.
Qed.

(** A read of the token store returns or throws. *)
Lemma getUserToken_finishes (env : Env) (u : string) (now : Z) (w : World) :
  fst (getUserToken env u now w) <> Unfinished.
Proof.
  unfold getUserToken, logDate, bind, gets, tokensDelete, modify, tryCatch, throw, ret.
  repeat case_match; simplify_eq; discriminate.
Qed.

(** Every world that the middleware reaches holds nothing under the key
    [undefined]: the hypothesis of the consent properties holds in every
    turn. *)
Lemma reachable_noUndefinedKey (env : Env) (w : World) :
  reachable env w -> noUndefinedKey w.
Proof.
  induction 1 as [b|w _ IH|w u a now _ IH|w u now _ IH|w u _ IH|w u _ IH
                 |w fuel u text tok now _ IH|w u now _ IH|w now _ IH].
  - reflexivity.
  - exact IH.
  - exact IH.
  - unfold noUndefinedKey. rewrite getUserToken_connections. exact IH.
  - exact IH.
  - unfold noUndefinedKey, clearUserConnection, connectionsDelete. cbn.
    rewrite lookup_delete_ne by discriminate. exact IH.
  - by apply sendMessage_undefined_key.
  - unfold noUndefinedKey, newConversation, connectionsDelete. unfold bind at 1.
    set (w1 := logRegistryOp (RegDelete (Some u)) (setConnections (delete (Some u)) w)).
    assert (Hw1 : activeConnections w1 !! (None : UserKey) = None).
    { subst w1. cbn. rewrite lookup_delete_ne by discriminate. exact IH. }
    unfold bind, ret.
    pose proof (createUserConnection_effect env u None now w1) as H.
    destruct (createUserConnection env u None now w1) as [[c|e|] w'];
      cbn beta iota; cbn [snd].
    + destruct H as (-> & _). rewrite lookup_insert_ne by discriminate. exact Hw1.
    + destruct H as (-> & _). exact Hw1.
    + destruct H.
  - unfold noUndefinedKey, cleanup, modify. cbn [snd].
    rewrite cleanupServiceToken_connections, cleanupTokens_connections.
    rewrite cleanupConnections_lookup. unfold noUndefinedKey in IH.
    rewrite IH. reflexivity.
Qed.

(** ** A turn that fails *)

(** The connection that a turn works with is the entry of the registry
    under the user id. *)
Lemma resolveConnection_registered (env : Env) (u : string) (tok : option string)
    (now : Z) (w : World) (c : Connection) (w1 : World) :
  resolveConnection env u tok now w = (Returned c, w1) ->
  activeConnections w1 !! Some u = Some c.
Proof.
  intros H. pose proof (resolveConnection_effect env u tok now w) as HR.
  rewrite H in HR. destruct HR as [[Hc ->]|[_ HC]]; [exact Hc|].
  pose proof (createUserConnection_effect env u tok now w) as HE.
  rewrite HC in HE. destruct HE as (-> & _). apply lookup_insert_eq.
Qed.

Lemma resolveConnection_none (env : Env) (u : string) (tok : option string)
    (now : Z) (w : World) :
  activeConnections w !! Some u = None ->
  resolveConnection env u tok now w = createUserConnection env u tok now w.
Proof. intros H. unfold resolveConnection, bind, gets. by rewrite H. Qed.

(** Resolving the credential touches the service-token cache and the
    record of provider requests only. *)
Lemma turnCredential_keeps (env : Env) (tok : option string) (now : Z) (w : World) :
  activeConnections (snd (turnCredential env tok now w)) = activeConnections w
  /\ registryOps (snd (turnCredential env tok now w)) = registryOps w
  /\ userTokens (snd (turnCredential env tok now w)) = userTokens w
  /\ startedConversations (snd (turnCredential env tok now w)) = startedConversations w
  /\ questions (snd (turnCredential env tok now w)) = questions w.
Proof.
  unfold turnCredential. destruct (JsString.truthyOpt tok); [by repeat split|].
  pose proof (getServiceToken_effect env now w) as H.
  destruct (getServiceToken env now w) as [[t|e|] w1]; cbn [snd];
    [| |destruct H].
  - destruct H as (A & B & _ & C & D & E & _). by repeat split.
  - destruct H as (A & B & _ & C & D & E & _). by repeat split.
Qed.

(** C8. A turn fails where a collaborator fails, with the error of that
    collaborator, and keeps what it had committed by then and nothing else.
    For every world and every turn:
    - when the user has no session and no user token is supplied, the
      cache holds no usable service token and the identity provider
      rejects the request (or answers [null]), the turn throws that
      rejection (or the TypeError of reading the [null] answer); the
      registry, the token store, the conversations started and the
      questions sent are as before, one provider request was made and the
      cache is cleared;
    - when the user has no session, the credential resolves to [t] and the
      start of the conversation rejects, the turn throws that rejection;
      the registry, the token store and the questions sent are as before,
      and the service-token cache keeps what resolving the credential left;
    - when the session of the turn is resolved to [c], found in the
      registry or created by this turn, and the send of the question
      rejects, the turn throws that rejection and the registry holds [c]
      for the user: a session that this turn created and stored is
      retained, and the next turn of the user, whatever its arguments,
      starts no conversation, asks the provider nothing, writes nothing to
      the registry and sends its question on [c];
    - when the reply calls for the automatic consent approval and the send
      of the approval rejects, the turn throws that rejection and the
      registry holds [c] for the user all the same;
    - every turn that throws, throws what one collaborator call failed
      with, leaves the token store as it was, the service-token cache as it
      was or as the provider request of this turn left it, and the registry
      as it was or with the one session that this turn created. *)
Theorem sendMessage_failure_keeps_committed_state (env : Env) (fuel : nat)
    (u text : string) (tok : option string) (now : Z) (w : World) :
  (forall e,
      activeConnections w !! Some u = None ->
      JsString.truthyOpt tok = false ->
      JsString.truthyOpt (cache_token (serviceTokenCache w))
        && (now <? cache_expiresAt (serviceTokenCache w) - 300000) = false ->
      acquireTokenByClientCredential env (length (providerRequests w))
        (oauth_scope env) = ProviderRejects e
      \/ (acquireTokenByClientCredential env (length (providerRequests w))
            (oauth_scope env) = ProviderNull
          /\ e = Js.TypeError "Cannot read properties of null") ->
      exists w',
        sendMessage env fuel u text tok now w = (Thrown e, w')
        /\ activeConnections w' = activeConnections w
        /\ registryOps w' = registryOps w
        /\ userTokens w' = userTokens w
        /\ startedConversations w' = startedConversations w
        /\ questions w' = questions w
        /\ providerRequests w' = oauth_scope env :: providerRequests w
        /\ serviceTokenCache w' = mkServiceTokenCache None 0)
  /\ (forall t wc e,
        activeConnections w !! Some u = None ->
        turnCredential env tok now w = (Returned t, wc) ->
        startConversationAsync env (length (startedConversations w)) (mkClient t)
        = StartRejects e ->
        exists w',
          sendMessage env fuel u text tok now w = (Thrown e, w')
          /\ activeConnections w' = activeConnections w
          /\ registryOps w' = registryOps w
          /\ userTokens w' = userTokens w
          /\ startedConversations w' = mkClient t :: startedConversations w
          /\ questions w' = questions w
          /\ providerRequests w' = providerRequests wc
          /\ serviceTokenCache w' = serviceTokenCache wc)
  /\ (forall c w1 e,
        resolveConnection env u tok now w = (Returned c, w1) ->
        askQuestionAsync env (length (questions w)) (client c) text
          (conversationId c) = AskRejects e ->
        exists w',
          sendMessage env fuel u text tok now w = (Thrown e, w')
          /\ activeConnections w' !! Some u = Some c
          /\ (activeConnections w !! Some u = None ->
              activeConnections w' = <[Some u := c]> (activeConnections w)
              /\ registryOps w' = RegSet (Some u) c :: registryOps w)
          /\ activeConnections w' = activeConnections w1
          /\ registryOps w' = registryOps w1
          /\ userTokens w' = userTokens w
          /\ startedConversations w' = startedConversations w1
          /\ providerRequests w' = providerRequests w1
          /\ serviceTokenCache w' = serviceTokenCache w1
          /\ questions w'
             = mkQuestion (client c) text (conversationId c) :: questions w
          /\ forall fuel2 text2 tok2 now2,
              startedConversations (snd (sendMessage env fuel2 u text2 tok2 now2 w'))
              = startedConversations w'
              /\ providerRequests (snd (sendMessage env fuel2 u text2 tok2 now2 w'))
                 = providerRequests w'
              /\ registryOps (snd (sendMessage env fuel2 u text2 tok2 now2 w'))
                 = registryOps w'
              /\ exists more,
                   questions (snd (sendMessage env fuel2 u text2 tok2 now2 w'))
                   = more ++ mkQuestion (client c) text2 (conversationId c)
                             :: questions w')
  /\ (forall c w1 replies card e,
        (2 <= fuel)%nat ->
        noUndefinedKey w ->
        resolveConnection env u tok now w = (Returned c, w1) ->
        askQuestionAsync env (length (questions w)) (client c) text
          (conversationId c) = AskResolves replies ->
        JsString.truthy (JsString.trim (responseText (classify replies))) = false ->
        consentCard (classify replies) = Some card ->
        askQuestionAsync env (S (length (questions w))) (client c)
          consentPayloadText (conversationId c) = AskRejects e ->
        exists w',
          sendMessage env fuel u text tok now w = (Thrown e, w')
          /\ activeConnections w' !! Some u = Some c
          /\ activeConnections w' = activeConnections w1
          /\ registryOps w' = registryOps w1
          /\ userTokens w' = userTokens w
          /\ questions w'
             = mkQuestion (client c) consentPayloadText (conversationId c)
               :: mkQuestion (client c) text (conversationId c) :: questions w)
  /\ (forall e w',
        sendMessage env fuel u text tok now w = (Thrown e, w') ->
        errorOrigin env e /\ turnCommit env u now w w').
Proof.
  pose proof (sendMessage_thrown_at env fuel u text tok now w) as Hat.
  split; [|split; [|split; [|split]]].
  - intros e Hnone Htok Hmiss Hprov.
    assert (E : resolveConnection env u tok now w
                = (Thrown e,
                   setServiceTokenCache (mkServiceTokenCache None 0)
                     (logProviderRequest (oauth_scope env) w))).
    { rewrite (resolveConnection_none env u tok now w Hnone).
      rewrite createUserConnection_credential. unfold turnCredential.
      rewrite Htok, (getServiceToken_miss env now w Hmiss). cbv zeta.
      destruct Hprov as [->|[-> ->]]; reflexivity. }
    rewrite E in Hat. destruct Hat as (cs & ->).
    eexists. split; [reflexivity|]. by repeat split.
  - intros t wc e Hnone Hcred Hstart.
    destruct (turnCredential_keeps env tok now w) as (A & B & C & D & Q).
    rewrite Hcred in A, B, C, D, Q. cbn [snd] in A, B, C, D, Q.
    assert (E : resolveConnection env u tok now w
                = (Thrown e, logStartedConversation (mkClient t) wc)).
    { rewrite (resolveConnection_none env u tok now w Hnone).
      rewrite createUserConnection_credential, Hcred, D, Hstart. reflexivity. }
    rewrite E in Hat. destruct Hat as (cs & ->).
    eexists. split; [reflexivity|].
    cbn [activeConnections registryOps userTokens startedConversations questions
         providerRequests serviceTokenCache withSlackCalls logStartedConversation].
    rewrite D. by repeat split.
  - intros c w1 e Hres Hask.
    destruct (resolveConnection_keeps env u tok now w) as (Q1 & _ & T1 & _).
    rewrite Hres in Q1, T1. cbn [snd] in Q1, T1.
    pose proof (resolveConnection_registered _ _ _ _ _ _ _ Hres) as Hreg.
    pose proof (resolveConnection_effect env u tok now w) as Heff.
    rewrite Hres in Hat, Heff. rewrite askQuestion_spec in Hat. cbv zeta in Hat.
    rewrite Q1, Hask in Hat. destruct Hat as (cs & E).
    exists (withSlackCalls cs
              (logQuestion (mkQuestion (client c) text (conversationId c)) w1)).
    split; [exact E|].
    cbn [activeConnections registryOps userTokens startedConversations questions
         providerRequests serviceTokenCache withSlackCalls logQuestion].
    split; [exact Hreg|]. split.
    { intros Hnone. destruct Heff as [[Hc _]|[_ HC]]; [congruence|].
      pose proof (createUserConnection_effect env u tok now w) as HE.
      rewrite HC in HE. destruct HE as (HA & HR & _). by split. }
    do 7 (split; [first [reflexivity | assumption | by rewrite Q1]|]).
    intros fuel2 text2 tok2 now2.
    exact (sendMessage_existing_session env fuel2 u text2 tok2 now2
             (withSlackCalls cs
                (logQuestion (mkQuestion (client c) text (conversationId c)) w1))
             c Hreg).
  - intros c w1 replies card e Hfuel Hkey Hres Hask Htext Hcard Hconsent.
    destruct fuel as [|[|fuel]]; [lia | lia |].
    destruct (resolveConnection_keeps env u tok now w) as (Q1 & _ & T1 & _).
    rewrite Hres in Q1, T1. cbn [snd] in Q1, T1.
    pose proof (resolveConnection_registered _ _ _ _ _ _ _ Hres) as Hreg.
    destruct (resolveConnection_commit env u tok now w) as (TC & _).
    rewrite Hres in TC. cbn [snd] in TC.
    pose proof (turnCommit_noUndefinedKey _ _ _ _ _ TC Hkey) as Hkey1.
    rewrite Hres in Hat. rewrite askQuestion_spec in Hat. cbv zeta in Hat.
    rewrite Q1, Hask in Hat.
    set (w2 := logQuestion (mkQuestion (client c) text (conversationId c)) w1) in *.
    rewrite resolveReply_stages in Hat. cbv zeta in Hat.
    rewrite Htext, Hcard in Hat.
    rewrite (handleConsentCardResponse_spec env fuel card (Some u) w2 Hkey1) in Hat.
    change (activeConnections w2) with (activeConnections w1) in Hat.
    rewrite Hreg in Hat. cbv zeta in Hat.
    change (length (questions w2)) with (S (length (questions w1))) in Hat.
    rewrite Q1, Hconsent in Hat. destruct Hat as (cs & E).
    eexists. split; [exact E|].
    cbn [activeConnections registryOps userTokens questions withSlackCalls logQuestion].
    split; [exact Hreg|]. subst w2. cbn [questions logQuestion]. rewrite Q1.
    by repeat split.
  - intros e w' H.
    destruct (sendMessage_thrown_commit env fuel u text tok now w w' e H)
      as (H1 & H2 & _).
    split; assumption.
Qed.

(** The theorem in the sample environment, for a new user with a token
    whose question the agent rejects: the turn throws that rejection, the
    session it created is in the registry, and the next turn starts no
    conversation. *)
Lemma sendMessage_failure_keeps_committed_state_witness :
  fst (sendMessage Fixtures.env 2 Fixtures.user "unknown" (Some "user-token")
         1761000000000 (constructor true))
  = Thrown (Js.Rejected "upstream unavailable")
  /\ activeConnections
       (snd (sendMessage Fixtures.env 2 Fixtures.user "unknown" (Some "user-token")
               1761000000000 (constructor true))) !! Some Fixtures.user
     = Some (mkConnection (mkClient "user-token") (Some "conv-1")
               (mkConversationActivity (Some "conv-1")) 1761000000000 Fixtures.user)
  /\ startedConversations
       (snd (sendMessage Fixtures.env 2 Fixtures.user "hello" (Some "user-token")
               1761000060000
               (snd (sendMessage Fixtures.env 2 Fixtures.user "unknown"
                       (Some "user-token") 1761000000000 (constructor true)))))
     = [mkClient "user-token"].
Proof.
  destruct (sendMessage_failure_keeps_committed_state Fixtures.env 2 Fixtures.user
              "unknown" (Some "user-token") 1761000000000 (constructor true))
    as (_ & _ & H & _).
  destruct (H (mkConnection (mkClient "user-token") (Some "conv-1")
                 (mkConversationActivity (Some "conv-1")) 1761000000000 Fixtures.user)
              (snd (resolveConnection Fixtures.env Fixtures.user (Some "user-token")
                      1761000000000 (constructor true)))
              (Js.Rejected "upstream unavailable") eq_refl eq_refl)
    as (w' & E & Hreg & _ & _ & _ & _ & Hstarted & _ & _ & _ & Hretry).
  rewrite E. cbn [fst snd].
  split; [reflexivity|]. split; [exact Hreg|].
  destruct (Hretry 2%nat "hello" (Some "user-token") 1761000060000) as (-> & _).
  rewrite Hstarted. reflexivity.
Defined.

(** * Further properties of the middleware *)

(** ** The token store beyond expiry on read *)

(** X1. A token with a decodable numeric [exp] other than 0. When
    [exp * 1000] is the time value of a valid date, the token expires on
    read, in the legacy shape and stored through [storeUserToken]: a read
    up to [exp * 1000] returns the token; a read after it returns
    [undefined] and deletes the record, so that every later read returns
    [undefined]. When [exp * 1000] is not a valid date, the log line that
    formats it throws a RangeError: a legacy token is then returned by
    every read and never deleted, because the catch clause of the legacy
    branch goes on to return it; a token stored through [storeUserToken]
    makes every read throw that RangeError, and its record stays. *)
Theorem token_expiry_on_read (env : Env) (s : string) (e : Z) :
  jwtExp env s = inr (Some (Some (Js.JNum e))) ->
  e <> 0 ->
  (forall u now w,
      userTokens w !! u = Some (Legacy s) ->
      (now <= e * 1000 -> getUserToken env u now w = (Returned (Some s), w))
      /\ (e * 1000 < now ->
          getUserToken env u now w
          = if Js.validTime (Js.Fin (e * 1000))
            then (Returned None, setTokens (delete u) w)
            else (Returned (Some s), w)))
  /\ (forall u t0 now w,
        if Js.validTime (Js.Fin (e * 1000)) then
          (now <= e * 1000 ->
           fst (getUserToken env u now (snd (storeUserToken env u s t0 w)))
           = Returned (Some s))
          /\ (e * 1000 < now ->
              fst (getUserToken env u now (snd (storeUserToken env u s t0 w)))
              = Returned None
              /\ forall now',
                  fst (getUserToken env u now'
                         (snd (getUserToken env u now
                                 (snd (storeUserToken env u s t0 w)))))
                  = Returned None)
        else
          fst (getUserToken env u now (snd (storeUserToken env u s t0 w)))
          = Thrown (Js.RangeError "Invalid time value")
          /\ exists d,
              userTokens (snd (getUserToken env u now
                                 (snd (storeUserToken env u s t0 w)))) !! u
              = Some (Structured d)
              /\ token d = s
              /\ expiresAt d = Some (Js.Fin (e * 1000))).
Proof.
  intros Hjwt He. split.
  - intros u now w Hw.
    destruct (getUserToken_legacy_expiry env u s e now w Hjwt He Hw) as [H1 H2].
    split; assumption.
  - intros u t0 now w.
    destruct (Js.validTime (Js.Fin (e * 1000))) eqn:Hvalid.
    + destruct (store_then_get_expiry env u s e t0 now w Hjwt He Hvalid) as [H1 H2].
      split; [exact H1|]. intros Hnow. destruct (H2 Hnow) as (A & _ & B).
      split; assumption.
    + rewrite (storeUserToken_numeric_exp _ _ _ _ _ _ Hjwt He). cbn [snd].
      set (d := mkTokenData s t0 t0 (Some (Js.Fin (e * 1000)))).
      set (w1 := setTokens (insert u (Structured d)) w).
      assert (Hw1 : userTokens w1 !! u = Some (Structured d)) by apply lookup_insert_eq.
      assert (Hx : e * 1000 <> 0) by lia.
      destruct (getUserToken_structured_expiry env u d (e * 1000) now w1 Hw1 eq_refl Hx)
        as [Hexp Hval].
      rewrite Hvalid in Hexp, Hval.
      destruct (Z.lt_ge_cases (e * 1000) now) as [Hnow|Hnow].
      * rewrite (Hexp Hnow). split; [reflexivity|].
        exists d. split; [exact Hw1|]. split; reflexivity.
      * rewrite (Hval Hnow). split; [reflexivity|].
        eexists. split; [apply lookup_insert_eq|]. split; reflexivity.
Qed.

(** The theorem at a token that expires on 2025-10-16, stored and read in
    the hour before and the half hour after. *)
Lemma token_expiry_on_read_witness :
  jwtExp Fixtures.env Fixtures.tokenExp2025 = inr (Some (Some (Js.JNum 1760648497)))
  /\ fst (getUserToken Fixtures.env Fixtures.user 1760648000000
            (snd (storeUserToken Fixtures.env Fixtures.user Fixtures.tokenExp2025
                    1760644396000 (constructor true))))
     = Returned (Some Fixtures.tokenExp2025)
  /\ fst (getUserToken Fixtures.env Fixtures.user 1760650340000
            (snd (storeUserToken Fixtures.env Fixtures.user Fixtures.tokenExp2025
                    1760644396000 (constructor true))))
     = Returned None.
Proof.
  assert (Hjwt : jwtExp Fixtures.env Fixtures.tokenExp2025
                 = inr (Some (Some (Js.JNum 1760648497)))) by reflexivity.
  assert (He : 1760648497 <> 0) by lia.
  destruct (token_expiry_on_read Fixtures.env Fixtures.tokenExp2025 1760648497 Hjwt He)
    as [_ H].
  split; [exact Hjwt|]. split.
  - pose proof (H Fixtures.user 1760644396000 1760648000000 (constructor true)) as H1.
    change (Js.validTime (Js.Fin (1760648497 * 1000))) with true in H1.
    apply (proj1 H1). lia.
  - pose proof (H Fixtures.user 1760644396000 1760650340000 (constructor true)) as H2.
    change (Js.validTime (Js.Fin (1760648497 * 1000))) with true in H2.
    apply (proj2 H2). lia.
Defined.

(** The expiration that [storeUserToken] derives is [null] when the token
    carries no truthy [exp]. *)
Lemma storeUserToken_no_exp (env : Env) (u s : string) (t0 : Z) (w : World) :
  match jwtExp env s with
  | inr (Some (Some exp)) => Js.truthy (Some exp) = false
  | _ => True
  end ->
  storeUserToken env u s t0 w =
    (Returned tt, setTokens (insert u (Structured (mkTokenData s t0 t0 None))) w).
Proof.
  intros H. unfold storeUserToken.
  destruct (jwtExp env s) as [err|[[exp|]|]]; try reflexivity.
  rewrite H. reflexivity.
Qed.

(** A structured record without expiration is returned by a read at any
    time; the read only stamps [lastUsed]. *)
Lemma getUserToken_no_expiry (env : Env) (u : string) (d : TokenData) (now : Z)
    (w : World) :
  userTokens w !! u = Some (Structured d) ->
  expiresAt d = None ->
  getUserToken env u now w =
    (Returned (Some (token d)),
     setTokens (insert u (Structured (mkTokenData (token d) (storedAt d) now None))) w).
Proof.
  intros Hw Hx. unfold getUserToken, bind at 1, gets. rewrite Hw. cbv iota.
  rewrite Hx. reflexivity.
Qed.

(** [getUserToken] over a list of clock readings. *)
Lemma reads_of_record_without_expiry (env : Env) (u : string) (nows : list Z) :
  forall (d : TokenData) (w : World),
    userTokens w !! u = Some (Structured d) ->
    expiresAt d = None ->
    Forall (fun r => r = Returned (Some (token d)))
      (snd (fold_left
              (fun (acc : World * list (Outcome (option string))) now =>
                 let r := getUserToken env u now (fst acc) in
                 (snd r, fst r :: snd acc))
              nows (w, []))).
Proof.
  assert (G : forall (d : TokenData) (w : World) (done : list (Outcome (option string))),
    userTokens w !! u = Some (Structured d) ->
    expiresAt d = None ->
    Forall (fun r => r = Returned (Some (token d))) done ->
    Forall (fun r => r = Returned (Some (token d)))
      (snd (fold_left
              (fun (acc : World * list (Outcome (option string))) now =>
                 let r := getUserToken env u now (fst acc) in
                 (snd r, fst r :: snd acc))
              nows (w, done)))).
  { induction nows as [|now rest IH]; intros d w done Hw Hx Hdone; [exact Hdone|].
    cbn [fold_left fst snd].
    rewrite (getUserToken_no_expiry env u d now w Hw Hx). cbn [fst snd].
    apply (IH (mkTokenData (token d) (storedAt d) now None)).
    - apply lookup_insert_eq.
    - reflexivity.
    - constructor; [reflexivity | exact Hdone]. }
  intros d w Hw Hx. apply G; [exact Hw | exact Hx | constructor].
Qed.

(** X2. A token that carries no usable expiration (not three segments, a
    payload that does not decode, no [exp], or a falsy [exp]) is stored
    with [expiresAt = null], and then every read returns it, however many
    reads there are and whenever they happen. *)
Theorem token_without_exp_never_expires (env : Env) (s : string) :
  match jwtExp env s with
  | inr (Some (Some exp)) => Js.truthy (Some exp) = false
  | _ => True
  end ->
  forall (u : string) (t0 : Z) (w : World) (nows : list Z),
    userTokens (snd (storeUserToken env u s t0 w)) !! u
    = Some (Structured (mkTokenData s t0 t0 None))
    /\ Forall (fun r => r = Returned (Some s))
         (snd (fold_left
                 (fun (acc : World * list (Outcome (option string))) now =>
                    let r := getUserToken env u now (fst acc) in
                    (snd r, fst r :: snd acc))
                 nows (snd (storeUserToken env u s t0 w), []))).
Proof.
  intros H u t0 w nows.
  rewrite (storeUserToken_no_exp env u s t0 w H). cbn [snd].
  assert (Hw : userTokens (setTokens (insert u (Structured (mkTokenData s t0 t0 None))) w)
               !! u = Some (Structured (mkTokenData s t0 t0 None)))
    by apply lookup_insert_eq.
  split; [exact Hw|].
  exact (reads_of_record_without_expiry env u nows _ _ Hw eq_refl).
Qed.

Lemma token_without_exp_never_expires_witness :
  Forall (fun r => r = Returned (Some "opaque-token"))
    (snd (fold_left
            (fun (acc : World * list (Outcome (option string))) now =>
               let r := getUserToken Fixtures.env Fixtures.user now (fst acc) in
               (snd r, fst r :: snd acc))
            [1761000000000; 1861000000000; 2761000000000]
            (snd (storeUserToken Fixtures.env Fixtures.user "opaque-token"
                    1760000000000 (constructor true)), []))).
Proof.
  assert (H : match jwtExp Fixtures.env "opaque-token" with
              | inr (Some (Some exp)) => Js.truthy (Some exp) = false
              | _ => True
              end) by exact I.
  exact (proj2 (token_without_exp_never_expires Fixtures.env "opaque-token" H
                  Fixtures.user 1760000000000 (constructor true)
                  [1761000000000; 1861000000000; 2761000000000])).
Defined.

(** X3. [revokeUserToken] reports whether the user had a record, removes
    it, leaves the records of the other users and the registry alone, and
    makes the next read of that user return [undefined]. *)
Theorem revokeUserToken_removes_only_that_user (env : Env) (u : string) (w : World) :
  fst (revokeUserToken u w) = Returned (bool_decide (is_Some (userTokens w !! u)))
  /\ userTokens (snd (revokeUserToken u w)) = delete u (userTokens w)
  /\ (forall v, v <> u ->
        userTokens (snd (revokeUserToken u w)) !! v = userTokens w !! v)
  /\ activeConnections (snd (revokeUserToken u w)) = activeConnections w
  /\ serviceTokenCache (snd (revokeUserToken u w)) = serviceTokenCache w
  /\ (forall now,
        getUserToken env u now (snd (revokeUserToken u w))
        = (Returned None, snd (revokeUserToken u w)))
  /\ fst (revokeUserToken u (snd (revokeUserToken u w))) = Returned false.
Proof.
  unfold revokeUserToken, tokensDelete. cbn [fst snd].
  split; [reflexivity|]. split; [reflexivity|]. split.
  { intros v Hv. cbn. by rewrite lookup_delete_ne. }
  split; [reflexivity|]. split; [reflexivity|]. split.
  - intros now. apply getUserToken_absent. cbn. apply lookup_delete_eq.
  - f_equal. apply bool_decide_eq_false. cbn. rewrite lookup_delete_eq.
    intros [x Hx]. discriminate.
Qed.

(** X4. [storeUserToken] overwrites: storing twice for a user leaves the
    world that storing the second token alone leaves; the records of other
    users, the registry and the service-token cache are not touched, and no
    collaborator is asked anything. *)
Theorem storeUserToken_overwrites (env : Env) (u s1 s2 : string) (t1 t2 : Z)
    (w : World) :
  snd (storeUserToken env u s2 t2 (snd (storeUserToken env u s1 t1 w)))
  = snd (storeUserToken env u s2 t2 w)
  /\ fst (storeUserToken env u s1 t1 w) = Returned tt
  /\ (exists d, userTokens (snd (storeUserToken env u s1 t1 w))
                = <[u := Structured d]> (userTokens w)
                /\ token d = s1 /\ storedAt d = t1 /\ lastUsed d = t1)
  /\ (forall v, v <> u ->
        userTokens (snd (storeUserToken env u s1 t1 w)) !! v = userTokens w !! v)
  /\ setTokens (fun _ => userTokens w) (snd (storeUserToken env u s1 t1 w)) = w.
Proof.
  unfold storeUserToken, modify. cbn [fst snd].
  split.
  { unfold setTokens. cbn. f_equal. apply insert_insert_eq. }
  split; [reflexivity|]. split.
  { eexists. split; [reflexivity|]. cbn. by repeat split. }
  split.
  { intros v Hv. cbn. by rewrite lookup_insert_ne. }
  by destruct w.
Qed.

(** ** The token and service-token phases of the janitor *)

(** The connection phase touches nothing but the registry and its record. *)
Lemma cleanupConnections_others (env : Env) (now : Z) (w : World) :
  userTokens (cleanupConnections env now w) = userTokens w
  /\ serviceTokenCache (cleanupConnections env now w) = serviceTokenCache w
  /\ providerRequests (cleanupConnections env now w) = providerRequests w
  /\ questions (cleanupConnections env now w) = questions w.
Proof.
  unfold cleanupConnections. cbv zeta.
  apply (map_fold_weak_ind (fun acc _ =>
    userTokens acc = userTokens w
    /\ serviceTokenCache acc = serviceTokenCache w
    /\ providerRequests acc = providerRequests w
    /\ questions acc = questions w)).
  - by repeat split.
  - intros k c m acc _ IH.
    destruct (connectionTimeoutMs env <? now - lastActivity c); exact IH.
Qed.

(** Whether the token loop removes an entry, given the registry it sees. *)
Lemma cleanupTokens_fold_lookup (now : Z) (w0 : World)
    (m : gmap string TokenEntry) (k : string) :
  userTokens
    (map_fold
       (fun k tokenData acc =>
          let shouldCleanup :=
            match tokenData with
            | Legacy _ =>
                match activeConnections acc !! Some k with
                | None => true
                | Some connection => tokenMaxAge <? now - lastActivity connection
                end
            | Structured d =>
                negb (lastUsed d =? 0) && (tokenMaxAge <? now - lastUsed d)
            end in
          if shouldCleanup then setTokens (delete k) acc else acc)
       w0 m) !! k =
  match m !! k with
  | Some (Legacy _) =>
      match activeConnections w0 !! Some k with
      | None => None
      | Some connection =>
          if tokenMaxAge <? now - lastActivity connection then None
          else userTokens w0 !! k
      end
  | Some (Structured d) =>
      if negb (lastUsed d =? 0) && (tokenMaxAge <? now - lastUsed d) then None
      else userTokens w0 !! k
  | None => userTokens w0 !! k
  end.
Proof.
  revert k.
  apply (map_fold_weak_ind (fun acc m =>
    activeConnections acc = activeConnections w0
    /\ forall k,
      userTokens acc !! k =
      match m !! k with
      | Some (Legacy _) =>
          match activeConnections w0 !! Some k with
          | None => None
          | Some connection =>
              if tokenMaxAge <? now - lastActivity connection then None
              else userTokens w0 !! k
          end
      | Some (Structured d) =>
          if negb (lastUsed d =? 0) && (tokenMaxAge <? now - lastUsed d) then None
          else userTokens w0 !! k
      | None => userTokens w0 !! k
      end)).
  - split; [reflexivity|]. intros k. by rewrite lookup_empty.
  - intros i x m' acc Hfresh [Hconn IH]. cbv zeta. split.
    + destruct x as [s|d].
      * destruct (activeConnections acc !! Some i) as [c|];
          [destruct (tokenMaxAge <? now - lastActivity c)|]; exact Hconn.
      * destruct (negb (lastUsed d =? 0) && (tokenMaxAge <? now - lastUsed d));
          exact Hconn.
    + intros k. destruct (decide (i = k)) as [->|Hne].
      * rewrite lookup_insert_eq. specialize (IH k). rewrite Hfresh in IH.
        destruct x as [s|d].
        -- rewrite Hconn.
           destruct (activeConnections w0 !! Some k) as [c|].
           ++ destruct (tokenMaxAge <? now - lastActivity c).
              ** cbn. apply lookup_delete_eq.
              ** exact IH.
           ++ cbn. apply lookup_delete_eq.
        -- destruct (negb (lastUsed d =? 0) && (tokenMaxAge <? now - lastUsed d)).
           ++ cbn. apply lookup_delete_eq.
           ++ exact IH.
      * rewrite lookup_insert_ne by done. specialize (IH k).
        destruct x as [s|d].
        -- destruct (activeConnections acc !! Some i) as [c|];
             [destruct (tokenMaxAge <? now - lastActivity c)|];
             cbn; rewrite ?lookup_delete_ne by done; exact IH.
        -- destruct (negb (lastUsed d =? 0) && (tokenMaxAge <? now - lastUsed d));
             cbn; rewrite ?lookup_delete_ne by done; exact IH.
Qed.

Lemma cleanupTokens_others (now : Z) (w : World) :
  serviceTokenCache (cleanupTokens now w) = serviceTokenCache w
  /\ providerRequests (cleanupTokens now w) = providerRequests w.
Proof.
  unfold cleanupTokens.
  apply (map_fold_weak_ind (fun acc _ =>
    serviceTokenCache acc = serviceTokenCache w
    /\ providerRequests acc = providerRequests w)).
  - by split.
  - intros k x m acc _ IH. cbv zeta.
    destruct x as [s|d].
    + destruct (activeConnections acc !! Some k) as [c|];
        [destruct (tokenMaxAge <? now - lastActivity c)|]; exact IH.
    + destruct (negb (lastUsed d =? 0) && (tokenMaxAge <? now - lastUsed d));
        exact IH.
Qed.

Lemma cleanupServiceToken_tokens (now : Z) (w : World) :
  userTokens (cleanupServiceToken now w) = userTokens w.
Proof.
  unfold cleanupServiceToken. cbv zeta.
  destruct (JsString.truthyOpt (cache_token (serviceTokenCache w))
            && (cache_expiresAt (serviceTokenCache w) <? now)); reflexivity.
Qed.

(** The token store after [cleanup], entry by entry. *)
Lemma cleanup_tokens_lookup (env : Env) (now : Z) (w : World) (k : string) :
  userTokens (snd (cleanup env now w)) !! k =
  match userTokens w !! k with
  | Some (Structured d) =>
      if negb (lastUsed d =? 0) && (tokenMaxAge <? now - lastUsed d) then None
      else Some (Structured d)
  | Some (Legacy s) =>
      match activeConnections w !! Some k with
      | Some c =>
          if (connectionTimeoutMs env <? now - lastActivity c)
             || (tokenMaxAge <? now - lastActivity c)
          then None else Some (Legacy s)
      | None => None
      end
  | None => None
  end.
Proof.
  unfold cleanup, modify. cbn [snd].
  rewrite cleanupServiceToken_tokens. unfold cleanupTokens.
  rewrite cleanupTokens_fold_lookup.
  destruct (cleanupConnections_others env now w) as (-> & _).
  rewrite cleanupConnections_lookup.
  destruct (userTokens w !! k) as [[s|d]|]; [|reflexivity|reflexivity].
  destruct (activeConnections w !! Some k) as [c|]; [|reflexivity].
  destruct (connectionTimeoutMs env <? now - lastActivity c); [reflexivity|].
  cbn [orb]. destruct (tokenMaxAge <? now - lastActivity c); reflexivity.
Qed.

(** X5. The token sweep of [cleanup] removes exactly these records: a
    structured record whose [lastUsed] is not 0 and more than 24 hours before
    [now]; a legacy string whose user has no session, or whose session has
    been idle for more than the connection timeout (the connection phase
    has then just evicted it) or for more than 24 hours. Every other record
    stays as it was. *)
Theorem cleanup_token_sweep (env : Env) (now : Z) (w : World) (k : string) :
  userTokens (snd (cleanup env now w)) !! k =
  match userTokens w !! k with
  | Some (Structured d) =>
      if negb (lastUsed d =? 0) && (tokenMaxAge <? now - lastUsed d) then None
      else Some (Structured d)
  | Some (Legacy s) =>
      match activeConnections w !! Some k with
      | Some c =>
          if (connectionTimeoutMs env <? now - lastActivity c)
             || (tokenMaxAge <? now - lastActivity c)
          then None else Some (Legacy s)
      | None => None
      end
  | None => None
  end.
Proof. apply cleanup_tokens_lookup. Qed.

(** X6. [cleanup] does not look at the expiration of a token: a structured
    record that has expired but was stored or read within the last 24 hours
    is still in the store after [cleanup]. It is the next read that deals
    with it: when the expiration is a valid date the read returns
    [undefined] and deletes the record; when it is not, the read throws the
    RangeError of its log line and the record stays as it is. *)
Theorem cleanup_keeps_expired_recent_token (env : Env) (now : Z) (w : World)
    (k : string) (d : TokenData) (x : Z) :
  userTokens w !! k = Some (Structured d) ->
  expiresAt d = Some (Js.Fin x) ->
  x <> 0 ->
  x < now ->
  now - lastUsed d <= tokenMaxAge ->
  userTokens (snd (cleanup env now w)) !! k = Some (Structured d)
  /\ if Js.validTime (Js.Fin x) then
       fst (getUserToken env k now (snd (cleanup env now w))) = Returned None
       /\ userTokens (snd (getUserToken env k now (snd (cleanup env now w)))) !! k
          = None
     else
       fst (getUserToken env k now (snd (cleanup env now w)))
       = Thrown (Js.RangeError "Invalid time value")
       /\ userTokens (snd (getUserToken env k now (snd (cleanup env now w)))) !! k
          = Some (Structured d).
Proof.
  intros Hw Hx Hne Hexp Hrecent.
  assert (Hkept : userTokens (snd (cleanup env now w)) !! k = Some (Structured d)).
  { rewrite cleanup_tokens_lookup, Hw.
    assert (E : (tokenMaxAge <? now - lastUsed d) = false) by (apply Z.ltb_ge; lia).
    rewrite E, andb_false_r. reflexivity. }
  split; [exact Hkept|].
  destruct (getUserToken_structured_expiry env k d x now _ Hkept Hx Hne) as [Hdel _].
  rewrite (Hdel Hexp). destruct (Js.validTime (Js.Fin x)).
  - split; [reflexivity|]. cbn. apply lookup_delete_eq.
  - split; [reflexivity | exact Hkept].
Qed.

(** The theorem at a token that expired half an hour before the janitor
    runs and was stored an hour and a half before. *)
Lemma cleanup_keeps_expired_recent_token_witness :
  let w := snd (storeUserToken Fixtures.env Fixtures.user Fixtures.tokenExp2025
                  1760644396000 (constructor true)) in
  userTokens (snd (cleanup Fixtures.env 1760650000000 w)) !! Fixtures.user
  = Some (Structured (mkTokenData Fixtures.tokenExp2025 1760644396000 1760644396000
                        (Some (Js.Fin 1760648497000))))
  /\ fst (getUserToken Fixtures.env Fixtures.user 1760650000000
            (snd (cleanup Fixtures.env 1760650000000 w))) = Returned None.
Proof.
  cbv zeta.
  set (w := snd (storeUserToken Fixtures.env Fixtures.user Fixtures.tokenExp2025
                   1760644396000 (constructor true))).
  assert (Hw : userTokens w !! Fixtures.user
               = Some (Structured (mkTokenData Fixtures.tokenExp2025 1760644396000
                                     1760644396000 (Some (Js.Fin 1760648497000)))))
    by (vm_compute; reflexivity).
  destruct (cleanup_keeps_expired_recent_token Fixtures.env 1760650000000 w
              Fixtures.user _ 1760648497000 Hw eq_refl) as (H1 & H2);
    [lia | lia | vm_compute; discriminate |].
  change (Js.validTime (Js.Fin 1760648497000)) with true in H2.
  split; [exact H1 | exact (proj1 H2)].
Defined.

(** [getServiceToken] reads the cache and the number of provider requests
    made so far, and nothing else. *)
Lemma getServiceToken_frame (env : Env) (now : Z) (w1 w2 : World) :
  serviceTokenCache w1 = serviceTokenCache w2 ->
  providerRequests w1 = providerRequests w2 ->
  fst (getServiceToken env now w1) = fst (getServiceToken env now w2)
  /\ serviceTokenCache (snd (getServiceToken env now w1))
     = serviceTokenCache (snd (getServiceToken env now w2))
  /\ providerRequests (snd (getServiceToken env now w1))
     = providerRequests (snd (getServiceToken env now w2)).
Proof.
  intros Hc Hp.
  destruct (JsString.truthyOpt (cache_token (serviceTokenCache w2))
            && (now <? cache_expiresAt (serviceTokenCache w2) - 300000)) eqn:Hhit.
  - unfold getServiceToken, tryCatch, bind, gets, ret. cbv beta iota.
    rewrite Hc, Hhit. cbn [fst snd]. by repeat split.
  - rewrite (getServiceToken_miss env now w2 Hhit).
    rewrite <- Hc in Hhit. rewrite (getServiceToken_miss env now w1 Hhit).
    cbv zeta. rewrite Hp.
    destruct (acquireTokenByClientCredential env _ _); cbn; rewrite ?Hp;
      by repeat split.
Qed.

(** X7. [cleanup] never changes what [getServiceToken] does afterwards: it
    clears the cache only when the cached token has expired, and such a
    token would not have been used anyway. For every later clock reading
    the call returns the same result, asks the provider the same number of
    times and leaves the same cache, whether or not [cleanup] ran before. *)
Theorem cleanup_transparent_for_getServiceToken (env : Env) (now now' : Z) (w : World) :
  now <= now' ->
  fst (getServiceToken env now' (snd (cleanup env now w)))
  = fst (getServiceToken env now' w)
  /\ serviceTokenCache (snd (getServiceToken env now' (snd (cleanup env now w))))
     = serviceTokenCache (snd (getServiceToken env now' w))
  /\ providerRequests (snd (getServiceToken env now' (snd (cleanup env now w))))
     = providerRequests (snd (getServiceToken env now' w)).
Proof.
  intros Hle. unfold cleanup, modify. cbn [snd].
  set (w2 := cleanupTokens now (cleanupConnections env now w)).
  assert (Hc2 : serviceTokenCache w2 = serviceTokenCache w).
  { subst w2. destruct (cleanupTokens_others now (cleanupConnections env now w)) as [-> _].
    by destruct (cleanupConnections_others env now w) as (_ & -> & _). }
  assert (Hp2 : providerRequests w2 = providerRequests w).
  { subst w2. destruct (cleanupTokens_others now (cleanupConnections env now w)) as [_ ->].
    by destruct (cleanupConnections_others env now w) as (_ & _ & -> & _). }
  unfold cleanupServiceToken. cbv zeta. rewrite Hc2.
  destruct (JsString.truthyOpt (cache_token (serviceTokenCache w))
            && (cache_expiresAt (serviceTokenCache w) <? now)) eqn:Hstale.
  - apply andb_true_iff in Hstale as [Htok Hexp]. apply Z.ltb_lt in Hexp.
    assert (M1 : JsString.truthyOpt (cache_token (serviceTokenCache w))
                 && (now' <? cache_expiresAt (serviceTokenCache w) - 300000) = false).
    { apply andb_false_iff. right. apply Z.ltb_ge. lia. }
    rewrite (getServiceToken_miss env now' w M1).
    rewrite (getServiceToken_miss env now'
               (setServiceTokenCache (mkServiceTokenCache None 0) w2) eq_refl).
    cbv zeta. cbn [providerRequests setServiceTokenCache]. rewrite Hp2.
    destruct (acquireTokenByClientCredential env _ _); cbn; rewrite ?Hp2;
      by repeat split.
  - apply getServiceToken_frame; assumption.
Qed.

Lemma cleanup_transparent_for_getServiceToken_witness :
  fst (getServiceToken Fixtures.env 1761003700000
         (snd (cleanup Fixtures.env 1761003650000 Fixtures.withServiceToken)))
  = fst (getServiceToken Fixtures.env 1761003700000 Fixtures.withServiceToken)
  /\ serviceTokenCache (snd (cleanup Fixtures.env 1761003650000 Fixtures.withServiceToken))
     = mkServiceTokenCache None 0.
Proof.
  assert (H : 1761003650000 <= 1761003700000) by lia.
  split.
  - exact (proj1 (cleanup_transparent_for_getServiceToken Fixtures.env _ _
                    Fixtures.withServiceToken H)).
  - vm_compute. reflexivity.
Defined.

(** X8. A failure of the identity provider is not cached: when the cache
    has no usable token and the provider rejects, [getServiceToken] throws
    that rejection and clears the cache, and the next call, at any time,
    asks the provider again and returns what it then answers. *)
Theorem getServiceToken_failure_not_cached (env : Env) (now : Z) (w : World)
    (e : Js.Error) :
  JsString.truthyOpt (cache_token (serviceTokenCache w))
    && (now <? cache_expiresAt (serviceTokenCache w) - 300000) = false ->
  acquireTokenByClientCredential env (length (providerRequests w)) (oauth_scope env)
  = ProviderRejects e ->
  getServiceToken env now w
  = (Thrown e,
     setServiceTokenCache (mkServiceTokenCache None 0)
       (logProviderRequest (oauth_scope env) w))
  /\ forall now2,
      providerRequests (snd (getServiceToken env now2 (snd (getServiceToken env now w))))
      = oauth_scope env :: oauth_scope env :: providerRequests w
      /\ forall t x,
          acquireTokenByClientCredential env (S (length (providerRequests w)))
            (oauth_scope env) = ProviderResolves t x ->
          fst (getServiceToken env now2 (snd (getServiceToken env now w)))
          = Returned t.
Proof.
  intros Hmiss Hrej.
  assert (E : getServiceToken env now w
              = (Thrown e,
                 setServiceTokenCache (mkServiceTokenCache None 0)
                   (logProviderRequest (oauth_scope env) w))).
  { rewrite (getServiceToken_miss env now w Hmiss). cbv zeta. by rewrite Hrej. }
  split; [exact E|]. intros now2. rewrite E. cbn [snd].
  rewrite (getServiceToken_miss env now2
             (setServiceTokenCache (mkServiceTokenCache None 0)
                (logProviderRequest (oauth_scope env) w)) eq_refl). cbv zeta.
  cbn [providerRequests setServiceTokenCache logProviderRequest length].
  split.
  - destruct (acquireTokenByClientCredential env (S (length (providerRequests w)))
                (oauth_scope env)); reflexivity.
  - intros t x Hp. rewrite Hp. reflexivity.
Qed.

(** The theorem for a provider that rejects the first request and answers
    the second. *)
Lemma getServiceToken_failure_not_cached_witness :
  fst (getServiceToken Samples.flakyProviderEnv 0 (constructor false))
  = Thrown (Js.Rejected "AADSTS50196")
  /\ fst (getServiceToken Samples.flakyProviderEnv 5
            (snd (getServiceToken Samples.flakyProviderEnv 0 (constructor false))))
     = Returned "service-token".
Proof.
  destruct (getServiceToken_failure_not_cached Samples.flakyProviderEnv 0
              (constructor false) (Js.Rejected "AADSTS50196") eq_refl eq_refl)
    as [E H].
  split.
  - rewrite E. reflexivity.
  - exact (proj2 (H 5) "service-token" None eq_refl).
Defined.

(** ** Statistics, activity stamps and the creation of sessions *)

(** X9. [getStats] reports as many connections as it lists, and lists
    exactly the sessions of the registry: a user id with a [lastActivity]
    and a conversation flag is listed if and only if the registry holds for
    that user a session with that [lastActivity] and with a conversation id
    that is, or is not, a non-empty string. *)
Theorem getStats_lists_the_registry (w : World) :
  fst (getStats w) = length (snd (getStats w))
  /\ forall k la b,
      In (k, la, b) (snd (getStats w)) <->
      exists c, activeConnections w !! k = Some c
                /\ la = lastActivity c
                /\ b = JsString.truthyOpt (conversationId c).
Proof.
  unfold getStats. cbn [fst snd]. split.
  - rewrite length_map. symmetry. apply length_map_to_list.
  - intros k la b. rewrite in_map_iff. split.
    + intros ([k' c] & Heq & Hin). injection Heq as -> <- <-.
      exists c. split; [|by split].
      apply elem_of_map_to_list. by apply list_elem_of_In.
    + intros (c & Hc & -> & ->). exists (k, c). split; [reflexivity|].
      apply list_elem_of_In. by apply elem_of_map_to_list.
Qed.

(** The registry after [cleanup], entry by entry. *)
Lemma cleanup_connections_lookup (env : Env) (now : Z) (w : World) (k : UserKey) :
  activeConnections (snd (cleanup env now w)) !! k =
  match activeConnections w !! k with
  | Some c => if connectionTimeoutMs env <? now - lastActivity c then None else Some c
  | None => None
  end.
Proof.
  unfold cleanup, modify. cbn [snd].
  rewrite cleanupServiceToken_connections, cleanupTokens_connections.
  apply cleanupConnections_lookup.
Qed.

(** The registry after the janitor has fired at [ticks]: a session is gone
    when one of the ticks found it idle for more than the timeout. *)
Lemma janitorTicks_spec (env : Env) (ticks : list Z) :
  forall w,
    exists w',
      janitorTicks env ticks w = (Returned tt, w')
      /\ forall k,
          activeConnections w' !! k =
          match activeConnections w !! k with
          | Some c =>
              if existsb (fun tick => connectionTimeoutMs env <? tick - lastActivity c)
                   ticks
              then None else Some c
          | None => None
          end.
Proof.
  induction ticks as [|tick rest IH]; intros w.
  - exists w. split; [reflexivity|]. intros k.
    destruct (activeConnections w !! k); reflexivity.
  - unfold janitorTicks. cbn [forEach]. unfold bind at 1.
    assert (E : cleanup env tick w = (Returned tt, snd (cleanup env tick w)))
      by reflexivity.
    rewrite E.
    destruct (IH (snd (cleanup env tick w))) as (w' & Hrun & Hlook).
    exists w'. split; [exact Hrun|]. intros k.
    rewrite Hlook, cleanup_connections_lookup.
    destruct (activeConnections w !! k) as [c|]; [|reflexivity].
    cbn [existsb].
    destruct (connectionTimeoutMs env <? tick - lastActivity c); reflexivity.
Qed.

Lemma askQuestionDuring_spec (env : Env) (ticks : list Z) (c : Connection)
    (text : string) (w : World) :
  exists w',
    janitorTicks env ticks
      (logQuestion (mkQuestion (client c) text (conversationId c)) w)
    = (Returned tt, w')
    /\ askQuestionDuring env ticks c text w
       = match askQuestionAsync env (length (questions w)) (client c) text
                 (conversationId c) with
         | AskRejects e => (Thrown e, w')
         | AskResolves replies => (Returned replies, w')
         end.
Proof.
  destruct (janitorTicks_spec env ticks
              (logQuestion (mkQuestion (client c) text (conversationId c)) w))
    as (w' & Hrun & _).
  exists w'. split; [exact Hrun|].
  unfold askQuestionDuring, bind, gets, modify. rewrite Hrun.
  destruct (askQuestionAsync env (length (questions w)) (client c) text
              (conversationId c)); reflexivity.
Qed.

Lemma sendMessageDuring_unfold (env : Env) (ticks : list Z) (fuel : nat)
    (u text : string) (tok : option string) (now : Z) (w : World) :
  sendMessageDuring env ticks fuel u text tok now w =
    match postThinkingMessage env u w with
    | (Returned tm, w0) =>
        match resolveConnection env u tok now w0 with
        | (Returned conn, w1) =>
            match askQuestionDuring env ticks conn text w1 with
            | (Returned replies, w2) =>
                match resolveReply env fuel u replies w2 with
                | (Returned reply, w3) =>
                    match updateIfThinking env tm reply w3 with
                    | (Returned _, w4) =>
                        (Returned EmptyString, snd (touchConnection u now w4))
                    | (Thrown e, w4) => turnFailed env tm e w4
                    | (Unfinished, w4) => (Unfinished, w4)
                    end
                | (Thrown e, w3) => turnFailed env tm e w3
                | (Unfinished, w3) => (Unfinished, w3)
                end
            | (Thrown e, w2) => turnFailed env tm e w2
            | (Unfinished, w2) => (Unfinished, w2)
            end
        | (Thrown e, w1) => turnFailed env tm e w1
        | (Unfinished, w1) => (Unfinished, w1)
        end
    | (Thrown e, w0) => (Thrown e, w0)
    | (Unfinished, w0) => (Unfinished, w0)
    end.
Proof.
  unfold sendMessageDuring, resolveConnection, turnFailed.
  cbv [bind tryCatch gets ret throw].
  destruct (postThinkingMessage env u w) as [[tm|e|] w0]; try reflexivity.
  destruct (activeConnections w0 !! Some u) as [c|].
  - destruct (askQuestionDuring env ticks c text w0) as [[replies|e|] w2];
      try reflexivity.
    destruct (resolveReply env fuel u replies w2) as [[reply|e|] w3]; try reflexivity.
    destruct (updateIfThinking env tm reply w3) as [[[]|e|] w4]; reflexivity.
  - destruct (createUserConnection env u tok now w0) as [[c|e|] w1]; try reflexivity.
    destruct (askQuestionDuring env ticks c text w1) as [[replies|e|] w2];
      try reflexivity.
    destruct (resolveReply env fuel u replies w2) as [[reply|e|] w3]; try reflexivity.
    destruct (updateIfThinking env tm reply w3) as [[[]|e|] w4]; reflexivity.
Qed.

(** X10. The stamp of a turn and the janitor. Take a run of [sendMessage]
    in which the janitor fires at the clock readings [ticks] while the turn
    awaits the answer of the agent, and in which the turn returns; with no
    tick this is [sendMessage] itself. Let [c] be the session that the turn
    works with, found in the registry or created by the turn. When no tick
    finds [c] idle for more than the connection timeout, the registry holds
    [c] stamped with the time of the turn after the turn, and that session
    survives every [cleanup] that runs later at a time [now'] with
    [now' - now] at most the timeout. When a tick finds [c] idle for more
    than the timeout it evicts [c], and the turn, although it returns, does
    not put it back: the stamp goes to an object that the registry no
    longer holds, and the user is left without a session. *)
Theorem sendMessage_touches_session (env : Env) (ticks : list Z) (fuel : nat)
    (u text : string) (tok : option string) (now : Z) (w w' : World) (t : string) :
  sendMessageDuring env ticks fuel u text tok now w = (Returned t, w') ->
  (forall w0, sendMessageDuring env [] fuel u text tok now w0
              = sendMessage env fuel u text tok now w0)
  /\ exists c,
       fst (resolveConnection env u tok now w) = Returned c
       /\ if existsb (fun tick => connectionTimeoutMs env <? tick - lastActivity c)
               ticks
          then activeConnections w' !! Some u = None
          else
            activeConnections w' !! Some u
            = Some (mkConnection (client c) (conversationId c)
                      (conversationActivity c) now (connection_userId c))
            /\ forall now',
                now' - now <= connectionTimeoutMs env ->
                activeConnections (snd (cleanup env now' w')) !! Some u
                = Some (mkConnection (client c) (conversationId c)
                          (conversationActivity c) now (connection_userId c)).
Proof.
  intros H. split.
  { intros w0. reflexivity. }
  rewrite sendMessageDuring_unfold in H.
  destruct (postThinkingMessage_spec env u w) as (tm & w0 & Hpost & F0 & Q0 & _).
  rewrite Hpost in H.
  rewrite (onlyAsks_withSlackCalls _ _ F0 Q0) in H.
  rewrite resolveConnection_withSlackCalls in H.
  destruct (resolveConnection env u tok now w) as [[conn|e|] w1] eqn:HR;
    cbn [fst snd] in H.
  2:{ match type of H with
      | turnFailed env tm e ?x = _ =>
          destruct (turnFailed_spec env tm e x) as (wf & Hf & _)
      end. rewrite Hf in H. discriminate. }
  2:{ discriminate. }
  pose proof (resolveConnection_registered _ _ _ _ _ _ _ HR) as Hreg.
  exists conn. split; [reflexivity|].
  set (w1' := withSlackCalls (slackCalls w0) w1) in *.
  destruct (askQuestionDuring_spec env ticks conn text w1') as (w2 & Hticks & Eask).
  rewrite Eask in H.
  destruct (janitorTicks_spec env ticks
              (logQuestion (mkQuestion (client conn) text (conversationId conn)) w1'))
    as (w2' & Hticks' & Hlook).
  rewrite Hticks in Hticks'. injection Hticks' as <-.
  specialize (Hlook (Some u)).
  change (activeConnections
            (logQuestion (mkQuestion (client conn) text (conversationId conn)) w1'))
    with (activeConnections w1) in Hlook.
  rewrite Hreg in Hlook.
  destruct (askQuestionAsync env (length (questions w1')) (client conn) text
              (conversationId conn)) as [e|replies].
  { destruct (turnFailed_spec env tm e w2) as (wf & Hf & _).
    rewrite Hf in H. discriminate. }
  pose proof (resolveReply_onlyAsks env fuel u replies w2) as F3.
  destruct (resolveReply env fuel u replies w2) as [[reply|e|] w3]; cbn [snd] in F3.
  2:{ destruct (turnFailed_spec env tm e w3) as (wf & Hf & _).
      rewrite Hf in H. discriminate. }
  2:{ discriminate. }
  destruct (updateIfThinking_spec env tm reply w3) as (w4 & Hu & F4 & _).
  rewrite Hu in H. injection H as _ <-.
  pose proof (onlyAsks_trans _ _ _ F3 F4) as (A1 & _).
  unfold touchConnection, modify. cbn [snd activeConnections setConnections].
  destruct (existsb (fun tick => connectionTimeoutMs env <? tick - lastActivity conn)
              ticks).
  - rewrite lookup_alter_eq, A1, Hlook. reflexivity.
  - assert (Hc : alter
                   (fun c => mkConnection (client c) (conversationId c)
                               (conversationActivity c) now (connection_userId c))
                   (Some u) (activeConnections w4) !! Some u
                 = Some (mkConnection (client conn) (conversationId conn)
                           (conversationActivity conn) now (connection_userId conn))).
    { rewrite lookup_alter_eq, A1, Hlook. reflexivity. }
    split; [exact Hc|].
    intros now' Hnow'.
    rewrite cleanup_connections_lookup.
    cbn [activeConnections setConnections]. rewrite Hc. cbn [lastActivity].
    assert (E : (connectionTimeoutMs env <? now' - now) = false)
      by (apply Z.ltb_ge; lia).
    rewrite E. reflexivity.
Qed.

(** The theorem at a turn of a user whose session has been idle for more
    than two hours, during which the janitor fires once: the turn returns
    and the registry is left without a session for the user. *)
Lemma sendMessage_touches_session_witness :
  fst (sendMessageDuring Fixtures.env [1761007250000] 2 Fixtures.user "hello" None
         1761007300000 Fixtures.withSession) = Returned EmptyString
  /\ activeConnections
       (snd (sendMessageDuring Fixtures.env [1761007250000] 2 Fixtures.user "hello"
               None 1761007300000 Fixtures.withSession)) !! Some Fixtures.user
     = None.
Proof.
  assert (H : sendMessageDuring Fixtures.env [1761007250000] 2 Fixtures.user "hello"
                None 1761007300000 Fixtures.withSession
              = (Returned EmptyString,
                 snd (sendMessageDuring Fixtures.env [1761007250000] 2 Fixtures.user
                        "hello" None 1761007300000 Fixtures.withSession)))
    by (vm_compute; reflexivity).
  destruct (sendMessage_touches_session _ _ _ _ _ _ _ _ _ _ H)
    as (_ & c & Hc & Hreg).
  split; [rewrite H; reflexivity|].
  assert (Hs : fst (resolveConnection Fixtures.env Fixtures.user None 1761007300000
                      Fixtures.withSession) = Returned Fixtures.session)
    by (vm_compute; reflexivity).
  rewrite Hs in Hc. injection Hc as <-.
  exact Hreg.
Defined.

(** X11. [newConversation] drops the session of the user before it
    creates the new one, and creates it with the service token, never with
    a token of the user. So on success the registry holds for the user a
    fresh session, stamped [now], whose client carries what
    [getServiceToken] returns; on failure the user is left without any
    session. The token store is not touched. *)
Theorem newConversation_fresh_or_none (env : Env) (u : string) (now : Z) (w : World) :
  match newConversation env u now w with
  | (Returned c, w') =>
      activeConnections w' !! Some u = Some c
      /\ lastActivity c = now
      /\ connection_userId c = u
      /\ fst (getServiceToken env now w) = Returned (clientToken (client c))
      /\ userTokens w' = userTokens w
  | (Thrown e, w') =>
      activeConnections w' !! Some u = None
      /\ errorOrigin env e
      /\ userTokens w' = userTokens w
  | (Unfinished, _) => False
  end.
Proof.
  unfold newConversation, connectionsDelete. unfold bind at 1.
  set (w1 := logRegistryOp (RegDelete (Some u)) (setConnections (delete (Some u)) w)).
  assert (Hgone : activeConnections w1 !! Some u = None) by (cbn; apply lookup_delete_eq).
  destruct (getServiceToken_frame env now w1 w eq_refl eq_refl) as (Hfst & _ & _).
  pose proof (createUserConnection_effect env u None now w1) as HE.
  pose proof (createUserConnection_spec env u None now w1) as HS.
  cbn [JsString.truthyOpt] in HS. cbv iota in HS.
  unfold bind, ret.
  destruct (createUserConnection env u None now w1) as [[c|e|] w'].
  - destruct HE as (H1 & _ & _ & H4 & _).
    split; [rewrite H1; apply lookup_insert_eq|].
    rewrite <- Hfst.
    destruct (getServiceToken env now w1) as [[t|e|] w2]; [|discriminate|discriminate].
    destruct (startConversationAsync env _ _) as [e|a]; [discriminate|].
    cbv zeta in HS. injection HS as -> _. cbn. by repeat split.
  - destruct HE as (H1 & _ & H3 & _ & _ & _ & _ & H8).
    split; [rewrite H1; exact Hgone|]. by split.
  - exact HE.
Qed.

(** X12. Which token a new connection uses. A non-empty user token is
    used as it is: the identity provider is not asked, the service-token
    cache is not touched, and the conversation is started with a client
    that carries the user token. An empty user token counts as none; then
    the client of a connection that gets created carries the token that
    [getServiceToken] returns. *)
Theorem createUserConnection_token_choice (env : Env) (u : string) (now : Z)
    (w : World) :
  (forall t,
      JsString.truthy t = true ->
      providerRequests (snd (createUserConnection env u (Some t) now w))
      = providerRequests w
      /\ serviceTokenCache (snd (createUserConnection env u (Some t) now w))
         = serviceTokenCache w
      /\ startedConversations (snd (createUserConnection env u (Some t) now w))
         = mkClient t :: startedConversations w
      /\ forall c,
          fst (createUserConnection env u (Some t) now w) = Returned c ->
          clientToken (client c) = t)
  /\ createUserConnection env u (Some EmptyString) now w
     = createUserConnection env u None now w
  /\ forall c,
      fst (createUserConnection env u None now w) = Returned c ->
      fst (getServiceToken env now w) = Returned (clientToken (client c)).
Proof.
  split; [|split].
  - intros t Ht. rewrite createUserConnection_spec.
    cbn [JsString.truthyOpt]. rewrite Ht. cbn [default].
    destruct (startConversationAsync env _ _) as [e|a]; cbv zeta; cbn;
      (split; [reflexivity|]); (split; [reflexivity|]); (split; [reflexivity|]);
      intros c; [discriminate|]. by intros [= <-].
  - rewrite !createUserConnection_spec. reflexivity.
  - intros c. rewrite createUserConnection_spec. cbn [JsString.truthyOpt]. cbv iota.
    destruct (getServiceToken env now w) as [[t|e|] w1]; [|discriminate|discriminate].
    destruct (startConversationAsync env _ _) as [e|a]; [discriminate|].
    cbv zeta. cbn. by intros [= <-].
Qed.

(** X13. A turn for a user who has a session does not look at the token it
    is given: whatever two tokens are passed, the two turns return the same
    result and leave the same world. *)
Theorem sendMessage_ignores_token_with_session (env : Env) (fuel : nat)
    (u text : string) (tok1 tok2 : option string) (now : Z) (w : World)
    (c : Connection) :
  activeConnections w !! Some u = Some c ->
  sendMessage env fuel u text tok1 now w = sendMessage env fuel u text tok2 now w.
Proof.
  intros Hc. rewrite !sendMessage_unfold.
  destruct (postThinkingMessage_spec env u w) as (tm & w0 & -> & F0 & _ & _).
  assert (Hc0 : activeConnections w0 !! Some u = Some c).
  { destruct F0 as (-> & _). exact Hc. }
  assert (HR : forall tok, resolveConnection env u tok now w0 = (Returned c, w0)).
  { intros tok. unfold resolveConnection, bind, gets. rewrite Hc0. reflexivity. }
  rewrite !HR. reflexivity.
Qed.

Lemma sendMessage_ignores_token_with_session_witness :
  sendMessage Fixtures.env 2 Fixtures.user "hello" (Some "another-token")
    1761000000000 Fixtures.withSession
  = sendMessage Fixtures.env 2 Fixtures.user "hello" None
      1761000000000 Fixtures.withSession.
Proof.
  apply (sendMessage_ignores_token_with_session Fixtures.env 2 Fixtures.user "hello"
           (Some "another-token") None 1761000000000 Fixtures.withSession
           Fixtures.session).
  vm_compute. reflexivity.
Defined.

(** ** The thinking message *)

Lemma stripPrefix_append (p x : string) : JsString.stripPrefix p (p +:+ x) = Some x.
Proof.
  induction p as [|a p IH]; [by destruct x|].
  rewrite append_cons. cbn [JsString.stripPrefix].
  rewrite Ascii.eqb_refl. exact IH.
Qed.

Lemma replace_prefix (p x : string) : JsString.replace p EmptyString (p +:+ x) = x.
Proof.
  assert (H : forall s, JsString.replace p EmptyString s =
    match JsString.stripPrefix p s with
    | Some rest => EmptyString +:+ rest
    | None =>
        match s with
        | EmptyString => EmptyString
        | String ch s' => String ch (JsString.replace p EmptyString s')
        end
    end) by (intros s; destruct s; reflexivity).
  rewrite H, stripPrefix_append. reflexivity.
Qed.

(** X14. The thinking message goes to the Slack user behind the user id:
    for a user id ["slack_" + x], with a chat client, [postThinkingMessage]
    makes one request, a post of the thinking text to channel [x], and
    returns the timestamp and channel of the answer, or [null] when the
    post fails. Without a chat client it asks nothing and returns [null].
    It never throws. *)
Theorem postThinkingMessage_channel (env : Env) (x : string) (w : World) :
  (slackClient w = true ->
   postThinkingMessage env ("slack_" +:+ x) w
   = (Returned
        match chat_postMessage env (length (slackCalls w)) x
                ":thinking_face: Thinking..." with
        | inr r => Some (mkPostResult (post_ts r) (post_channel r))
        | inl _ => None
        end,
      logSlackCall (ChatPostMessage x ":thinking_face: Thinking...") w))
  /\ (slackClient w = false ->
      forall u, postThinkingMessage env u w = (Returned None, w))
  /\ forall u e, fst (postThinkingMessage env u w) <> Thrown e.
Proof.
  split; [|split].
  - intros Hc. unfold postThinkingMessage, bind, gets, modify, ret.
    rewrite Hc. cbn [negb]. rewrite replace_prefix.
    destruct (chat_postMessage env _ _ _) as [e|[ts ch]]; reflexivity.
  - intros Hc u. unfold postThinkingMessage, bind, gets, ret. rewrite Hc.
    reflexivity.
  - intros u e.
    destruct (postThinkingMessage_spec env u w) as (tm & w0 & -> & _).
    discriminate.
Qed.

(** ** The classification of fragments, piecewise *)

(** X15. Classifying a reply that comes in two parts: the collected text
    is the text of the first part followed by the text of the second, and
    the consent card and the sign-in card are those of the second part when
    it has one, else those of the first (the last one wins). *)
Theorem classify_app (r1 r2 : list Activity) :
  responseText (classify (r1 ++ r2))
  = responseText (classify r1) +:+ responseText (classify r2)
  /\ consentCard (classify (r1 ++ r2))
     = match consentCard (classify r2) with
       | Some c => Some c
       | None => consentCard (classify r1)
       end
  /\ userSignInCard (classify (r1 ++ r2))
     = match userSignInCard (classify r2) with
       | Some c => Some c
       | None => userSignInCard (classify r1)
       end.
Proof.
  unfold classify. rewrite fold_left_app.
  rewrite (classify_fold r2 (fold_left classifyActivity r1 _)).
  rewrite (classify_fold r2 (mkClassified EmptyString None None)).
  cbn [responseText consentCard userSignInCard].
  split; [reflexivity|].
  split; destruct (capturedConsentCard r2), (capturedSignInCard r2); reflexivity.
Qed.

(** * Properties of the SAML handler, the chat bot and the OAuth routes *)

(** ** The SAML handler *)

(** X16. Whatever the SAML configuration and the user, [canSkipOAuthForUser]
    answers that OAuth cannot be skipped, with no user info and no error:
    the profile lookup it relies on finds no profile. The action it reports
    is ["oauth_required"] when SAML is disabled or explicit OAuth is
    required, and ["oauth_required_no_profile"] otherwise; whether SAML
    assertions are trusted changes nothing. *)
Theorem canSkipOAuthForUser_never_skips (config : Saml.Config) (slackUserId : string) :
  Saml.canSkipOAuth (Saml.canSkipOAuthForUser config slackUserId) = false
  /\ Saml.userInfo (Saml.canSkipOAuthForUser config slackUserId) = None
  /\ Saml.error (Saml.canSkipOAuthForUser config slackUserId) = None
  /\ Saml.action (Saml.canSkipOAuthForUser config slackUserId)
     = (if Saml.enabled config && negb (Saml.requireExplicitOAuth config)
        then "oauth_required_no_profile" else "oauth_required")
  /\ Saml.canSkipOAuthForUser config slackUserId
     = Saml.canSkipOAuthForUser
         (Saml.mkConfig (Saml.enabled config)
            (negb (Saml.trustSamlAssertions config))
            (Saml.requireExplicitOAuth config)) slackUserId.
Proof.
  destruct config as [[] [] []]; repeat split; reflexivity.
Qed.

(** ** The message handler of the chat bot *)

Lemma liftRelay_spec {X} (m : M X) (a : AppWorld) :
  liftRelay m a = (fst (m (relay a)), setRelay (snd (m (relay a))) a).
Proof. unfold liftRelay. destruct (m (relay a)); reflexivity. Qed.

Lemma samlBranch_spec (env : AppEnv) (storedToken : option string) (a : AppWorld) :
  samlBranch env storedToken a = (Returned storedToken, a).
Proof.
  unfold samlBranch.
  destruct (negb (JsString.truthyOpt storedToken) && Saml.enabled (samlConfig env));
    reflexivity.
Qed.

Lemma showTypingIndicator_spec (env : AppEnv) (channel : string) (a : AppWorld) :
  showTypingIndicator env channel a = (Returned tt, logTyping channel a).
Proof.
  unfold showTypingIndicator.
  destruct (conversations_typing env (length (typingCalls a)) channel); reflexivity.
Qed.

(** A turn that returns, returns the empty text. *)
Lemma sendMessage_returned_text (env : Env) (fuel : nat) (u text : string)
    (tok : option string) (now : Z) (w w' : World) (t : string) :
  sendMessage env fuel u text tok now w = (Returned t, w') -> t = EmptyString.
Proof.
  rewrite sendMessage_unfold.
  destruct (postThinkingMessage env u w) as [[tm|e|] w0]; try discriminate.
  destruct (resolveConnection env u tok now w0) as [[conn|e|] w1].
  2:{ destruct (turnFailed_spec env tm e w1) as (wf & -> & _). discriminate. }
  2:{ discriminate. }
  destruct (askQuestion env conn text w1) as [[replies|e|] w2].
  2:{ destruct (turnFailed_spec env tm e w2) as (wf & -> & _). discriminate. }
  2:{ discriminate. }
  destruct (resolveReply env fuel u replies w2) as [[reply|e|] w3].
  2:{ destruct (turnFailed_spec env tm e w3) as (wf & -> & _). discriminate. }
  2:{ discriminate. }
  destruct (updateIfThinking env tm reply w3) as [[[]|e|] w4].
  2:{ destruct (turnFailed_spec env tm e w4) as (wf & -> & _). discriminate. }
  2:{ discriminate. }
  intros [= <- _]. reflexivity.
Qed.

(** What saying a reply and the catch clause of the handler do. *)
Lemma sayA_spec (env : AppEnv) (reply : BotReply) (a : AppWorld) :
  sayA env reply a = (Returned tt, logSaid reply a)
  \/ exists e, sayA env reply a = (Thrown e, logSaid reply a).
Proof.
  unfold sayA. destruct (say env (length (said a)) reply) as [e|[]];
    [right; exists e|left]; reflexivity.
Qed.

Lemma apology_spec (env : AppEnv) (a : AppWorld) :
  tryCatchA (sayA env (SayText msgTurnError)) (fun sayError => retA tt) a
  = (Returned tt, logSaid (SayText msgTurnError) a).
Proof.
  unfold tryCatchA, sayA, retA.
  destruct (say env (length (said a)) (SayText msgTurnError)) as [e|[]]; reflexivity.
Qed.

(** The turn of the handler for a message that is answered: the typing
    indicator, the turn of the middleware and the reply. *)
Lemma answer_spec (env : AppEnv) (fuel : nat) (channel userId text : string)
    (tok : option string) (now : Z) (a : AppWorld) :
  exists r w,
    (showTypingIndicator env channel ~;;
     response <~ liftRelay (sendMessage (relayEnv env) fuel userId text tok now) ;;
     sayIfText env response) a
    = (r, setRelay w (logTyping channel a))
    /\ w = snd (sendMessage (relayEnv env) fuel userId text tok now (relay a))
    /\ match fst (sendMessage (relayEnv env) fuel userId text tok now (relay a)) with
       | Returned _ => r = Returned tt
       | Thrown e => r = Thrown e
       | Unfinished => r = Unfinished
       end.
Proof.
  unfold bindA. rewrite showTypingIndicator_spec, liftRelay_spec.
  cbn [relay logTyping].
  destruct (sendMessage (relayEnv env) fuel userId text tok now (relay a))
    as [[t|e|] w] eqn:HS; cbn [fst snd].
  - apply sendMessage_returned_text in HS. subst t.
    eexists _, _. split; [reflexivity|]. split; reflexivity.
  - eexists _, _. split; [reflexivity|]. split; reflexivity.
  - eexists _, _. split; [reflexivity|]. split; reflexivity.
Qed.

(** X17. The message handler always returns, and the agent's reply is never
    among what it says: for a world of the middleware without a session
    under the key [undefined] and enough fuel, the handler returns
    normally, and what it said in the conversation is nothing, the
    authentication link, the apology, or the authentication link followed
    by the apology. The reply of the agent reaches the user through the
    thinking message only, because a successful turn returns the empty
    text. *)
Theorem onMessage_says_only_link_or_apology (env : AppEnv) (fuel : nat)
    (message : SlackMessage) (now : Z) (a : AppWorld) :
  noUndefinedKey (relay a) ->
  let link :=
    SayAuthenticationLink
      (authBaseUrl env +:+ "/auth/login/" +:+ message_user message) in
  let apology := SayText msgTurnError in
  fst (onMessage env (S (S fuel)) message now a) = Returned tt
  /\ (said (snd (onMessage env (S (S fuel)) message now a)) = said a
      \/ said (snd (onMessage env (S (S fuel)) message now a)) = link :: said a
      \/ said (snd (onMessage env (S (S fuel)) message now a)) = apology :: said a
      \/ said (snd (onMessage env (S (S fuel)) message now a))
         = apology :: link :: said a).
Proof.
  intros Hkey link apology.
  assert (Hanswer : forall tok (a0 : AppWorld),
             noUndefinedKey (relay a0) -> said a0 = said a ->
             exists a1,
               tryCatchA
                 (showTypingIndicator env (message_channel message) ~;;
                  response <~ liftRelay
                    (sendMessage (relayEnv env) (S (S fuel))
                       ("slack_" +:+ message_user message) (message_text message)
                       tok now) ;;
                  sayIfText env response)
                 (fun error =>
                    tryCatchA (sayA env (SayText msgTurnError))
                      (fun sayError => retA tt)) a0
               = (Returned tt, a1)
               /\ (said a1 = said a \/ said a1 = apology :: said a)).
  { intros tok a0 Hk0 Hs0. unfold tryCatchA at 1.
    destruct (answer_spec env (S (S fuel)) (message_channel message)
                ("slack_" +:+ message_user message) (message_text message) tok now a0)
      as (r & w & -> & _ & Hr).
    destruct (sendMessage_bounded (relayEnv env) fuel
                ("slack_" +:+ message_user message) (message_text message) tok now
                (relay a0) Hk0) as (Hfin & _).
    destruct (fst (sendMessage (relayEnv env) (S (S fuel))
                     ("slack_" +:+ message_user message) (message_text message)
                     tok now (relay a0))) as [t|e|]; subst r.
    - eexists. split; [reflexivity|]. left. exact Hs0.
    - cbv beta iota. rewrite apology_spec. eexists. split; [reflexivity|]. right.
      cbn [said logSaid setRelay logTyping]. by rewrite Hs0.
    - by destruct Hfin. }
  assert (H : exists a1,
             onMessage env (S (S fuel)) message now a = (Returned tt, a1)
             /\ (said a1 = said a \/ said a1 = link :: said a
                 \/ said a1 = apology :: said a
                 \/ said a1 = apology :: link :: said a)).
  2:{ destruct H as (a1 & -> & H). split; [reflexivity | exact H]. }
  unfold onMessage.
  destruct (isSkipped message).
  { eexists. split; [reflexivity|]. left. reflexivity. }
  destruct (requireAuth env).
  2:{ destruct (Hanswer None a Hkey eq_refl) as (a1 & -> & H2).
      eexists. split; [reflexivity|].
      destruct H2 as [H2|H2]; [left|right; right; left]; exact H2. }
  pose proof (getUserToken_connections (relayEnv env)
                ("slack_" +:+ message_user message) now (relay a)) as Hconn.
  pose proof (getUserToken_finishes (relayEnv env)
                ("slack_" +:+ message_user message) now (relay a)) as Hfin.
  unfold tryCatchA at 1. unfold bindA at 1. rewrite liftRelay_spec.
  destruct (getUserToken (relayEnv env) ("slack_" +:+ message_user message) now
              (relay a)) as [[t|e|] w1]; cbn [fst snd] in Hfin, Hconn |- *.
  3:{ by destruct Hfin. }
  2:{ rewrite apology_spec. eexists. split; [reflexivity|].
      right; right; left. reflexivity. }
  unfold bindA at 1. rewrite samlBranch_spec.
  destruct (negb (JsString.truthyOpt t)).
  - unfold sendAuthenticationLink. fold link.
    destruct (sayA_spec env link (setRelay w1 a)) as [->|(e & ->)].
    + eexists. split; [reflexivity|]. right; left. reflexivity.
    + rewrite apology_spec. eexists. split; [reflexivity|].
      right; right; right. reflexivity.
  - assert (Hk1 : noUndefinedKey (relay (setRelay w1 a))).
    { unfold noUndefinedKey. cbn [relay setRelay]. rewrite Hconn. exact Hkey. }
    destruct (Hanswer t (setRelay w1 a) Hk1 eq_refl) as (a1 & E & H2).
    unfold tryCatchA at 1 in E. rewrite E.
    eexists. split; [reflexivity|].
    destruct H2 as [H2|H2]; [left|right; right; left]; exact H2.
Qed.

(** The theorem at a first message in the sample application, where no
    token is stored. *)
Lemma onMessage_says_only_link_or_apology_witness :
  noUndefinedKey (relay (initialized true))
  /\ fst (onMessage Samples.appEnv 2 (Samples.dm "hello") 1761000000000
            (initialized true)) = Returned tt.
Proof.
  assert (H : noUndefinedKey (relay (initialized true))) by reflexivity.
  split; [exact H|].
  exact (proj1 (onMessage_says_only_link_or_apology Samples.appEnv 0
                  (Samples.dm "hello") 1761000000000 (initialized true) H)).
Defined.

(** A read of the token store leaves the records of the middleware as they
    were. *)
Lemma getUserToken_records (env : Env) (u : string) (now : Z) (w : World) :
  questions (snd (getUserToken env u now w)) = questions w
  /\ startedConversations (snd (getUserToken env u now w)) = startedConversations w
  /\ providerRequests (snd (getUserToken env u now w)) = providerRequests w
  /\ slackCalls (snd (getUserToken env u now w)) = slackCalls w.
Proof.
  unfold getUserToken, logDate, bind, gets, tokensDelete, modify, tryCatch, throw, ret.
  repeat case_match; simplify_eq; repeat split; reflexivity.
Qed.

(** X18. The authentication gate. When authentication is required and the
    message is not skipped, the handler reads the stored token of
    ["slack_" + message.user]. When the read returns no usable token the
    handler says the authentication link for that user and does nothing
    else: no typing indicator, no thinking message, no session, no question
    to the agent. When the read returns a token the handler shows the
    typing indicator once and runs the turn of the middleware with that
    token; the link is not said, and the apology is said exactly when the
    turn throws. When the read throws, as it does for a stored expiration
    that is not a valid date, the handler says the apology and does nothing
    else. *)
Theorem onMessage_auth_gate (env : AppEnv) (fuel : nat) (message : SlackMessage)
    (now : Z) (a : AppWorld) (r : Outcome (option string)) (w1 : World) :
  requireAuth env = true ->
  isSkipped message = false ->
  getUserToken (relayEnv env) ("slack_" +:+ message_user message) now (relay a)
  = (r, w1) ->
  let link :=
    SayAuthenticationLink
      (authBaseUrl env +:+ "/auth/login/" +:+ message_user message) in
  let apology := SayText msgTurnError in
  let a' := snd (onMessage env fuel message now a) in
  match r with
  | Returned t =>
      if JsString.truthyOpt t then
        relay a'
        = snd (sendMessage (relayEnv env) fuel ("slack_" +:+ message_user message)
                 (message_text message) t now w1)
        /\ typingCalls a' = message_channel message :: typingCalls a
        /\ said a'
           = match fst (sendMessage (relayEnv env) fuel
                          ("slack_" +:+ message_user message) (message_text message)
                          t now w1) with
             | Thrown _ => apology :: said a
             | _ => said a
             end
      else
        relay a' = w1
        /\ typingCalls a' = typingCalls a
        /\ (said a' = link :: said a \/ said a' = apology :: link :: said a)
        /\ questions (relay a') = questions (relay a)
        /\ startedConversations (relay a') = startedConversations (relay a)
        /\ activeConnections (relay a') = activeConnections (relay a)
        /\ slackCalls (relay a') = slackCalls (relay a)
  | Thrown e =>
      relay a' = w1
      /\ typingCalls a' = typingCalls a
      /\ said a' = apology :: said a
      /\ questions (relay a') = questions (relay a)
      /\ startedConversations (relay a') = startedConversations (relay a)
      /\ activeConnections (relay a') = activeConnections (relay a)
      /\ slackCalls (relay a') = slackCalls (relay a)
  | Unfinished => False
  end.
Proof.
  intros Hauth Hskip Hget link apology a'. subst a'.
  pose proof (getUserToken_records (relayEnv env)
                ("slack_" +:+ message_user message) now (relay a)) as (Q & S & _ & C).
  pose proof (getUserToken_connections (relayEnv env)
                ("slack_" +:+ message_user message) now (relay a)) as Hconn.
  pose proof (getUserToken_finishes (relayEnv env)
                ("slack_" +:+ message_user message) now (relay a)) as Hfin.
  rewrite Hget in Q, S, C, Hconn, Hfin. cbn [fst snd] in Q, S, C, Hconn, Hfin.
  destruct r as [t|e|]; [| |by destruct Hfin].
  2:{ assert (E : onMessage env fuel message now a
                  = (Returned tt, logSaid (SayText msgTurnError) (setRelay w1 a))).
      { unfold onMessage. rewrite Hskip, Hauth.
        unfold tryCatchA at 1. unfold bindA at 1. rewrite liftRelay_spec, Hget.
        cbn [fst snd]. apply apology_spec. }
      rewrite E. cbn [snd relay logSaid setRelay typingCalls said].
      repeat split; assumption. }
  assert (E : onMessage env fuel message now a
              = tryCatchA
                  (if negb (JsString.truthyOpt t)
                   then sendAuthenticationLink env (message_user message)
                   else
                     showTypingIndicator env (message_channel message) ~;;
                     response <~ liftRelay
                       (sendMessage (relayEnv env) fuel
                          ("slack_" +:+ message_user message) (message_text message)
                          t now) ;;
                     sayIfText env response)
                  (fun error =>
                     tryCatchA (sayA env (SayText msgTurnError))
                       (fun sayError => retA tt))
                  (setRelay w1 a)).
  { unfold onMessage. rewrite Hskip, Hauth.
    unfold tryCatchA at 1 3. unfold bindA at 1. rewrite liftRelay_spec, Hget.
    cbn [fst snd]. unfold bindA at 1. rewrite samlBranch_spec. reflexivity. }
  assert (H : exists r a1,
             onMessage env fuel message now a = (r, a1)
             /\ if JsString.truthyOpt t then
                  relay a1
                  = snd (sendMessage (relayEnv env) fuel
                           ("slack_" +:+ message_user message)
                           (message_text message) t now w1)
                  /\ typingCalls a1 = message_channel message :: typingCalls a
                  /\ said a1
                     = match fst (sendMessage (relayEnv env) fuel
                                    ("slack_" +:+ message_user message)
                                    (message_text message) t now w1) with
                       | Thrown _ => apology :: said a
                       | _ => said a
                       end
                else
                  relay a1 = w1
                  /\ typingCalls a1 = typingCalls a
                  /\ (said a1 = link :: said a \/ said a1 = apology :: link :: said a)
                  /\ questions (relay a1) = questions (relay a)
                  /\ startedConversations (relay a1) = startedConversations (relay a)
                  /\ activeConnections (relay a1) = activeConnections (relay a)
                  /\ slackCalls (relay a1) = slackCalls (relay a)).
  2:{ destruct H as (r & a1 & -> & H). exact H. }
  rewrite E. clear E. unfold tryCatchA at 1.
  destruct (JsString.truthyOpt t); cbn [negb].
  - destruct (answer_spec env fuel (message_channel message)
                ("slack_" +:+ message_user message) (message_text message) t now
                (setRelay w1 a)) as (r & w & -> & -> & Hr).
    cbn [relay setRelay] in Hr |- *.
    destruct (fst (sendMessage (relayEnv env) fuel
                     ("slack_" +:+ message_user message) (message_text message)
                     t now w1)) as [x|e|]; subst r.
    + eexists _, _. split; [reflexivity|]. repeat split.
    + cbv beta iota. rewrite apology_spec.
      eexists _, _. split; [reflexivity|]. repeat split.
    + eexists _, _. split; [reflexivity|]. repeat split.
  - unfold sendAuthenticationLink. fold link.
    destruct (sayA_spec env link (setRelay w1 a)) as [->|(e & ->)].
    + eexists _, _. split; [reflexivity|].
      cbn [relay logSaid setRelay typingCalls said].
      repeat split; try assumption. left. reflexivity.
    + rewrite apology_spec. eexists _, _. split; [reflexivity|].
      cbn [relay logSaid setRelay typingCalls said].
      repeat split; try assumption. right. reflexivity.
Qed.

(** The theorem at the first message of a user of the sample application. *)
Lemma onMessage_auth_gate_witness :
  said (snd (onMessage Samples.appEnv 2 (Samples.dm "hello") 1761000000000
               (initialized true)))
  = [SayAuthenticationLink "https://bot.example/auth/login/U1"]
  /\ questions (relay (snd (onMessage Samples.appEnv 2 (Samples.dm "hello")
                              1761000000000 (initialized true)))) = [].
Proof.
  pose proof (onMessage_auth_gate Samples.appEnv 2 (Samples.dm "hello")
                1761000000000 (initialized true) (Returned None) (constructor false)
                eq_refl eq_refl eq_refl) as H.
  cbv zeta in H. cbn [JsString.truthyOpt] in H.
  destruct H as (_ & _ & _ & Q & _).
  split; [vm_compute; reflexivity | exact Q].
Defined.

(** ** The OAuth routes *)

(** X19. A code verifier is used once. After any call of
    [exchangeCodeForToken] for a user, whether it returned or threw, a
    further call for the same user throws the verifier-not-found error
    without a request to the token endpoint and without a change of state.
    The call leaves the verifiers of the other users and the middleware as
    they were and makes at most one request. *)
Theorem exchangeCodeForToken_single_use (env : AppEnv) (code code' u : string)
    (a : AppWorld) :
  exchangeCodeForToken env code' u (snd (exchangeCodeForToken env code u a))
  = (Thrown (Js.Rejected msgVerifierNotFound),
     snd (exchangeCodeForToken env code u a))
  /\ (forall u', u' <> u ->
        codeVerifiers (snd (exchangeCodeForToken env code u a)) !! u'
        = codeVerifiers a !! u')
  /\ relay (snd (exchangeCodeForToken env code u a)) = relay a
  /\ (length (tokenRequests (snd (exchangeCodeForToken env code u a)))
      <= 1 + length (tokenRequests a))%nat.
Proof.
  assert (Hgone : forall (a1 : AppWorld),
             codeVerifiers a1 !! u = None ->
             exchangeCodeForToken env code' u a1
             = (Thrown (Js.Rejected msgVerifierNotFound), a1)).
  { intros a1 H. unfold exchangeCodeForToken. rewrite H. reflexivity. }
  unfold exchangeCodeForToken at 2 3 4 5 6.
  destruct (codeVerifiers a !! u) as [v|] eqn:Hv.
  2:{ cbn [snd]. split; [apply Hgone; exact Hv|]. repeat split. lia. }
  destruct (JsString.truthy v) eqn:Htv; cbn [negb].
  2:{ cbn [snd]. split.
      - unfold exchangeCodeForToken. rewrite Hv, Htv. reflexivity.
      - repeat split. lia. }
  cbv zeta.
  assert (Hdel : forall r,
             codeVerifiers
               (logTokenRequest r (setCodeVerifiers (delete u) a)) !! u = None).
  { intros r. cbn [codeVerifiers logTokenRequest setCodeVerifiers].
    apply lookup_delete_eq. }
  assert (Hothers : forall r u', u' <> u ->
             codeVerifiers
               (logTokenRequest r (setCodeVerifiers (delete u) a)) !! u'
             = codeVerifiers a !! u').
  { intros r u' Hne. cbn [codeVerifiers logTokenRequest setCodeVerifiers].
    apply lookup_delete_ne. congruence. }
  destruct (fetchToken env
              (length (tokenRequests (setCodeVerifiers (delete u) a)))
              (tokenRequestBody env code v)); cbn [snd];
    (split; [apply Hgone, Hdel|]; split; [apply Hothers|]; split; [reflexivity|];
     cbn [tokenRequests logTokenRequest setCodeVerifiers length]; lia).
Qed.

(** What a login does: it draws a verifier, stores it for the user and
    redirects with the challenge of that verifier. *)
Lemma authLogin_spec (env : AppEnv) (u : string) (a : AppWorld) :
  authLogin env u a
  = (Returned
       (Redirect
          (mkAuthUrl
             (authority env +:+ "/" +:+ tenantId env +:+ "/oauth2/v2.0/authorize")
             [("client_id", appClientId env);
              ("response_type", "code");
              ("redirect_uri", server_baseUrl env +:+ "/auth/callback");
              ("scope", oauth_scope (relayEnv env));
              ("state", u);
              ("code_challenge",
               sha256Base64Url env (randomVerifier env (pkceDraws a)));
              ("code_challenge_method", "S256")])),
     setCodeVerifiers (insert u (randomVerifier env (pkceDraws a)))
       (countPkceDraw a)).
Proof. reflexivity. Qed.

(** What a callback does when the token endpoint accepts the code. *)
Lemma authCallback_accepted (env : AppEnv) (code u v t : string) (now : Z)
    (a : AppWorld) :
  JsString.truthy code = true ->
  JsString.truthy u = true ->
  codeVerifiers a !! u = Some v ->
  JsString.truthy v = true ->
  fetchToken env (length (tokenRequests a)) (tokenRequestBody env code v) = FetchOk t ->
  exists a',
    authCallback env (Some code) (Some u) now a
    = (Returned AuthenticationSuccessfulPage, a')
    /\ tokenRequests a' = tokenRequestBody env code v :: tokenRequests a
    /\ codeVerifiers a' = delete u (codeVerifiers a)
    /\ pkceDraws a' = pkceDraws a
    /\ slackBot a' = slackBot a
    /\ userTokens (relay a')
       = userTokens
           (snd (storeUserToken (relayEnv env) ("slack_" +:+ u) t now (relay a)))
    /\ activeConnections (relay a') = activeConnections (relay a)
    /\ slackCalls (relay a')
       = (if slackBot a
          then [ChatPostMessage (JsString.replace "slack_" "" u) (authSuccessText env)]
          else []) ++ slackCalls (relay a).
Proof.
  intros Hc Hu Hv Htv Hf.
  unfold authCallback. cbn [JsString.truthyOpt]. rewrite Hc, Hu. cbn [negb orb].
  change (default EmptyString (Some u)) with u.
  change (default EmptyString (Some code)) with code.
  unfold tryCatchA. unfold bindA at 1.
  unfold exchangeCodeForToken. rewrite Hv, Htv. cbn [negb]. cbv zeta.
  cbn [tokenRequests setCodeVerifiers]. rewrite Hf.
  unfold bindA at 1. rewrite liftRelay_spec.
  unfold storeUserToken at 1. unfold modify at 1. cbn [fst snd].
  unfold bindA at 1. cbn [slackBot setRelay logTokenRequest setCodeVerifiers].
  destruct (slackBot a) eqn:Hb.
  - unfold bindA at 1. unfold notifyAuthSuccess. rewrite liftRelay_spec.
    unfold bind, gets, modify, ret.
    destruct (chat_postMessage (relayEnv env) _ _ _); cbn [fst snd];
      (eexists; split; [reflexivity|]; repeat split; exact Hb).
  - unfold bindA, retA. eexists. split; [reflexivity|]. repeat split. exact Hb.
Qed.

(** X20. From the login to the stored token. For a non-empty user id and
    code, when the verifier drawn at the login is not empty and the token
    endpoint accepts the exchange, the login redirects with the state set
    to the user id and the challenge of the drawn verifier, and the
    callback that follows answers with the success page after one token
    request, which carries that same verifier. The verifier is then gone,
    and the token is stored under ["slack_" + state] at the time of the
    callback; if the token carries no expiration, every later read of that
    key, the one the chat bot makes, returns it. *)
Theorem login_then_callback (env : AppEnv) (u code t : string) (now : Z)
    (a : AppWorld) :
  JsString.truthy u = true ->
  JsString.truthy code = true ->
  JsString.truthy (randomVerifier env (pkceDraws a)) = true ->
  fetchToken env (length (tokenRequests a))
    (tokenRequestBody env code (randomVerifier env (pkceDraws a))) = FetchOk t ->
  exists url a1 a2 d,
    authLogin env u a = (Returned (Redirect url), a1)
    /\ In ("state", u) (url_params url)
    /\ In ("code_challenge",
           sha256Base64Url env (randomVerifier env (pkceDraws a))) (url_params url)
    /\ authCallback env (Some code) (Some u) now a1
       = (Returned AuthenticationSuccessfulPage, a2)
    /\ tokenRequests a2
       = tokenRequestBody env code (randomVerifier env (pkceDraws a))
         :: tokenRequests a
    /\ codeVerifiers a2 !! u = None
    /\ userTokens (relay a2) !! ("slack_" +:+ u) = Some (Structured d)
    /\ token d = t
    /\ storedAt d = now
    /\ (expiresAt d = None ->
        forall now',
          fst (getUserToken (relayEnv env) ("slack_" +:+ u) now' (relay a2))
          = Returned (Some t)).
Proof.
  intros Hu Hc Hv Hf.
  rewrite authLogin_spec.
  set (v := randomVerifier env (pkceDraws a)) in *.
  set (a1 := setCodeVerifiers (insert u v) (countPkceDraw a)).
  assert (Hv1 : codeVerifiers a1 !! u = Some v).
  { subst a1. cbn [codeVerifiers setCodeVerifiers countPkceDraw].
    apply lookup_insert_eq. }
  destruct (authCallback_accepted env code u v t now a1 Hc Hu Hv1 Hv Hf)
    as (a2 & E & HR & HV & _ & _ & HT & _).
  assert (Hd : userTokens (relay a2) !! ("slack_" +:+ u)
               = Some (Structured
                         (mkTokenData t now now
                            match jwtExp (relayEnv env) t with
                            | inr (Some (Some exp)) =>
                                if Js.truthy (Some exp)
                                then Some (expMillis (relayEnv env) exp) else None
                            | inr (Some None) => None
                            | inr None => None
                            | inl jwtError => None
                            end))).
  { rewrite HT. unfold storeUserToken, modify. cbn [snd userTokens setTokens].
    apply lookup_insert_eq. }
  eexists _, a1, a2, _.
  split; [reflexivity|]. cbn [url_params].
  split; [do 4 right; left; reflexivity|].
  split; [do 5 right; left; reflexivity|].
  split; [exact E|]. split; [exact HR|].
  split; [rewrite HV; apply lookup_delete_eq|].
  split; [exact Hd|]. split; [reflexivity|]. split; [reflexivity|].
  intros Hx now'.
  rewrite (getUserToken_no_expiry (relayEnv env) _ _ now' (relay a2) Hd Hx).
  reflexivity.
Qed.

(** The theorem in the sample application, for the user ["U1"] and the code
    that the sample token endpoint accepts. *)
Lemma login_then_callback_witness :
  fst (authCallback Samples.appEnv (Some "good-code") (Some "U1") 1761000000000
         (snd (authLogin Samples.appEnv "U1" (initialized true))))
  = Returned AuthenticationSuccessfulPage.
Proof.
  destruct (login_then_callback Samples.appEnv "U1" "good-code" "opaque-user-token"
              1761000000000 (initialized true) eq_refl eq_refl eq_refl eq_refl)
    as (url & a1 & a2 & d & E1 & _ & _ & E2 & _).
  rewrite E1. cbn [snd]. rewrite E2. reflexivity.
Defined.

(** X21. The callback fails closed. It always answers, and unless it
    answers with the success page the middleware is as it was: no token is
    stored and nothing is posted to Slack. When no verifier is pending for
    the state, as for a callback that is replayed or that follows no login,
    the answer is not the success page, no request is made to the token
    endpoint and nothing changes at all; the answer is the bad-request one
    exactly when the code or the state is missing or empty. *)
Theorem authCallback_fails_closed (env : AppEnv) (code state : option string)
    (now : Z) (a : AppWorld) :
  exists page a',
    authCallback env code state now a = (Returned page, a')
    /\ (page <> AuthenticationSuccessfulPage -> relay a' = relay a)
    /\ (page = BadRequestMissingCodeOrState <->
        JsString.truthyOpt code && JsString.truthyOpt state = false)
    /\ (codeVerifiers a !! default EmptyString state = None ->
        a' = a
        /\ page = (if JsString.truthyOpt code && JsString.truthyOpt state
                   then AuthenticationFailedPage msgVerifierNotFound
                   else BadRequestMissingCodeOrState)).
Proof.
  unfold authCallback.
  destruct (JsString.truthyOpt code) eqn:Hc; cbn [negb orb andb].
  2:{ eexists _, _. split; [reflexivity|]. repeat split; try reflexivity. }
  destruct (JsString.truthyOpt state) eqn:Hs; cbn [negb].
  2:{ eexists _, _. split; [reflexivity|]. repeat split; try reflexivity. }
  unfold tryCatchA. unfold bindA at 1.
  unfold exchangeCodeForToken.
  destruct (codeVerifiers a !! default EmptyString state) as [v|] eqn:Hv.
  2:{ eexists _, _. split; [reflexivity|].
      split; [reflexivity|]. split; [split; discriminate|].
      intros _. split; reflexivity. }
  destruct (JsString.truthy v); cbn [negb].
  2:{ eexists _, _. split; [reflexivity|].
      split; [reflexivity|]. split; [split; discriminate|]. discriminate. }
  cbv zeta.
  destruct (fetchToken env _ _).
  1,2,4: (eexists _, _; split; [reflexivity|];
          split; [reflexivity|]; split; [split; discriminate|]; discriminate).
  unfold bindA at 1. rewrite liftRelay_spec.
  unfold storeUserToken at 1. unfold modify at 1. cbn [fst snd].
  unfold bindA at 1. cbn [slackBot setRelay logTokenRequest setCodeVerifiers].
  destruct (slackBot a).
  - unfold bindA at 1. unfold notifyAuthSuccess. rewrite liftRelay_spec.
    unfold bind, gets, modify, ret.
    destruct (chat_postMessage (relayEnv env) _ _ _); cbn [fst snd];
      (eexists _, _; split; [reflexivity|];
       split; [intros H; by destruct H|]; split; [split; discriminate|]; discriminate).
  - unfold bindA, retA. eexists _, _. split; [reflexivity|].
    split; [intros H; by destruct H|]. split; [split; discriminate|]. discriminate.
Qed.

(** ** An invariant of the registry *)

(** The connection that [createUserConnection] returns carries the user id
    it was created for. *)
Lemma createUserConnection_userId (env : Env) (u : string) (tok : option string)
    (now : Z) (w : World) (c : Connection) (w' : World) :
  createUserConnection env u tok now w = (Returned c, w') ->
  connection_userId c = u
  /\ lastActivity c = now
  /\ activeConnections w' = <[Some u := c]> (activeConnections w).
Proof.
  intros H. pose proof (createUserConnection_effect env u tok now w) as HE.
  rewrite H in HE. destruct HE as (HA & _).
  rewrite createUserConnection_spec in H.
  destruct (if JsString.truthyOpt tok
            then (Returned (default EmptyString tok), w)
            else getServiceToken env now w) as [[t|e|] w1]; try discriminate.
  destruct (startConversationAsync env (length (startedConversations w1)) (mkClient t));
    try discriminate.
  cbv zeta in H. injection H as <- _. repeat split. exact HA.
Qed.

(** A turn keeps the sessions of the registry under their user ids. *)
Lemma sendMessage_keys (env : Env) (fuel : nat) (u text : string)
    (tok : option string) (now : Z) (w : World) :
  (forall k c, activeConnections w !! k = Some c -> k = Some (connection_userId c)) ->
  forall k c,
    activeConnections (snd (sendMessage env fuel u text tok now w)) !! k = Some c ->
    k = Some (connection_userId c).
Proof.
  intros Hw. rewrite sendMessage_unfold.
  destruct (postThinkingMessage_spec env u w) as (tm & w0 & -> & F0 & _ & _).
  assert (Hw0 : forall k c, activeConnections w0 !! k = Some c ->
                            k = Some (connection_userId c)).
  { destruct F0 as (-> & _). exact Hw. }
  assert (Hw1 : forall k c,
             activeConnections (snd (resolveConnection env u tok now w0)) !! k = Some c ->
             k = Some (connection_userId c)).
  { pose proof (resolveConnection_effect env u tok now w0) as HR.
    destruct (resolveConnection env u tok now w0) as [[conn|e|] w1]; cbn [snd];
      [| |destruct HR].
    - destruct HR as [[_ ->]|[_ HC]]; [exact Hw0|].
      destruct (createUserConnection_userId _ _ _ _ _ _ _ HC) as (Hu & _ & ->).
      intros k c Hk. destruct (decide (k = Some u)) as [->|Hne].
      + rewrite lookup_insert_eq in Hk. injection Hk as <-. by rewrite Hu.
      + rewrite lookup_insert_ne in Hk by congruence. by apply Hw0.
    - destruct HR as [_ HC].
      pose proof (createUserConnection_effect env u tok now w0) as HE.
      rewrite HC in HE. destruct HE as (-> & _). exact Hw0. }
  assert (Hframe : forall wa wb, onlyAsks wa wb ->
             (forall k c, activeConnections wa !! k = Some c ->
                          k = Some (connection_userId c)) ->
             forall k c, activeConnections wb !! k = Some c ->
                         k = Some (connection_userId c)).
  { intros wa wb (-> & _) H. exact H. }
  destruct (resolveConnection env u tok now w0) as [[conn|e|] w1];
    cbn [fst snd] in Hw1; [| |exact Hw1].
  2:{ destruct (turnFailed_spec env tm e w1) as (wf & -> & Ff & _).
      exact (Hframe _ _ Ff Hw1). }
  destruct (askQuestion_onlyAsks env conn text w1) as (F2 & _ & _).
  pose proof (Hframe _ _ F2 Hw1) as Hw2.
  destruct (askQuestion env conn text w1) as [[replies|e|] w2];
    cbn [fst snd] in F2, Hw2; [| |exact Hw2].
  2:{ destruct (turnFailed_spec env tm e w2) as (wf & -> & Ff & _).
      exact (Hframe _ _ Ff Hw2). }
  pose proof (resolveReply_onlyAsks env fuel u replies w2) as F3.
  pose proof (Hframe _ _ F3 Hw2) as Hw3.
  destruct (resolveReply env fuel u replies w2) as [[reply|e|] w3];
    cbn [fst snd] in F3, Hw3; [| |exact Hw3].
  - destruct (updateIfThinking_spec env tm reply w3) as (w4 & -> & F4 & _).
    pose proof (Hframe _ _ F4 Hw3) as Hw4.
    unfold touchConnection, modify.
    cbn [snd activeConnections setConnections].
    intros k c Hk. destruct (decide (k = Some u)) as [->|Hne].
    + rewrite lookup_alter_eq in Hk.
      destruct (activeConnections w4 !! Some u) as [c0|] eqn:H0; [|discriminate].
      cbn in Hk. injection Hk as <-. cbn [connection_userId].
      exact (Hw4 _ _ H0).
    + rewrite lookup_alter_ne in Hk by congruence. exact (Hw4 _ _ Hk).
  - destruct (turnFailed_spec env tm e w3) as (wf & -> & Ff & _).
    exact (Hframe _ _ Ff Hw3).
Qed.

(** X22. Whatever operations of the middleware have run, in whatever order
    and with whatever outcome, every session of the registry is stored
    under the user id that it carries; in particular no two entries of the
    registry carry the same user id. *)
Theorem registry_keys_are_user_ids (env : Env) (w : World) :
  reachable env w ->
  (forall k c, activeConnections w !! k = Some c -> k = Some (connection_userId c))
  /\ (forall k1 k2 c1 c2,
        activeConnections w !! k1 = Some c1 ->
        activeConnections w !! k2 = Some c2 ->
        connection_userId c1 = connection_userId c2 ->
        k1 = k2 /\ c1 = c2).
Proof.
  intros Hr.
  assert (H : forall k c, activeConnections w !! k = Some c ->
                          k = Some (connection_userId c)).
  2:{ split; [exact H|]. intros k1 k2 c1 c2 H1 H2 Hu.
      pose proof (H _ _ H1) as E1. pose proof (H _ _ H2) as E2.
      assert (k1 = k2) as <- by congruence.
      split; [reflexivity | congruence]. }
  induction Hr as [b|w _ IH|w u a now _ IH|w u now _ IH|w u _ IH|w u _ IH
                  |w fuel u text tok now _ IH|w u now _ IH|w now _ IH].
  - intros k c Hk. cbn in Hk. rewrite lookup_empty in Hk. discriminate.
  - exact IH.
  - exact IH.
  - rewrite getUserToken_connections. exact IH.
  - exact IH.
  - unfold clearUserConnection, connectionsDelete. cbn.
    intros k c Hk. apply lookup_delete_Some in Hk as [_ Hk]. exact (IH _ _ Hk).
  - by apply sendMessage_keys.
  - unfold newConversation, connectionsDelete. unfold bind at 1.
    set (w1 := logRegistryOp (RegDelete (Some u)) (setConnections (delete (Some u)) w)).
    assert (Hw1 : forall k c, activeConnections w1 !! k = Some c ->
                              k = Some (connection_userId c)).
    { subst w1. cbn. intros k c Hk.
      apply lookup_delete_Some in Hk as [_ Hk]. exact (IH _ _ Hk). }
    unfold bind, ret.
    pose proof (createUserConnection_effect env u None now w1) as H.
    destruct (createUserConnection env u None now w1) as [[c|e|] w'] eqn:HC;
      cbn beta iota; cbn [snd].
    + destruct (createUserConnection_userId _ _ _ _ _ _ _ HC) as (Hu & _ & ->).
      intros k c' Hk. destruct (decide (k = Some u)) as [->|Hne].
      * rewrite lookup_insert_eq in Hk. injection Hk as <-. by rewrite Hu.
      * rewrite lookup_insert_ne in Hk by congruence. by apply Hw1.
    + destruct H as (-> & _). exact Hw1.
    + destruct H.
  - intros k c Hk. rewrite cleanup_connections_lookup in Hk.
    destruct (activeConnections w !! k) as [c0|] eqn:H0; [|discriminate].
    destruct (connectionTimeoutMs env <? now - lastActivity c0); [discriminate|].
    injection Hk as <-. exact (IH _ _ H0).
Qed.

(** The theorem after a turn, a new conversation and a run of the janitor
    in the sample environment. *)
Lemma registry_keys_are_user_ids_witness :
  reachable Fixtures.env
    (snd (cleanup Fixtures.env 1761000002000
            (snd (newConversation Fixtures.env Fixtures.user 1761000001000
                    (snd (sendMessage Fixtures.env 2 Fixtures.user "hello" None
                            1761000000000 (constructor true)))))))
  /\ forall k c,
      activeConnections
        (snd (cleanup Fixtures.env 1761000002000
                (snd (newConversation Fixtures.env Fixtures.user 1761000001000
                        (snd (sendMessage Fixtures.env 2 Fixtures.user "hello" None
                                1761000000000 (constructor true))))))) !! k = Some c ->
      k = Some (connection_userId c).
Proof.
  pose proof (reach_cleanup Fixtures.env _ 1761000002000
                (reach_newConversation Fixtures.env _ Fixtures.user 1761000001000
                   (reach_sendMessage Fixtures.env _ 2%nat Fixtures.user "hello" None
                      1761000000000 (reach_constructor Fixtures.env true)))) as Hr.
  split; [exact Hr|].
  exact (proj1 (registry_keys_are_user_ids Fixtures.env _ Hr)).
Defined.
